(** * pkg/devicemapper/devmapper.go: task protocol and thin-device orchestration

    A shallow embedding of the Go wrapper around libdevmapper.  The native
    engine (the [Dm*] function variables of the package, bound to cgo in a
    file that is not part of this development) is a parameter: a record of
    functions over an abstract engine state.  Go code that threads the
    process-wide flags [dmSawBusy] / [dmSawExist] and talks to the engine
    becomes a state monad over a [World]; every native call is also logged in
    a trace so that "what was sent to the engine" can be stated.

    Not modelled: [runtime.SetFinalizer] (garbage-collection hook) and the
    logrus debug output. *)

From Stdlib Require Import ZArith List Ascii String Bool Lia DecimalString.
Import ListNotations.
Local Open Scope string_scope.
Local Open Scope Z_scope.
Local Open Scope list_scope.

(** String concatenation, as [fmt] formats into a template. *)
Infix "+++" := String.append (right associativity, at level 60).

(** ** Go values *)

(** Go's [int] on the 64-bit Linux targets this package is built for:
    arithmetic wraps around modulo 2^64 into the signed range. *)
Definition intSize : Z := 64.
Definition MaxInt : Z := 2 ^ (intSize - 1) - 1.
Definition MinInt : Z := - 2 ^ (intSize - 1).
Definition wrap_int (x : Z) : Z :=
  (x + 2 ^ (intSize - 1)) mod 2 ^ intSize - 2 ^ (intSize - 1).

(** [*deviceId++] *)
Definition incr (id : Z) : Z := wrap_int (id + 1).

(** The [%d] verb of [fmt] on an integer. *)
Definition itoa (z : Z) : string := NilEmpty.string_of_int (Z.to_int z).

(** ** Errors

    The package-level sentinels created with [errors.New], and the fresh
    errors built by [fmt.Errorf], which carry only their formatted text. *)
Inductive Err : Type :=
| ErrTaskRun
| ErrTaskSetName
| ErrTaskSetMessage
| ErrTaskSetAddNode
| ErrTaskSetRo
| ErrTaskAddTarget
| ErrTaskSetSector
| ErrTaskGetDeps
| ErrTaskGetInfo
| ErrTaskGetDriverVersion
| ErrTaskSetCookie
| ErrNilCookie
| ErrAttachLoopbackDevice
| ErrGetBlockSize
| ErrUdevWait
| ErrSetDevDir
| ErrGetLibraryVersion
| ErrCreateRemoveTask
| ErrRunRemoveDevice
| ErrInvalidAddNode
| ErrGetLoopbackBackingFile
| ErrLoopbackSetCapacity
| ErrBusy
| Errorf (text : string).

(** [err.Error()] *)
Definition Error (e : Err) : string :=
  match e with
  | ErrTaskRun => "dm_task_run failed"
  | ErrTaskSetName => "dm_task_set_name failed"
  | ErrTaskSetMessage => "dm_task_set_message failed"
  | ErrTaskSetAddNode => "dm_task_set_add_node failed"
  | ErrTaskSetRo => "dm_task_set_ro failed"
  | ErrTaskAddTarget => "dm_task_add_target failed"
  | ErrTaskSetSector => "dm_task_set_sector failed"
  | ErrTaskGetDeps => "dm_task_get_deps failed"
  | ErrTaskGetInfo => "dm_task_get_info failed"
  | ErrTaskGetDriverVersion => "dm_task_get_driver_version failed"
  | ErrTaskSetCookie => "dm_task_set_cookie failed"
  | ErrNilCookie => "cookie ptr can't be nil"
  | ErrAttachLoopbackDevice => "loopback mounting failed"
  | ErrGetBlockSize => "Can't get block size"
  | ErrUdevWait => "wait on udev cookie failed"
  | ErrSetDevDir => "dm_set_dev_dir failed"
  | ErrGetLibraryVersion => "dm_get_library_version failed"
  | ErrCreateRemoveTask => "Can't create task of type DeviceRemove"
  | ErrRunRemoveDevice => "running RemoveDevice failed"
  | ErrInvalidAddNode => "Invalid AddNode type"
  | ErrGetLoopbackBackingFile => "Unable to get loopback backing file"
  | ErrLoopbackSetCapacity => "Unable set loopback capacity"
  | ErrBusy => "Device is Busy"
  | Errorf text => text
  end.

(** A Go [error] value: [nil] or an error. *)
Definition error : Type := option Err.
Definition nil_error : error := None.

(** ** Task kinds and add-node policies ([iota] constants) *)

Definition TaskType : Type := Z.
Definition DeviceCreate : TaskType := 0.
Definition DeviceReload : TaskType := 1.
Definition DeviceRemove : TaskType := 2.
Definition DeviceRemoveAll : TaskType := 3.
Definition DeviceSuspend : TaskType := 4.
Definition DeviceResume : TaskType := 5.
Definition DeviceInfo : TaskType := 6.
Definition DeviceDeps : TaskType := 7.
Definition DeviceRename : TaskType := 8.
Definition DeviceVersion : TaskType := 9.
Definition DeviceStatus : TaskType := 10.
Definition DeviceTable : TaskType := 11.
Definition DeviceWaitevent : TaskType := 12.
Definition DeviceList : TaskType := 13.
Definition DeviceClear : TaskType := 14.
Definition DeviceMknodes : TaskType := 15.
Definition DeviceListVersions : TaskType := 16.
Definition DeviceTargetMsg : TaskType := 17.
Definition DeviceSetGeometry : TaskType := 18.

Definition AddNodeType : Type := Z.
Definition AddNodeOnResume : AddNodeType := 0.
Definition AddNodeOnCreate : AddNodeType := 1.

(** ** Structs *)

(** A non-nil [*CDmTask]: an opaque handle owned by the engine. *)
Definition CDmTask : Type := nat.

Record Task : Type := mkTask { unmanaged : CDmTask }.

Record Info : Type := mkInfo {
  Exists : Z;
  Suspended : Z;
  LiveTable : Z;
  InactiveTable : Z;
  OpenCount : Z;
  EventNr : Z;
  Major : Z;
  Minor : Z;
  ReadOnly : Z;
  TargetCount : Z
}.

(** [&Info{}] *)
Definition zeroInfo : Info := mkInfo 0 0 0 0 0 0 0 0 0 0.

(** ** The native engine *)

(** Modelled from the spec: the log callback registered with the engine is
    not among the sources.  The spec (section 3, "Process-wide Last-Error
    State") says it raises the two flags while the engine is at work; a
    [Captured] value is what the callback saw during one native call. *)
Record Captured : Type := mkCaptured { saw_busy : bool; saw_exist : bool }.
Definition quiet : Captured := mkCaptured false false.

(** The function variables [DmTaskCreate], [DmTaskRun], ... over an engine
    state [E].  Each returns its C result, what the log callback captured
    meanwhile, and the next engine state.  Out-parameters are returned. *)
Record Native (E : Type) : Type := mkNative {
  DmTaskCreate : Z -> E -> option CDmTask * Captured * E;
  DmTaskRun : CDmTask -> E -> Z * Captured * E;
  DmTaskSetName : CDmTask -> string -> E -> Z * Captured * E;
  DmTaskSetMessage : CDmTask -> string -> E -> Z * Captured * E;
  DmTaskSetSector : CDmTask -> Z -> E -> Z * Captured * E;
  DmTaskSetCookie : CDmTask -> Z -> Z -> E -> (Z * Z) * Captured * E;
  DmTaskSetAddNode : CDmTask -> AddNodeType -> E -> Z * Captured * E;
  DmTaskSetRo : CDmTask -> E -> Z * Captured * E;
  DmTaskAddTarget : CDmTask -> Z -> Z -> string -> string -> E -> Z * Captured * E;
  DmTaskGetInfo : CDmTask -> Info -> E -> (Z * Info) * Captured * E;
  DmGetNextTarget : CDmTask -> Z -> E -> (Z * Z * Z * string * string) * Captured * E;
  DmUdevWait : Z -> E -> Z * Captured * E
}.

Arguments DmTaskCreate {E}.
Arguments DmTaskRun {E}.
Arguments DmTaskSetName {E}.
Arguments DmTaskSetMessage {E}.
Arguments DmTaskSetSector {E}.
Arguments DmTaskSetCookie {E}.
Arguments DmTaskSetAddNode {E}.
Arguments DmTaskSetRo {E}.
Arguments DmTaskAddTarget {E}.
Arguments DmTaskGetInfo {E}.
Arguments DmGetNextTarget {E}.
Arguments DmUdevWait {E}.

(** One entry of the engine log: the native call with its arguments and its
    result, and what the log callback captured during it. *)
Inductive Call : Type :=
| CTaskCreate (tasktype : Z) (res : option CDmTask)
| CTaskRun (t : CDmTask) (res : Z)
| CTaskSetName (t : CDmTask) (name : string) (res : Z)
| CTaskSetMessage (t : CDmTask) (message : string) (res : Z)
| CTaskSetSector (t : CDmTask) (sector : Z) (res : Z)
| CTaskSetCookie (t : CDmTask) (cookie flags : Z) (res : Z * Z)
| CTaskSetAddNode (t : CDmTask) (addNode : AddNodeType) (res : Z)
| CTaskSetRo (t : CDmTask) (res : Z)
| CTaskAddTarget (t : CDmTask) (start size : Z) (ttype params : string) (res : Z)
| CTaskGetInfo (t : CDmTask) (res : Z * Info)
| CGetNextTarget (t : CDmTask) (next : Z) (res : Z * Z * Z * string * string)
| CUdevWait (cookie : Z) (res : Z).

Record Event : Type := mkEvent { call : Call; heard : Captured }.

(** ** The world: engine state, package-level flags, engine log *)

Record World (E : Type) : Type := mkWorld {
  eng : E;
  dmSawBusy : bool;
  dmSawExist : bool;
  trace : list Event
}.

Arguments mkWorld {E}.
Arguments eng {E}.
Arguments dmSawBusy {E}.
Arguments dmSawExist {E}.
Arguments trace {E}.

(** ** State monad *)

Definition M (E A : Type) : Type := World E -> A * World E.

Definition ret {E A} (a : A) : M E A := fun w => (a, w).

Definition bind {E A B} (m : M E A) (k : A -> M E B) : M E B :=
  fun w => let (a, w1) := m w in k a w1.

Declare Scope go_scope.
Delimit Scope go_scope with go.
Notation "x <- m ;; k" := (bind m (fun x => k))
  (at level 61, m at next level, right associativity) : go_scope.
Notation "' p <- m ;; k" := (bind m (fun x => let 'p := x in k))
  (at level 61, p pattern, m at next level, right associativity) : go_scope.
Notation "m ;;; k" := (bind m (fun _ => k))
  (at level 61, right associativity) : go_scope.
Local Open Scope go_scope.

(** [defer d] placed before [body]: [d] runs when the function returns,
    whatever [body] returns; the deferred call's own result is dropped. *)
Definition defer {E A B} (d : M E B) (body : M E A) : M E A :=
  a <- body ;; d ;;; ret a.

(** Assignments to the package-level flags. *)
Definition set_dmSawBusy {E} (b : bool) : M E unit :=
  fun w => (tt, mkWorld (eng w) b (dmSawExist w) (trace w)).
Definition set_dmSawExist {E} (b : bool) : M E unit :=
  fun w => (tt, mkWorld (eng w) (dmSawBusy w) b (trace w)).
Definition get_dmSawBusy {E} : M E bool := fun w => (dmSawBusy w, w).
Definition get_dmSawExist {E} : M E bool := fun w => (dmSawExist w, w).

(** The world after a native call: the engine has moved on, the callback may
    have raised flags (it never lowers them), the call is logged. *)
Definition after {E} (w : World E) (c : Call) (cap : Captured) (e : E) : World E :=
  mkWorld e (dmSawBusy w || saw_busy cap) (dmSawExist w || saw_exist cap)
          (trace w ++ [mkEvent c cap]).

Definition native {E A} (f : E -> A * Captured * E) (c : A -> Call) : M E A :=
  fun w => let '(a, cap, e) := f (eng w) in (a, after w (c a) cap e).

(** ** The Go functions *)

Section Devmapper.

Context {E : Type} (N : Native E).

Local Abbreviation Go := (M E).

(** *** Task *)

Definition TaskCreate (tasktype : TaskType) : Go (option Task) :=
  Ctask <- native (DmTaskCreate N tasktype) (CTaskCreate tasktype) ;;
  match Ctask with
  | None => ret None
  | Some c => ret (Some (mkTask c))
  end.

Definition Run (t : Task) : Go error :=
  res <- native (DmTaskRun N (unmanaged t)) (CTaskRun (unmanaged t)) ;;
  if negb (res =? 1) then ret (Some ErrTaskRun) else ret nil_error.

Definition SetName (t : Task) (name : string) : Go error :=
  res <- native (DmTaskSetName N (unmanaged t) name) (CTaskSetName (unmanaged t) name) ;;
  if negb (res =? 1) then ret (Some ErrTaskSetName) else ret nil_error.

Definition SetMessage (t : Task) (message : string) : Go error :=
  res <- native (DmTaskSetMessage N (unmanaged t) message)
                (CTaskSetMessage (unmanaged t) message) ;;
  if negb (res =? 1) then ret (Some ErrTaskSetMessage) else ret nil_error.

Definition SetSector (t : Task) (sector : Z) : Go error :=
  res <- native (DmTaskSetSector N (unmanaged t) sector)
                (CTaskSetSector (unmanaged t) sector) ;;
  if negb (res =? 1) then ret (Some ErrTaskSetSector) else ret nil_error.

(** [cookie *uint]: [None] is the nil pointer, [Some c] a pointer to a slot
    holding [c]; the slot's content after the call is returned. *)
Definition SetCookie (t : Task) (cookie : option Z) (flags : Z) : Go (error * option Z) :=
  match cookie with
  | None => ret (Some ErrNilCookie, None)
  | Some c =>
      r <- native (DmTaskSetCookie N (unmanaged t) c flags)
                  (CTaskSetCookie (unmanaged t) c flags) ;;
      if negb (fst r =? 1) then ret (Some ErrTaskSetCookie, Some (snd r))
      else ret (nil_error, Some (snd r))
  end.

Definition SetAddNode (t : Task) (addNode : AddNodeType) : Go error :=
  if negb (addNode =? AddNodeOnResume) && negb (addNode =? AddNodeOnCreate)
  then ret (Some ErrInvalidAddNode)
  else
    res <- native (DmTaskSetAddNode N (unmanaged t) addNode)
                  (CTaskSetAddNode (unmanaged t) addNode) ;;
    if negb (res =? 1) then ret (Some ErrTaskSetAddNode) else ret nil_error.

Definition SetRo (t : Task) : Go error :=
  res <- native (DmTaskSetRo N (unmanaged t)) (CTaskSetRo (unmanaged t)) ;;
  if negb (res =? 1) then ret (Some ErrTaskSetRo) else ret nil_error.

Definition AddTarget (t : Task) (start size : Z) (ttype params : string) : Go error :=
  res <- native (DmTaskAddTarget N (unmanaged t) start size ttype params)
                (CTaskAddTarget (unmanaged t) start size ttype params) ;;
  if negb (res =? 1) then ret (Some ErrTaskAddTarget) else ret nil_error.

Definition Task_GetInfo (t : Task) : Go (option Info * error) :=
  r <- native (DmTaskGetInfo N (unmanaged t) zeroInfo) (CTaskGetInfo (unmanaged t)) ;;
  if negb (fst r =? 1) then ret (None, Some ErrTaskGetInfo)
  else ret (Some (snd r), nil_error).

Definition GetNextTarget (t : Task) (next : Z) : Go (Z * Z * Z * string * string) :=
  native (DmGetNextTarget N (unmanaged t) next) (CGetNextTarget (unmanaged t) next).

(** [TaskCreateNamed]: [TaskCreate] followed by [SetName]. *)
Definition TaskCreateNamed (t : TaskType) (name : string) : Go (option Task * error) :=
  task <- TaskCreate t ;;
  match task with
  | None => ret (None, Some (Errorf ("Can't create task of type " +++ itoa t)))
  | Some task =>
      err <- SetName task name ;;
      match err with
      | Some _ => ret (None, Some (Errorf ("Can't set task name " +++ name)))
      | None => ret (Some task, nil_error)
      end
  end.

(** *** Udev synchronisation *)

Definition UdevWait (cookie : Z) : Go error :=
  res <- native (DmUdevWait N cookie) (CUdevWait cookie) ;;
  if negb (res =? 1) then ret (Some ErrUdevWait) else ret nil_error.

(** *** Device operations *)

Definition RemoveDevice (name : string) : Go error :=
  '(task, err) <- TaskCreateNamed DeviceRemove name ;;
  match task with
  | None => ret err
  | Some task =>
      '(err, cookie) <- SetCookie task (Some 0) 0 ;;
      match err, cookie with
      | Some err, _ => ret (Some (Errorf ("Can not set cookie: " +++ Error err)))
      | None, None => ret nil_error (* unreachable: the slot was supplied *)
      | None, Some cookie =>
          defer (UdevWait cookie)
            (set_dmSawBusy false ;;; (* reset before the task is run *)
             err <- Run task ;;
             match err with
             | Some err =>
                 sawBusy <- get_dmSawBusy ;;
                 if sawBusy then ret (Some ErrBusy)
                 else ret (Some (Errorf ("Error running RemoveDevice " +++ Error err)))
             | None => ret nil_error
             end)
      end
  end.

Definition GetInfo (name : string) : Go (option Info * error) :=
  '(task, err) <- TaskCreateNamed DeviceInfo name ;;
  match task with
  | None => ret (None, err)
  | Some task =>
      err <- Run task ;;
      match err with
      | Some err => ret (None, Some err)
      | None => Task_GetInfo task
      end
  end.

Definition GetStatus (name : string) : Go (Z * Z * string * string * error) :=
  '(task, err) <- TaskCreateNamed DeviceStatus name ;;
  match task with
  | None => ret (0, 0, "", "", err)
  | Some task =>
      err <- Run task ;;
      match err with
      | Some err => ret (0, 0, "", "", Some err)
      | None =>
          '(devinfo, err) <- Task_GetInfo task ;;
          match devinfo, err with
          | _, Some err => ret (0, 0, "", "", Some err)
          | None, None => ret (0, 0, "", "", nil_error) (* unreachable *)
          | Some devinfo, None =>
              if Exists devinfo =? 0
              then ret (0, 0, "", "", Some (Errorf ("Non existing device " +++ name)))
              else
                '(_, start, length, targetType, params) <- GetNextTarget task 0 ;;
                ret (start, length, targetType, params, nil_error)
          end
      end
  end.

Definition SuspendDevice (name : string) : Go error :=
  '(task, err) <- TaskCreateNamed DeviceSuspend name ;;
  match task with
  | None => ret err
  | Some task =>
      err <- Run task ;;
      match err with
      | Some err => ret (Some (Errorf ("Error running DeviceSuspend " +++ Error err)))
      | None => ret nil_error
      end
  end.

Definition ResumeDevice (name : string) : Go error :=
  '(task, err) <- TaskCreateNamed DeviceResume name ;;
  match task with
  | None => ret err
  | Some task =>
      '(err, cookie) <- SetCookie task (Some 0) 0 ;;
      match err, cookie with
      | Some err, _ => ret (Some (Errorf ("Can't set cookie " +++ Error err)))
      | None, None => ret nil_error (* unreachable: the slot was supplied *)
      | None, Some cookie =>
          defer (UdevWait cookie)
            (err <- Run task ;;
             match err with
             | Some err => ret (Some (Errorf ("Error running DeviceResume " +++ Error err)))
             | None => ret nil_error
             end)
      end
  end.

(** *** Id allocation loops

    [for { ... }] has no exit condition of its own, and the engine may answer
    "already exists" for ever, so the loops take a bound on the number of
    iterations; [Looping] / [Pending] say that the bound was reached with the
    loop still running, and the state reached so far is returned with it. *)

Inductive LoopExit : Type :=
| Looping
| Return (err : error)
| Break.

Inductive Outcome : Type :=
| Pending
| Returned (err : error).

(** The loop of [CreateDevice]; [deviceId] is the content of the caller's
    slot, returned as it stands when the loop is left. *)
Fixpoint CreateDevice_for (fuel : nat) (poolName : string) (deviceId : Z)
  : Go (LoopExit * Z) :=
  match fuel with
  | O => ret (Looping, deviceId)
  | S fuel =>
      '(task, err) <- TaskCreateNamed DeviceTargetMsg poolName ;;
      match task with
      | None => ret (Return err, deviceId)
      | Some task =>
          err <- SetSector task 0 ;;
          match err with
          | Some err =>
              ret (Return (Some (Errorf ("Can't set sector " +++ Error err))), deviceId)
          | None =>
              err <- SetMessage task ("create_thin " +++ itoa deviceId) ;;
              match err with
              | Some err =>
                  ret (Return (Some (Errorf ("Can't set message " +++ Error err))), deviceId)
              | None =>
                  set_dmSawExist false ;;; (* reset before the task is run *)
                  err <- Run task ;;
                  match err with
                  | Some err =>
                      sawExist <- get_dmSawExist ;;
                      if sawExist
                      then (* Already exists, try next id *)
                        CreateDevice_for fuel poolName (incr deviceId)
                      else
                        ret (Return (Some (Errorf ("Error running CreateDevice "
                                                     +++ Error err))), deviceId)
                  | None => ret (Break, deviceId)
                  end
              end
          end
      end
  end.

Definition CreateDevice (fuel : nat) (poolName : string) (deviceId : Z)
  : Go (Outcome * Z) :=
  '(exit, deviceId) <- CreateDevice_for fuel poolName deviceId ;;
  match exit with
  | Looping => ret (Pending, deviceId)
  | Return err => ret (Returned err, deviceId)
  | Break => ret (Returned nil_error, deviceId)
  end.

(** [if doSuspend { ResumeDevice(baseName) }] with the result dropped. *)
Definition rollback (doSuspend : bool) (baseName : string) : Go unit :=
  if doSuspend then ResumeDevice baseName ;;; ret tt else ret tt.

(** The loop of [CreateSnapDevice]. *)
Fixpoint CreateSnapDevice_for (fuel : nat) (poolName : string) (deviceId : Z)
    (baseName : string) (baseDeviceId : Z) (doSuspend : bool)
  : Go (LoopExit * Z) :=
  match fuel with
  | O => ret (Looping, deviceId)
  | S fuel =>
      '(task, err) <- TaskCreateNamed DeviceTargetMsg poolName ;;
      match task with
      | None =>
          rollback doSuspend baseName ;;;
          ret (Return err, deviceId)
      | Some task =>
          err <- SetSector task 0 ;;
          match err with
          | Some err =>
              rollback doSuspend baseName ;;;
              ret (Return (Some (Errorf ("Can't set sector " +++ Error err))), deviceId)
          | None =>
              err <- SetMessage task ("create_snap " +++ itoa deviceId +++ " "
                                        +++ itoa baseDeviceId) ;;
              match err with
              | Some err =>
                  rollback doSuspend baseName ;;;
                  ret (Return (Some (Errorf ("Can't set message " +++ Error err))),
                       deviceId)
              | None =>
                  set_dmSawExist false ;;; (* reset before the task is run *)
                  err <- Run task ;;
                  match err with
                  | Some err =>
                      sawExist <- get_dmSawExist ;;
                      if sawExist
                      then (* Already exists, try next id *)
                        CreateSnapDevice_for fuel poolName (incr deviceId)
                                             baseName baseDeviceId doSuspend
                      else
                        rollback doSuspend baseName ;;;
                        ret (Return (Some (Errorf
                               ("Error running DeviceCreate (createSnapDevice) "
                                  +++ Error err))), deviceId)
                  | None => ret (Break, deviceId)
                  end
              end
          end
      end
  end.

(** [devinfo != nil && devinfo.Exists != 0] *)
Definition origin_exists (devinfo : option Info) : bool :=
  match devinfo with
  | None => false
  | Some devinfo => negb (Exists devinfo =? 0)
  end.

Definition CreateSnapDevice (fuel : nat) (poolName : string) (deviceId : Z)
    (baseName : string) (baseDeviceId : Z) : Go (Outcome * Z) :=
  '(devinfo, _) <- GetInfo baseName ;;
  let doSuspend := origin_exists devinfo in
  err <- (if doSuspend then SuspendDevice baseName else ret nil_error) ;;
  match err with
  | Some err => ret (Returned (Some err), deviceId)
  | None =>
      '(exit, deviceId) <- CreateSnapDevice_for fuel poolName deviceId
                                                baseName baseDeviceId doSuspend ;;
      match exit with
      | Looping => ret (Pending, deviceId)
      | Return err => ret (Returned err, deviceId)
      | Break =>
          if doSuspend
          then err <- ResumeDevice baseName ;; ret (Returned err, deviceId)
          else ret (Returned nil_error, deviceId)
      end
  end.

End Devmapper.

(** ** A small simulated engine

    A thin pool executable inside Rocq, used to run the Go functions on
    concrete inputs: a table of allocated tasks, the thin ids taken in the
    pool, the active devices, and knobs that make the engine refuse work. *)

Module Sim.

Record SimTask : Type := mkSimTask {
  kind : Z;
  tname : string;
  tmessage : string
}.

Record State : Type := mkState {
  tasks : list SimTask;            (* a handle is an index in this table *)
  thin_ids : list Z;               (* ids taken in the pool *)
  devices : list (string * bool);  (* active devices, with "suspended" *)
  in_use : list string;            (* devices held open: removal is refused *)
  no_alloc : list Z;               (* task kinds that cannot be allocated *)
  no_run : list Z;                 (* task kinds whose run fails *)
  id_limit : Z                     (* largest thin id the pool accepts *)
}.

Definition mem (x : Z) (l : list Z) : bool := existsb (Z.eqb x) l.
Definition smem (x : string) (l : list string) : bool := existsb (String.eqb x) l.

Fixpoint strip_prefix (p s : string) : option string :=
  match p, s with
  | EmptyString, _ => Some s
  | String a p, String b s => if Ascii.eqb a b then strip_prefix p s else None
  | String _ _, EmptyString => None
  end.

Definition digit (c : Ascii.ascii) : option Z :=
  let n := Z.of_nat (Ascii.nat_of_ascii c) in
  if (48 <=? n) && (n <=? 57) then Some (n - 48) else None.

Fixpoint digits (acc : Z) (s : string) : Z * string :=
  match s with
  | EmptyString => (acc, s)
  | String c r =>
      match digit c with
      | Some d => digits (acc * 10 + d) r
      | None => (acc, s)
      end
  end.

(** The id a "create_thin <id>" or "create_snap <id> <base>" message asks for. *)
Definition wanted_id (message : string) : option Z :=
  match strip_prefix "create_thin " message with
  | Some r => match r with
              | EmptyString => None
              | _ => match digits 0 r with
                     | (n, EmptyString) => Some n
                     | _ => None
                     end
              end
  | None =>
      match strip_prefix "create_snap " message with
      | Some r => match digits 0 r with
                  | (n, String c _) => if Ascii.eqb c " "%char then Some n else None
                  | _ => None
                  end
      | None => None
      end
  end.

Definition set_task (h : CDmTask) (f : SimTask -> SimTask) (s : State) : State :=
  mkState (map (fun p => if Nat.eqb (fst p) h then f (snd p) else snd p)
               (combine (seq 0 (List.length (tasks s))) (tasks s)))
          (thin_ids s) (devices s) (in_use s) (no_alloc s) (no_run s) (id_limit s).

Definition set_suspended (name : string) (b : bool) (s : State) : State :=
  mkState (tasks s) (thin_ids s)
          (map (fun d => if String.eqb (fst d) name then (fst d, b) else d) (devices s))
          (in_use s) (no_alloc s) (no_run s) (id_limit s).

Definition known (h : CDmTask) (s : State) : bool := Nat.ltb h (List.length (tasks s)).

Definition ok_if (b : bool) : Z := if b then 1 else 0.

Definition dm_task_create (tasktype : Z) (s : State) : option CDmTask * Captured * State :=
  if mem tasktype (no_alloc s) then (None, quiet, s)
  else (Some (List.length (tasks s)), quiet,
        mkState (tasks s ++ [mkSimTask tasktype "" ""])
                (thin_ids s) (devices s) (in_use s) (no_alloc s) (no_run s) (id_limit s)).

Definition dm_task_run (h : CDmTask) (s : State) : Z * Captured * State :=
  match nth_error (tasks s) h with
  | None => (0, quiet, s)
  | Some t =>
      if mem (kind t) (no_run s) then (0, quiet, s)
      else if kind t =? DeviceTargetMsg then
        match wanted_id (tmessage t) with
        | None => (0, quiet, s)
        | Some id =>
            if id_limit s <? id then (0, quiet, s)
            else if mem id (thin_ids s) then (0, mkCaptured false true, s)
            else (1, quiet, mkState (tasks s) (id :: thin_ids s) (devices s)
                                    (in_use s) (no_alloc s) (no_run s) (id_limit s))
        end
      else if kind t =? DeviceSuspend then
        if smem (tname t) (map fst (devices s))
        then (1, quiet, set_suspended (tname t) true s) else (0, quiet, s)
      else if kind t =? DeviceResume then
        if smem (tname t) (map fst (devices s))
        then (1, quiet, set_suspended (tname t) false s) else (0, quiet, s)
      else if kind t =? DeviceRemove then
        if smem (tname t) (in_use s) then (0, mkCaptured true false, s)
        else if smem (tname t) (map fst (devices s))
        then (1, quiet,
              mkState (tasks s) (thin_ids s)
                      (filter (fun d => negb (String.eqb (fst d) (tname t))) (devices s))
                      (in_use s) (no_alloc s) (no_run s) (id_limit s))
        else (0, quiet, s)
      else (1, quiet, s)
  end.

Definition dm_task_get_info (h : CDmTask) (info : Info) (s : State)
  : (Z * Info) * Captured * State :=
  match nth_error (tasks s) h with
  | None => ((0, info), quiet, s)
  | Some t =>
      match find (fun d => String.eqb (fst d) (tname t)) (devices s) with
      | Some d => ((1, mkInfo 1 (ok_if (snd d)) 1 0 0 0 253 0 0 1), quiet, s)
      | None => ((1, info), quiet, s)
      end
  end.

Definition engine : Native State := {|
  DmTaskCreate := dm_task_create;
  DmTaskRun := dm_task_run;
  DmTaskSetName := fun h name s =>
    (ok_if (known h s), quiet, set_task h (fun t => mkSimTask (kind t) name (tmessage t)) s);
  DmTaskSetMessage := fun h message s =>
    (ok_if (known h s), quiet, set_task h (fun t => mkSimTask (kind t) (tname t) message) s);
  DmTaskSetSector := fun h _ s => (ok_if (known h s), quiet, s);
  DmTaskSetCookie := fun h _ _ s => ((ok_if (known h s), 218169344 + Z.of_nat h), quiet, s);
  DmTaskSetAddNode := fun h _ s => (ok_if (known h s), quiet, s);
  DmTaskSetRo := fun h s => (ok_if (known h s), quiet, s);
  DmTaskAddTarget := fun h _ _ _ _ s => (ok_if (known h s), quiet, s);
  DmTaskGetInfo := dm_task_get_info;
  DmGetNextTarget := fun h _ s => ((0, 0, 2048, "thin", "253:0 1"), quiet, s);
  DmUdevWait := fun _ s => (1, quiet, s)
|}.

(** A pool "pool" in which ids 5, 6 and 7 are taken, with one active device
    "base" (thin id 5) and a device "held" that is kept open. *)
Definition pool567 : State :=
  mkState [] [5; 6; 7] [("base", false); ("held", false)] ["held"] [] [] 16777215.

(** A pool whose last two ids are taken: the id after them is refused
    outright, not as a collision. *)
Definition pool_full : State :=
  mkState [] [16777214; 16777215] [("base", false)] [] [] [] 16777215.

(** The pool of [pool567] on an engine that cannot allocate info tasks. *)
Definition pool_no_info : State :=
  mkState [] [5; 6; 7] [("base", false)] [] [DeviceInfo] [] 16777215.

(** An engine on which neither messages nor resumes can be run. *)
Definition pool_stuck : State :=
  mkState [] [] [("base", false)] [] [] [DeviceTargetMsg; DeviceResume] 16777215.

(** A pool that accepts every id an [int] can hold; the largest is taken. *)
Definition pool_last : State :=
  mkState [] [MaxInt] [] [] [] [] MaxInt.

Definition boot (s : State) : World State := mkWorld s false false [].

End Sim.

(** ** Reading the engine log *)

Definition calls (evs : list Event) : list Call := map call evs.

(** The texts handed to [dm_task_set_message], oldest first. *)
Definition messages (evs : list Event) : list string :=
  flat_map (fun ev => match call ev with
                      | CTaskSetMessage _ message _ => [message]
                      | _ => []
                      end) evs.

Definition is_create (k : TaskType) (ev : Event) : bool :=
  match call ev with
  | CTaskCreate tasktype _ => tasktype =? k
  | _ => false
  end.

Definition is_next_target (ev : Event) : bool :=
  match call ev with
  | CGetNextTarget _ _ _ => true
  | _ => false
  end.

(** A run that failed while the callback heard "already exists". *)
Definition is_exists_failure (ev : Event) : bool :=
  match call ev with
  | CTaskRun _ res => negb (res =? 1) && saw_exist (heard ev)
  | _ => false
  end.

Definition count (p : Event -> bool) (evs : list Event) : nat :=
  List.length (filter p evs).

(** [ResumeDevice] and [SuspendDevice] are the only functions that allocate
    tasks of kind [DeviceResume] and [DeviceSuspend], and each call allocates
    exactly one (lemmas [ResumeDevice_log], [SuspendDevice_log] below), so
    these count the calls made. *)
Definition resumes (evs : list Event) : nat := count (is_create DeviceResume) evs.
Definition suspends (evs : list Event) : nat := count (is_create DeviceSuspend) evs.

(** Reading the log for how often a task is run.  [run_once pending evs]
    walks the log with the handle of the task allocated last, as long as it
    has not been run: an allocation replaces it, a run must be of that very
    task and uses it up.  So [run_once None evs = true] says that every run
    in [evs] is the first run of the task allocated last before it. *)
Fixpoint run_once (pending : option CDmTask) (evs : list Event) : bool :=
  match evs with
  | [] => true
  | ev :: rest =>
      match call ev with
      | CTaskCreate _ res => run_once res rest
      | CTaskRun t _ =>
          match pending with
          | Some t' => Nat.eqb t t' && run_once None rest
          | None => false
          end
      | _ => run_once pending rest
      end
  end.

Definition starts_with_create (evs : list Event) : Prop :=
  match evs with
  | [] => True
  | ev :: _ => exists tasktype res, call ev = CTaskCreate tasktype res
  end.

(** The log of an operation that allocates its own tasks and runs each of
    them at most once. *)
Definition disciplined (evs : list Event) : Prop :=
  starts_with_create evs /\ run_once None evs = true.

(** The two message formats. *)
Definition thin_msg (deviceId : Z) : string := "create_thin " +++ itoa deviceId.
Definition snap_msg (baseDeviceId deviceId : Z) : string :=
  "create_snap " +++ itoa deviceId +++ " " +++ itoa baseDeviceId.

(** The ids tried by a loop that started at [deviceId]: [n] of them. *)
Definition ids_from (deviceId : Z) (n : nat) : list Z :=
  map (fun i => Nat.iter i incr deviceId) (seq 0 n).

(** The contexts the two loops give to a run error. *)
Definition thin_context : string := "Error running CreateDevice ".
Definition snap_context : string := "Error running DeviceCreate (createSnapDevice) ".

Definition run_error (context : string) : error :=
  Some (Errorf (context +++ Error ErrTaskRun)).

(** The errors with which an allocation loop leaves before its message has
    been accepted by the engine. *)
Definition setup_errors (poolName : string) : list error :=
  [ Some (Errorf ("Can't create task of type " +++ itoa DeviceTargetMsg));
    Some (Errorf ("Can't set task name " +++ poolName));
    Some (Errorf ("Can't set sector " +++ Error ErrTaskSetSector)) ].

Definition message_error : error :=
  Some (Errorf ("Can't set message " +++ Error ErrTaskSetMessage)).

(** What the log says about the slot when an allocation loop that started at
    [deviceId] is left by [exit] with the slot at [deviceId'], [evs] being the
    log of the loop up to there: the slot has moved once per failed run with
    "already exists" heard ([k] times), which is [k] more than where it
    started unless the [int] overflowed; the messages sent are those of the
    ids passed over, followed, if the last iteration got as far as handing
    over its message, by the message for the slot itself. *)
Definition slot_report (msg : Z -> string) (context poolName : string)
    (deviceId : Z) (exit : LoopExit) (deviceId' : Z) (evs : list Event) : Prop :=
  let k := count is_exists_failure evs in
  deviceId' = Nat.iter k incr deviceId /\
  (MinInt <= deviceId -> deviceId + Z.of_nat k <= MaxInt ->
   deviceId' = deviceId + Z.of_nat k) /\
  match exit with
  | Looping => messages evs = map msg (ids_from deviceId k)
  | Break => messages evs = map msg (ids_from deviceId k) ++ [msg deviceId']
  | Return err =>
      (messages evs = map msg (ids_from deviceId k) ++ [msg deviceId'] /\
       (err = run_error context \/ err = message_error)) \/
      (messages evs = map msg (ids_from deviceId k) /\
       In err (setup_errors poolName))
  end.

Definition outcome_of (exit : LoopExit) : Outcome :=
  match exit with
  | Looping => Pending
  | Return err => Returned err
  | Break => Returned nil_error
  end.

Section Engine.

Context {E : Type} (N : Native E).

(** The world in which a task is run after [dmSawExist = false]. *)
Definition cleared (w : World E) : World E := snd (set_dmSawExist false w).

(** One message goes all the way to the engine: a [DeviceTargetMsg] task
    named after the pool is built, sector and [message] are accepted, and the
    run answers [res] while the callback hears [cap]; [w'] is the world right
    after the run. *)
Definition attempt (poolName message : string) (w : World E)
    (res : Z) (cap : Captured) (w' : World E) : Prop :=
  exists task w1 w2 w3 e4,
    TaskCreateNamed N DeviceTargetMsg poolName w = (Some task, nil_error, w1) /\
    SetSector N task 0 w1 = (nil_error, w2) /\
    SetMessage N task message w2 = (nil_error, w3) /\
    DmTaskRun N (unmanaged task) (eng w3) = (res, cap, e4) /\
    w' = after (cleared w3) (CTaskRun (unmanaged task) res) cap e4.

(** [k] ids in a row, from [deviceId] on, are taken: each message gets to the
    engine and its run fails with "already exists" heard. *)
Inductive collisions (poolName : string) (msg : Z -> string)
  : nat -> Z -> World E -> World E -> Prop :=
| collisions_O : forall deviceId w, collisions poolName msg O deviceId w w
| collisions_S : forall k deviceId w w1 w' res cap,
    attempt poolName (msg deviceId) w res cap w1 ->
    res <> 1 ->
    saw_exist cap = true ->
    collisions poolName msg k (incr deviceId) w1 w' ->
    collisions poolName msg (S k) deviceId w w'.

(** *** The two loops as one

    [CreateDevice_for] and [CreateSnapDevice_for] differ in the message they
    format, in the text of the run error and in what they do before leaving
    with an error.  [alloc_loop] abstracts over the three; two lemmas
    ([CreateDevice_for_alloc] and [CreateSnapDevice_for_alloc]) show
    that each source loop is an instance, so that the loop is reasoned about
    once. *)

Fixpoint alloc_loop (msg : Z -> string) (context : string) (undo : M E unit)
    (poolName : string) (fuel : nat) (deviceId : Z) : M E (LoopExit * Z) :=
  match fuel with
  | O => ret (Looping, deviceId)
  | S fuel =>
      '(task, err) <- TaskCreateNamed N DeviceTargetMsg poolName ;;
      match task with
      | None => undo ;;; ret (Return err, deviceId)
      | Some task =>
          err <- SetSector N task 0 ;;
          match err with
          | Some err =>
              undo ;;;
              ret (Return (Some (Errorf ("Can't set sector " +++ Error err))), deviceId)
          | None =>
              err <- SetMessage N task (msg deviceId) ;;
              match err with
              | Some err =>
                  undo ;;;
                  ret (Return (Some (Errorf ("Can't set message " +++ Error err))),
                       deviceId)
              | None =>
                  set_dmSawExist false ;;;
                  err <- Run N task ;;
                  match err with
                  | Some err =>
                      sawExist <- get_dmSawExist ;;
                      if sawExist
                      then alloc_loop msg context undo poolName fuel (incr deviceId)
                      else
                        undo ;;;
                        ret (Return (Some (Errorf (context +++ Error err))), deviceId)
                  | None => ret (Break, deviceId)
                  end
              end
          end
      end
  end.

End Engine.

(** [grows w w' evs]: between [w] and [w'] the log gained exactly [evs]. *)
Definition grows {E} (w w' : World E) (evs : list Event) : Prop :=
  trace w' = trace w ++ evs.

(** An operation that, from whatever world it starts, runs every task it
    allocates at most once. *)
Definition runs_each_task_once {E A} (op : M E A) : Prop :=
  forall w, exists evs, grows w (snd (op w)) evs /\ disciplined evs.

(** ** More of the package

    The operations of the file that the properties above do not reach:
    single messages to a pool, activation of a thin device, creation and
    reload of a pool. *)

(** [*os.File], as far as the package looks at it: its name and its
    descriptor. *)
Record File : Type := mkFile { Name : string; Fd : Z }.

(** [uint64(x)] of an [int64]. *)
Definition to_uint64 (x : Z) : Z := x mod 2 ^ 64.

Section Pools.

Context {E : Type} (N : Native E).

(** The size ioctl of [ioctl.go], which is not among the sources: from a
    descriptor, the size in bytes ([inl]) or an errno ([inr]).  It reads
    the block layer and leaves the device-mapper engine alone. *)
Variable ioctlBlkGetSize64 : Z -> Z + Z.

(** The udev flags of the cgo wrapper, which is not among the sources. *)
Variables DmUdevDisableSubsystemRulesFlag DmUdevDisableDiskRulesFlag
          DmUdevDisableOtherRulesFlag : Z.

Definition GetBlockDeviceSize (file : File) : Z * error :=
  match ioctlBlkGetSize64 (Fd file) with
  | inr _ => (0, Some ErrGetBlockSize)
  | inl size => (to_uint64 size, nil_error)
  end.

Definition SetTransactionId (poolName : string) (oldId newId : Z) : M E error :=
  '(task, err) <- TaskCreateNamed N DeviceTargetMsg poolName ;;
  match task with
  | None => ret err
  | Some task =>
      err <- SetSector N task 0 ;;
      match err with
      | Some err => ret (Some (Errorf ("Can't set sector " +++ Error err)))
      | None =>
          err <- SetMessage N task ("set_transaction_id " +++ itoa oldId +++ " "
                                      +++ itoa newId) ;;
          match err with
          | Some err => ret (Some (Errorf ("Can't set message " +++ Error err)))
          | None =>
              err <- Run N task ;;
              match err with
              | Some err =>
                  ret (Some (Errorf ("Error running SetTransactionId " +++ Error err)))
              | None => ret nil_error
              end
          end
      end
  end.

Definition DeleteDevice (poolName : string) (deviceId : Z) : M E error :=
  '(task, err) <- TaskCreateNamed N DeviceTargetMsg poolName ;;
  match task with
  | None => ret err
  | Some task =>
      err <- SetSector N task 0 ;;
      match err with
      | Some err => ret (Some (Errorf ("Can't set sector " +++ Error err)))
      | None =>
          err <- SetMessage N task ("delete " +++ itoa deviceId) ;;
          match err with
          | Some err => ret (Some (Errorf ("Can't set message " +++ Error err)))
          | None =>
              err <- Run N task ;;
              match err with
              | Some err =>
                  ret (Some (Errorf ("Error running DeleteDevice " +++ Error err)))
              | None => ret nil_error
              end
          end
      end
  end.

Definition ActivateDevice (poolName name : string) (deviceId size : Z) : M E error :=
  '(task, err) <- TaskCreateNamed N DeviceCreate name ;;
  match task with
  | None => ret err
  | Some task =>
      let params := poolName +++ " " +++ itoa deviceId in
      err <- AddTarget N task 0 (size / 512) "thin" params ;;
      match err with
      | Some err => ret (Some (Errorf ("Can't add target " +++ Error err)))
      | None =>
          err <- SetAddNode N task AddNodeOnCreate ;;
          match err with
          | Some err => ret (Some (Errorf ("Can't add node " +++ Error err)))
          | None =>
              '(err, cookie) <- SetCookie N task (Some 0) 0 ;;
              match err, cookie with
              | Some err, _ => ret (Some (Errorf ("Can't set cookie " +++ Error err)))
              | None, None => ret nil_error (* unreachable: the slot was supplied *)
              | None, Some cookie =>
                  defer (UdevWait N cookie)
                    (err <- Run N task ;;
                     match err with
                     | Some err =>
                         ret (Some (Errorf
                                ("Error running DeviceCreate (ActivateDevice) "
                                   +++ Error err)))
                     | None => ret nil_error
                     end)
              end
          end
      end
  end.

Definition CreatePool (poolName : string) (dataFile metadataFile : File)
    (poolBlockSize : Z) : M E error :=
  '(task, err) <- TaskCreateNamed N DeviceCreate poolName ;;
  match task with
  | None => ret err
  | Some task =>
      match GetBlockDeviceSize dataFile with
      | (_, Some err) => ret (Some (Errorf ("Can't get data size " +++ Error err)))
      | (size, None) =>
          let params := Name metadataFile +++ " " +++ Name dataFile +++ " "
                          +++ itoa poolBlockSize
                          +++ " 32768 1 skip_block_zeroing" in
          err <- AddTarget N task 0 (size / 512) "thin-pool" params ;;
          match err with
          | Some err => ret (Some (Errorf ("Can't add target " +++ Error err)))
          | None =>
              let flags := Z.lor (Z.lor DmUdevDisableSubsystemRulesFlag
                                        DmUdevDisableDiskRulesFlag)
                                 DmUdevDisableOtherRulesFlag in
              '(err, cookie) <- SetCookie N task (Some 0) flags ;;
              match err, cookie with
              | Some err, _ => ret (Some (Errorf ("Can't set cookie " +++ Error err)))
              | None, None => ret nil_error (* unreachable: the slot was supplied *)
              | None, Some cookie =>
                  defer (UdevWait N cookie)
                    (err <- Run N task ;;
                     match err with
                     | Some err =>
                         ret (Some (Errorf
                                ("Error running DeviceCreate (CreatePool) "
                                   +++ Error err)))
                     | None => ret nil_error
                     end)
              end
          end
      end
  end.

Definition ReloadPool (poolName : string) (dataFile metadataFile : File)
    (poolBlockSize : Z) : M E error :=
  '(task, err) <- TaskCreateNamed N DeviceReload poolName ;;
  match task with
  | None => ret err
  | Some task =>
      match GetBlockDeviceSize dataFile with
      | (_, Some err) => ret (Some (Errorf ("Can't get data size " +++ Error err)))
      | (size, None) =>
          let params := Name metadataFile +++ " " +++ Name dataFile +++ " "
                          +++ itoa poolBlockSize
                          +++ " 32768 1 skip_block_zeroing" in
          err <- AddTarget N task 0 (size / 512) "thin-pool" params ;;
          match err with
          | Some err => ret (Some (Errorf ("Can't add target " +++ Error err)))
          | None =>
              err <- Run N task ;;
              match err with
              | Some err => ret (Some (Errorf ("Error running DeviceCreate " +++ Error err)))
              | None => ret nil_error
              end
          end
      end
  end.

End Pools.

(** The target line of a thin pool. *)
Definition pool_params (dataFile metadataFile : File) (poolBlockSize : Z) : string :=
  Name metadataFile +++ " " +++ Name dataFile +++ " " +++ itoa poolBlockSize
    +++ " 32768 1 skip_block_zeroing".

(** More readings of the log. *)

Definition is_run (ev : Event) : bool :=
  match call ev with
  | CTaskRun _ _ => true
  | _ => false
  end.

Definition is_successful_run (ev : Event) : bool :=
  match call ev with
  | CTaskRun _ res => res =? 1
  | _ => false
  end.

Definition is_set_cookie (ev : Event) : bool :=
  match call ev with
  | CTaskSetCookie _ _ _ _ => true
  | _ => false
  end.

Definition is_udev_wait (ev : Event) : bool :=
  match call ev with
  | CUdevWait _ _ => true
  | _ => false
  end.

(** [settled pending evs]: walking the log with the cookie that is still to
    be waited on, every cookie the engine accepted is waited on before the
    next one is set, every wait is on the cookie set last, and nothing is
    owed at the end. *)
Fixpoint settled (pending : option Z) (evs : list Event) : bool :=
  match evs with
  | [] => match pending with None => true | Some _ => false end
  | ev :: rest =>
      match call ev with
      | CTaskSetCookie _ _ _ (res, cookie) =>
          if res =? 1
          then match pending with
               | None => settled (Some cookie) rest
               | Some _ => false
               end
          else settled pending rest
      | CUdevWait cookie _ =>
          match pending with
          | Some cookie' => (cookie =? cookie') && settled None rest
          | None => false
          end
      | _ => settled pending rest
      end
  end.

(** A run that failed while the callback heard "busy". *)
Definition is_busy_failure (ev : Event) : bool :=
  match call ev with
  | CTaskRun _ res => negb (res =? 1) && saw_busy (heard ev)
  | _ => false
  end.

(** A run that failed without "busy" being heard. *)
Definition is_other_failure (ev : Event) : bool :=
  match call ev with
  | CTaskRun _ res => negb (res =? 1) && negb (saw_busy (heard ev))
  | _ => false
  end.

(** The calls that allocate and name a task. *)
Definition is_naming_call (ev : Event) : bool :=
  match call ev with
  | CTaskCreate _ _ => true
  | CTaskSetName _ _ _ => true
  | _ => false
  end.

(** The calls an allocation loop makes for its message tasks. *)
Definition is_message_task_call (ev : Event) : bool :=
  match call ev with
  | CTaskCreate tasktype _ => tasktype =? DeviceTargetMsg
  | CTaskSetName _ _ _ => true
  | CTaskSetSector _ sector _ => sector =? 0
  | CTaskSetMessage _ _ _ => true
  | CTaskRun _ _ => true
  | _ => false
  end.

(** The whole of what an operation that sends one [message] to the pool can
    have done when it returns [err]: one [DeviceTargetMsg] task, named after
    the pool, sector 0, the message, one run; the first call the engine
    turns down is the last one, and decides the error. *)
Definition single_message_protocol (poolName message context : string)
    (err : error) (cs : list Call) : Prop :=
  (cs = [CTaskCreate DeviceTargetMsg None] /\
   err = Some (Errorf ("Can't create task of type " +++ itoa DeviceTargetMsg))) \/
  exists t r,
    (r <> 1 /\
     cs = [CTaskCreate DeviceTargetMsg (Some t); CTaskSetName t poolName r] /\
     err = Some (Errorf ("Can't set task name " +++ poolName))) \/
    (r <> 1 /\
     cs = [CTaskCreate DeviceTargetMsg (Some t); CTaskSetName t poolName 1;
           CTaskSetSector t 0 r] /\
     err = Some (Errorf ("Can't set sector " +++ Error ErrTaskSetSector))) \/
    (r <> 1 /\
     cs = [CTaskCreate DeviceTargetMsg (Some t); CTaskSetName t poolName 1;
           CTaskSetSector t 0 1; CTaskSetMessage t message r] /\
     err = message_error) \/
    (cs = [CTaskCreate DeviceTargetMsg (Some t); CTaskSetName t poolName 1;
           CTaskSetSector t 0 1; CTaskSetMessage t message 1; CTaskRun t r] /\
     err = if r =? 1 then nil_error else run_error context).

(** An operation after which no cookie is left unwaited. *)
Definition settles_its_cookies {E A} (op : M E A) : Prop :=
  forall w, exists evs, grows w (snd (op w)) evs /\ settled None evs = true.

(** Two worlds that have the same engine state and the same log, and the
    same [dmSawBusy] if [kb] says so, the same [dmSawExist] if [ke] does. *)
Definition agree {E} (kb ke : bool) (w w' : World E) : Prop :=
  eng w = eng w' /\ trace w = trace w' /\
  (kb = true -> dmSawBusy w = dmSawBusy w') /\
  (ke = true -> dmSawExist w = dmSawExist w').

(** [rel kb ke kb' ke' m]: run from two worlds that agree up to [kb], [ke],
    [m] gives the same result and leaves worlds that agree up to [kb'],
    [ke']. *)
Definition rel {E A} (kb ke kb' ke' : bool) (m : M E A) : Prop :=
  forall w w', agree kb ke w w' ->
               fst (m w) = fst (m w') /\ agree kb' ke' (snd (m w)) (snd (m w')).

(** An operation on which the values the two flags had before the call have
    no influence: not on what it returns, not on what it does to the
    engine. *)
Definition blind_to_stale_flags {E A} (op : M E A) : Prop :=
  forall w w', eng w = eng w' -> trace w = trace w' ->
               fst (op w) = fst (op w') /\
               eng (snd (op w)) = eng (snd (op w')) /\
               trace (snd (op w)) = trace (snd (op w')).

(** An operation that runs at most one task and reports success exactly
    when the engine ran that task successfully. *)
Definition succeeds_exactly_when_run {E} (op : M E error) : Prop :=
  forall w, exists evs,
    grows w (snd (op w)) evs /\
    (count is_run evs <= 1)%nat /\
    (fst (op w) = nil_error <-> count is_successful_run evs = 1%nat).

(** The simulated engine with a udev layer whose waits all fail. *)
Module SimX.

Definition deaf_engine : Native Sim.State := {|
  DmTaskCreate := DmTaskCreate Sim.engine;
  DmTaskRun := DmTaskRun Sim.engine;
  DmTaskSetName := DmTaskSetName Sim.engine;
  DmTaskSetMessage := DmTaskSetMessage Sim.engine;
  DmTaskSetSector := DmTaskSetSector Sim.engine;
  DmTaskSetCookie := DmTaskSetCookie Sim.engine;
  DmTaskSetAddNode := DmTaskSetAddNode Sim.engine;
  DmTaskSetRo := DmTaskSetRo Sim.engine;
  DmTaskAddTarget := DmTaskAddTarget Sim.engine;
  DmTaskGetInfo := DmTaskGetInfo Sim.engine;
  DmGetNextTarget := DmGetNextTarget Sim.engine;
  DmUdevWait := fun _ s => (0, quiet, s)
|}.

(** Block devices by descriptor: 3 is a 1 GiB device plus 100 bytes, on 4
    the ioctl fails. *)
Definition blk_size (fd : Z) : Z + Z :=
  if fd =? 3 then inl 1073741924 else inr 25.

Definition data : File := mkFile "/dev/loop0" 3.
Definition meta : File := mkFile "/dev/loop1" 5.
Definition broken : File := mkFile "/dev/loop7" 4.

End SimX.

(** ** Loopback and block devices

    The functions of the file that talk to the operating system rather than
    to the device-mapper engine.  As with the engine, the system is a
    parameter: a record of functions over an abstract system state, and
    every call is logged. *)

(** An error of the [os] or [syscall] package, as far as the code looks at
    it: whether [os.IsNotExist] holds of it, and its text. *)
Record OsError : Type := mkOsError { IsNotExist : bool; errText : string }.

(** What [BlockDeviceDiscard] can return: one of the package's errors, or an
    error of the system passed on as it is. *)
Inductive GoError : Type :=
| PackageError (e : Err)
| SystemError (e : OsError).

(** [os.OpenFile(path, os.O_RDWR, 0)], [file.Stat()] read for the device and
    inode number of its [Stat_t], [file.Close()] (no caller looks
    at its result), the loop and discard ioctls of [ioctl.go], which is not
    among the sources, and [syscall.Sync()]. *)
Record Sys (T : Type) : Type := mkSys {
  os_OpenFile : string -> T -> (File + OsError) * T;
  file_Stat : File -> T -> ((Z * Z) + OsError) * T;
  file_Close : File -> T -> T;
  ioctlLoopGetStatus64 : Z -> T -> ((Z * Z) + OsError) * T;
  ioctlBlkDiscard : Z -> Z -> Z -> T -> option OsError * T;
  syscall_Sync : T -> T
}.

Arguments os_OpenFile {T}.
Arguments file_Stat {T}.
Arguments file_Close {T}.
Arguments ioctlLoopGetStatus64 {T}.
Arguments ioctlBlkDiscard {T}.
Arguments syscall_Sync {T}.

Inductive SysCall : Type :=
| SOpen (path : string) (res : File + OsError)
| SStat (file : File) (res : (Z * Z) + OsError)
| SClose (file : File)
| SLoopGetStatus (fd : Z) (res : (Z * Z) + OsError)
| SBlkDiscard (fd start length : Z) (res : option OsError)
| SSync.

Record Host (T : Type) : Type := mkHost { sys : T; syscalls : list SysCall }.

Arguments mkHost {T}.
Arguments sys {T}.
Arguments syscalls {T}.

Definition IO (T A : Type) : Type := Host T -> A * Host T.

Definition io_ret {T A} (a : A) : IO T A := fun h => (a, h).

Definition io_bind {T A B} (m : IO T A) (k : A -> IO T B) : IO T B :=
  fun h => let (a, h1) := m h in k a h1.

Declare Scope io_scope.
Delimit Scope io_scope with io.
Notation "x <- m ;; k" := (io_bind m (fun x => k))
  (at level 61, m at next level, right associativity) : io_scope.
Notation "' p <- m ;; k" := (io_bind m (fun x => let 'p := x in k))
  (at level 61, p pattern, m at next level, right associativity) : io_scope.
Notation "m ;;; k" := (io_bind m (fun _ => k))
  (at level 61, right associativity) : io_scope.

(** A system call that answers, and one that only acts. *)
Definition syscall {T A} (f : T -> A * T) (c : A -> SysCall) : IO T A :=
  fun h => let (a, s) := f (sys h) in (a, mkHost s (syscalls h ++ [c a])).

Definition sysact {T} (f : T -> T) (c : SysCall) : IO T unit :=
  fun h => (tt, mkHost (f (sys h)) (syscalls h ++ [c])).

(** [defer] in this monad. *)
Definition io_defer {T A B} (d : IO T B) (body : IO T A) : IO T A :=
  (a <- body ;; d ;;; io_ret a)%io.

Section Loopback.

Context {T : Type} (Y : Sys T).

Variable ioctlBlkGetSize64 : Z -> Z + Z.

Local Open Scope io_scope.

Definition getLoopbackBackingFile (file : File) : IO T (Z * Z * error) :=
  r <- syscall (ioctlLoopGetStatus64 Y (Fd file)) (SLoopGetStatus (Fd file)) ;;
  match r with
  | inr _ => io_ret (0, 0, Some ErrGetLoopbackBackingFile)
  | inl (loDevice, loInode) => io_ret (loDevice, loInode, nil_error)
  end.

(** The loop of [FindLoopDeviceFor], with a bound on its iterations as for
    the allocation loops: [None] says that the bound was reached, [Some r]
    that the function returned [r]. *)
Fixpoint FindLoopDeviceFor_for (fuel : nat) (targetDevice targetInode : Z) (i : Z)
  : IO T (option (option File)) :=
  match fuel with
  | O => io_ret None
  | S fuel =>
      let path := "/dev/loop" +++ itoa i in
      r <- syscall (os_OpenFile Y path) (SOpen path) ;;
      match r with
      | inr err =>
          if IsNotExist err
          then io_ret (Some None)
          else
            (* Ignore all errors until the first not-exist *)
            FindLoopDeviceFor_for fuel targetDevice targetInode (incr i)
      | inl file =>
          '(dev, inode, err) <- getLoopbackBackingFile file ;;
          if match err with None => true | Some _ => false end
             && (dev =? targetDevice) && (inode =? targetInode)
          then io_ret (Some (Some file))
          else
            sysact (file_Close Y file) (SClose file) ;;;
            FindLoopDeviceFor_for fuel targetDevice targetInode (incr i)
      end
  end.

Definition FindLoopDeviceFor (fuel : nat) (file : File) : IO T (option (option File)) :=
  r <- syscall (file_Stat Y file) (SStat file) ;;
  match r with
  | inr _ => io_ret (Some None)
  | inl (targetDevice, targetInode) =>
      FindLoopDeviceFor_for fuel targetDevice targetInode 0
  end.

Definition BlockDeviceDiscard (path : string) : IO T (option GoError) :=
  r <- syscall (os_OpenFile Y path) (SOpen path) ;;
  match r with
  | inr err => io_ret (Some (SystemError err))
  | inl file =>
      io_defer (sysact (file_Close Y file) (SClose file))
        (match GetBlockDeviceSize ioctlBlkGetSize64 file with
         | (_, Some err) => io_ret (Some (PackageError err))
         | (size, None) =>
             err <- syscall (ioctlBlkDiscard Y (Fd file) 0 size)
                            (SBlkDiscard (Fd file) 0 size) ;;
             match err with
             | Some err => io_ret (Some (SystemError err))
             | None =>
                 (* Without this sometimes the remove of the device that
                    happens after discard fails with EBUSY. *)
                 sysact (syscall_Sync Y) SSync ;;;
                 io_ret None
             end
         end)
  end.

End Loopback.

(** ** Reading the system log *)

Definition loop_path (i : Z) : string := "/dev/loop" +++ itoa i.

Definition File_eqb (f g : File) : bool :=
  (Name f =? Name g)%string && (Fd f =? Fd g).

(** The file the code holds open after the calls [cs], when it held [cur]
    before them; [None] when the calls break the discipline: a second file
    opened while one is held, a close of a file that is not held, an ioctl
    on a descriptor that is not the one of the held file. *)
Fixpoint held (cur : option File) (cs : list SysCall) : option (option File) :=
  match cs with
  | [] => Some cur
  | SOpen _ (inl f) :: cs =>
      match cur with
      | None => held (Some f) cs
      | Some _ => None
      end
  | SClose f :: cs =>
      match cur with
      | Some g => if File_eqb f g then held None cs else None
      | None => None
      end
  | SLoopGetStatus fd _ :: cs | SBlkDiscard fd _ _ _ :: cs =>
      match cur with
      | Some g => if fd =? Fd g then held cur cs else None
      | None => None
      end
  | _ :: cs => held cur cs
  end.

(** The answer of the loop-status ioctl names the wanted backing file. *)
Definition backs (dev ino : Z) (r : (Z * Z) + OsError) : bool :=
  match r with
  | inl (d, n) => (d =? dev) && (n =? ino)
  | inr _ => false
  end.

(** The probes that miss, read off the front of a log: from index [i] on,
    device after device, an open that fails with an error other than
    not-exist, or an open that succeeds followed by a loop status on the
    opened descriptor that does not name the wanted file and by the close
    of the opened file.  The result is the index of the first device that
    is not such a miss, and the calls from there on. *)
Fixpoint misses (dev ino : Z) (i : Z) (cs : list SysCall) {struct cs}
  : Z * list SysCall :=
  match cs with
  | SOpen p (inr e) :: cs' =>
      if (p =? loop_path i)%string && negb (IsNotExist e)
      then misses dev ino (incr i) cs'
      else (i, cs)
  | SOpen p (inl f) :: SLoopGetStatus fd r :: SClose g :: cs' =>
      if (p =? loop_path i)%string && (fd =? Fd f) && File_eqb g f
         && negb (backs dev ino r)
      then misses dev ino (incr i) cs'
      else (i, cs)
  | _ => (i, cs)
  end.

(** How a search for the file [(dev, ino)] that starts at index [i] and
    gives [out] can have gone: misses, and then nothing more when the bound
    on the iterations was reached, a not-exist when the answer is nil, and
    the open and the matching loop status of the file given back. *)
Definition search_ends (dev ino i : Z) (out : option (option File))
  (cs : list SysCall) : Prop :=
  let (j, rest) := misses dev ino i cs in
  match out with
  | None => rest = []
  | Some None =>
      exists e, rest = [SOpen (loop_path j) (inr e)] /\ IsNotExist e = true
  | Some (Some f) =>
      rest = [SOpen (loop_path j) (inl f);
              SLoopGetStatus (Fd f) (inl (dev, ino))]
  end.

(** The whole log of [FindLoopDeviceFor file]. *)
Definition search_log (file : File) (out : option (option File))
  (cs : list SysCall) : Prop :=
  match cs with
  | SStat g (inr _) :: rest => g = file /\ rest = [] /\ out = Some None
  | SStat g (inl (dev, ino)) :: rest => g = file /\ search_ends dev ino 0 out rest
  | _ => False
  end.

(** The four ways [BlockDeviceDiscard path] can go, with their logs. *)
Definition discard_log (ioctlBlkGetSize64 : Z -> Z + Z) (path : string)
  (out : option GoError) (cs : list SysCall) : Prop :=
  (exists e, cs = [SOpen path (inr e)] /\ out = Some (SystemError e)) \/
  (exists f e, cs = [SOpen path (inl f); SClose f] /\
               ioctlBlkGetSize64 (Fd f) = inr e /\
               out = Some (PackageError ErrGetBlockSize)) \/
  (exists f size e,
      cs = [SOpen path (inl f);
            SBlkDiscard (Fd f) 0 (to_uint64 size) (Some e);
            SClose f] /\
      ioctlBlkGetSize64 (Fd f) = inl size /\
      out = Some (SystemError e)) \/
  (exists f size,
      cs = [SOpen path (inl f);
            SBlkDiscard (Fd f) 0 (to_uint64 size) None;
            SSync;
            SClose f] /\
      ioctlBlkGetSize64 (Fd f) = inl size /\
      out = None).

(** A small system to run the code on: device nodes with a fixed list of
    paths, some of which may not be opened, loop devices with or without a
    backing file, and regular files with their device and inode. *)
Module SimOs.

Record Node : Type := mkNode {
  path : string;
  denied : bool;
  backing : option (Z * Z)
}.

Record State : Type := mkState {
  next_fd : Z;
  opened : list (Z * Node);
  discarded : list (Z * Z * Z);
  syncs : nat
}.

Definition boot : State := mkState 3 [] [] 0.

Definition enoent (p : string) : OsError :=
  mkOsError true ("open " +++ p +++ ": no such file or directory").
Definition eacces (p : string) : OsError :=
  mkOsError false ("open " +++ p +++ ": permission denied").
Definition ebadf : OsError := mkOsError false "bad file descriptor".
Definition enxio : OsError := mkOsError false "no such device or address".

Definition node_of (fd : Z) (s : State) : option Node :=
  option_map snd (find (fun e => fst e =? fd) (opened s)).

Definition host (nodes : list Node) (files : list (string * (Z * Z)))
  : Sys State :=
  {| os_OpenFile := fun p s =>
       match find (fun n => (path n =? p)%string) nodes with
       | None => (inr (enoent p), s)
       | Some n =>
           if denied n then (inr (eacces p), s)
           else (inl (mkFile p (next_fd s)),
                 mkState (next_fd s + 1) ((next_fd s, n) :: opened s)
                         (discarded s) (syncs s))
       end;
     file_Stat := fun f s =>
       match find (fun e => (fst e =? Name f)%string) files with
       | None => (inr ebadf, s)
       | Some e => (inl (snd e), s)
       end;
     file_Close := fun f s =>
       mkState (next_fd s)
               (filter (fun e => negb (fst e =? Fd f)) (opened s))
               (discarded s) (syncs s);
     ioctlLoopGetStatus64 := fun fd s =>
       match node_of fd s with
       | None => (inr ebadf, s)
       | Some n =>
           match backing n with
           | None => (inr enxio, s)
           | Some b => (inl b, s)
           end
       end;
     ioctlBlkDiscard := fun fd start len s =>
       match node_of fd s with
       | None => (Some ebadf, s)
       | Some n =>
           (None, mkState (next_fd s) (opened s)
                          ((fd, start, len) :: discarded s) (syncs s))
       end;
     syscall_Sync := fun s =>
       mkState (next_fd s) (opened s) (discarded s) (S (syncs s)) |}.

(** Two loop devices in use, a third that may not be opened, a fourth
    that is free, and the sparse file behind the second. *)
Definition nodes : list Node :=
  [ mkNode "/dev/loop0" false (Some (2049, 11));
    mkNode "/dev/loop1" false (Some (2049, 42));
    mkNode "/dev/loop2" true None;
    mkNode "/dev/loop3" false None ].

Definition files : list (string * (Z * Z)) :=
  [ ("/var/lib/docker/devicemapper/data", (2049, 42));
    ("/var/lib/docker/devicemapper/metadata", (2049, 43)) ].

Definition linux : Sys State := host nodes files.

Definition start : Host State := mkHost boot [].

End SimOs.

(** ** Basic facts about the monad and the log *)

Lemma bind_eq {E A B} (m : M E A) (k : A -> M E B) w a w1 :
  m w = (a, w1) -> bind m k w = k a w1.
Proof. intros H. unfold bind. rewrite H. reflexivity. Qed.

Lemma bind_cong {E A B} (m : M E A) (k1 k2 : A -> M E B) w :
  (forall a w1, k1 a w1 = k2 a w1) -> bind m k1 w = bind m k2 w.
Proof. intros H. unfold bind. destruct (m w). apply H. Qed.

Lemma defer_eq {E A B} (d : M E B) (body : M E A) w a w1 :
  body w = (a, w1) -> defer d body w = (a, snd (d w1)).
Proof.
  intros H. unfold defer. rewrite (bind_eq _ _ _ _ _ H).
  unfold bind, ret. now destruct (d w1).
Qed.

Lemma Run_eq {E} (N : Native E) t w res cap e :
  DmTaskRun N (unmanaged t) (eng w) = (res, cap, e) ->
  Run N t w = ((if res =? 1 then nil_error else Some ErrTaskRun),
               after w (CTaskRun (unmanaged t) res) cap e).
Proof.
  intros H. unfold Run, bind, native. rewrite H.
  now destruct (res =? 1).
Qed.

Lemma count_app p evs1 evs2 :
  count p (evs1 ++ evs2) = (count p evs1 + count p evs2)%nat.
Proof. unfold count. rewrite filter_app, length_app. reflexivity. Qed.

Lemma messages_app evs1 evs2 :
  messages (evs1 ++ evs2) = messages evs1 ++ messages evs2.
Proof. unfold messages. apply flat_map_app. Qed.

Lemma ids_from_S deviceId n :
  ids_from deviceId (S n) = deviceId :: ids_from (incr deviceId) n.
Proof.
  unfold ids_from. cbn [seq map Nat.iter nat_rect]. f_equal.
  rewrite <- seq_shift, map_map. apply map_ext. intros i.
  apply Nat.iter_succ_r.
Qed.

Lemma ids_from_snoc deviceId n :
  ids_from deviceId (S n) = ids_from deviceId n ++ [Nat.iter n incr deviceId].
Proof. unfold ids_from. now rewrite seq_S, map_app. Qed.

Lemma incr_small x : MinInt <= x -> x + 1 <= MaxInt -> incr x = x + 1.
Proof.
  unfold incr, wrap_int, MinInt, MaxInt, intSize.
  change (2 ^ (64 - 1)) with 9223372036854775808.
  change (2 ^ 64) with 18446744073709551616.
  intros Hlo Hhi. rewrite Z.mod_small by lia. lia.
Qed.

Lemma iter_incr_small k :
  forall x, MinInt <= x -> x + Z.of_nat k <= MaxInt ->
            Nat.iter k incr x = x + Z.of_nat k.
Proof.
  induction k as [|k IH]; intros x Hlo Hhi.
  - cbn. lia.
  - rewrite Nat.iter_succ_r, IH; rewrite ?incr_small; lia.
Qed.

Lemma run_once_app evs1 :
  forall pending evs2,
    run_once pending evs1 = true ->
    starts_with_create evs2 ->
    run_once None evs2 = true ->
    run_once pending (evs1 ++ evs2) = true.
Proof.
  induction evs1 as [|ev evs1 IH]; intros pending evs2 H1 Hc H2.
  - destruct evs2 as [|ev2 rest]; [reflexivity|].
    destruct Hc as (tasktype & res & Hev). cbn in *. now rewrite Hev in *.
  - cbn in *. destruct (call ev); auto.
    destruct pending as [t'|]; [|discriminate].
    apply andb_true_iff in H1 as [Ht Hrest]. rewrite Ht. cbn. auto.
Qed.

Lemma disciplined_nil : disciplined [].
Proof. split; [exact I | reflexivity]. Qed.

Lemma disciplined_app evs1 evs2 :
  disciplined evs1 -> disciplined evs2 -> disciplined (evs1 ++ evs2).
Proof.
  intros [Hc1 H1] [Hc2 H2]. split.
  - destruct evs1; [exact Hc2 | exact Hc1].
  - now apply run_once_app.
Qed.

Lemma grows_refl {E} (w : World E) : grows w w [].
Proof. unfold grows. now rewrite app_nil_r. Qed.

Lemma grows_trans {E} (w1 w2 w3 : World E) evs1 evs2 :
  grows w1 w2 evs1 -> grows w2 w3 evs2 -> grows w1 w3 (evs1 ++ evs2).
Proof. unfold grows. intros H1 H2. now rewrite H2, H1, app_assoc. Qed.

Arguments itoa : simpl never.
Arguments String.append : simpl never.

(** Unfold one layer of Go code and split on what the engine answered. *)
Ltac engine_cases :=
  repeat match goal with
         | |- context [match ?x with _ => _ end] =>
             match x with
             | context [match _ with _ => _ end] => fail 1
             | _ => destruct x eqn:?
             end
         end.

Ltac go_unfold :=
  unfold RemoveDevice, GetInfo, GetStatus, SuspendDevice, ResumeDevice,
    TaskCreateNamed, TaskCreate, Run, SetName, SetMessage, SetSector, SetCookie,
    SetAddNode, SetRo, AddTarget, Task_GetInfo, GetNextTarget, UdevWait, defer,
    set_dmSawBusy, set_dmSawExist, get_dmSawBusy, get_dmSawExist,
    bind, native, ret.

Ltac go_unfold_in H :=
  unfold RemoveDevice, GetInfo, GetStatus, SuspendDevice, ResumeDevice,
    TaskCreateNamed, TaskCreate, Run, SetName, SetMessage, SetSector, SetCookie,
    SetAddNode, SetRo, AddTarget, Task_GetInfo, GetNextTarget, UdevWait, defer,
    set_dmSawBusy, set_dmSawExist, get_dmSawBusy, get_dmSawExist,
    bind, native, ret, nil_error in H.

(** Read an equation [f w = (result, w')] about Go code back into what the
    engine must have answered. *)
Ltac engine_cases_in H :=
  repeat match type of H with
         | context [match ?x with _ => _ end] =>
             match x with
             | context [match _ with _ => _ end] => fail 1
             | _ => destruct x eqn:?
             end
         end.

Ltac invert_go H :=
  go_unfold_in H; engine_cases_in H; try discriminate H;
  inversion H; subst; clear H.

(** An engine answer that passed the test [res != 1] is 1. *)
Ltac settle_results :=
  repeat match goal with
         | H : negb (?z =? 1) = false |- _ =>
             apply negb_false_iff, Z.eqb_eq in H; subst z
         end.

Ltac tidy_log :=
  unfold grows, cleared, set_dmSawExist, set_dmSawBusy;
  cbn [snd fst trace after]; repeat rewrite <- app_assoc.

Section Logs.

Context {E : Type} (N : Native E).

Lemma ResumeDevice_log name w :
  exists evs, grows w (snd (ResumeDevice N name w)) evs /\
              resumes evs = 1%nat /\ suspends evs = 0%nat /\ messages evs = [].
Proof.
  go_unfold. engine_cases; tidy_log; eexists; (split; [reflexivity|]); cbn; auto.
Qed.

Lemma SuspendDevice_log name w :
  exists evs, grows w (snd (SuspendDevice N name w)) evs /\
              resumes evs = 0%nat /\ suspends evs = 1%nat /\ messages evs = [].
Proof.
  go_unfold. engine_cases; tidy_log; eexists; (split; [reflexivity|]); cbn; auto.
Qed.

Lemma GetInfo_log name w :
  exists evs, grows w (snd (GetInfo N name w)) evs /\
              resumes evs = 0%nat /\ suspends evs = 0%nat /\ messages evs = [].
Proof.
  go_unfold. engine_cases; tidy_log; eexists; (split; [reflexivity|]); cbn; auto.
Qed.

Ltac disciplined_log :=
  go_unfold; engine_cases; tidy_log; eexists; (split; [reflexivity|]);
  (split; [cbn; eauto | cbn; rewrite ?Nat.eqb_refl; reflexivity]).

Lemma ResumeDevice_disciplined name w :
  exists evs, grows w (snd (ResumeDevice N name w)) evs /\ disciplined evs.
Proof. disciplined_log. Qed.

Lemma SuspendDevice_disciplined name w :
  exists evs, grows w (snd (SuspendDevice N name w)) evs /\ disciplined evs.
Proof. disciplined_log. Qed.

Lemma GetInfo_disciplined name w :
  exists evs, grows w (snd (GetInfo N name w)) evs /\ disciplined evs.
Proof. disciplined_log. Qed.

Lemma RemoveDevice_disciplined name w :
  exists evs, grows w (snd (RemoveDevice N name w)) evs /\ disciplined evs.
Proof. disciplined_log. Qed.

Lemma GetStatus_disciplined name w :
  exists evs, grows w (snd (GetStatus N name w)) evs /\ disciplined evs.
Proof. disciplined_log. Qed.

Lemma rollback_disciplined doSuspend baseName w :
  exists evs, grows w (snd (rollback N doSuspend baseName w)) evs /\ disciplined evs.
Proof.
  destruct doSuspend.
  - unfold rollback, bind, ret.
    destruct (ResumeDevice_disciplined baseName w) as (evs & Hg & Hd).
    exists evs. now destruct (ResumeDevice N baseName w).
  - exists []. split; [apply grows_refl | apply disciplined_nil].
Qed.

(** Each source loop is the generic loop at its own parameters. *)
Lemma CreateDevice_for_alloc poolName fuel :
  forall deviceId w,
    CreateDevice_for N fuel poolName deviceId w =
    alloc_loop N thin_msg thin_context (ret tt) poolName fuel deviceId w.
Proof.
  induction fuel as [|fuel IH]; intros deviceId w; [reflexivity|].
  cbn [CreateDevice_for alloc_loop].
  apply bind_cong; intros [[task|] err] w1; [|reflexivity].
  apply bind_cong; intros [err1|] w2; [reflexivity|].
  apply bind_cong; intros [err2|] w3; [reflexivity|].
  apply bind_cong; intros _ w4.
  apply bind_cong; intros [err3|] w5; [|reflexivity].
  apply bind_cong; intros [|] w6; [apply IH | reflexivity].
Qed.

Lemma CreateSnapDevice_for_alloc poolName baseName baseDeviceId doSuspend fuel :
  forall deviceId w,
    CreateSnapDevice_for N fuel poolName deviceId baseName baseDeviceId doSuspend w =
    alloc_loop N (snap_msg baseDeviceId) snap_context
               (rollback N doSuspend baseName) poolName fuel deviceId w.
Proof.
  induction fuel as [|fuel IH]; intros deviceId w; [reflexivity|].
  cbn [CreateSnapDevice_for alloc_loop].
  apply bind_cong; intros [[task|] err] w1; [|reflexivity].
  apply bind_cong; intros [err1|] w2; [reflexivity|].
  apply bind_cong; intros [err2|] w3; [reflexivity|].
  apply bind_cong; intros _ w4.
  apply bind_cong; intros [err3|] w5; [|reflexivity].
  apply bind_cong; intros [|] w6; [apply IH | reflexivity].
Qed.

Lemma attempt_log poolName message w res cap w' :
  attempt N poolName message w res cap w' ->
  exists evs, grows w w' evs /\ messages evs = [message] /\
              resumes evs = 0%nat /\ suspends evs = 0%nat /\
              count is_exists_failure evs =
                (if negb (res =? 1) && saw_exist cap then 1%nat else 0%nat) /\
              exists evs0 t, evs = evs0 ++ [mkEvent (CTaskRun t res) cap].
Proof.
  intros (task & w1 & w2 & w3 & e4 & H1 & H2 & H3 & H4 & ->).
  invert_go H1. invert_go H2. invert_go H3.
  tidy_log. eexists. split; [reflexivity|]. cbn.
  repeat split; auto.
  - unfold count. cbn. unfold is_exists_failure. cbn.
    destruct (negb (res =? 1) && saw_exist cap); reflexivity.
  - eexists [_; _; _; _], _. reflexivity.
Qed.

(** The calls of one message that goes all the way, in their order. *)
Lemma attempt_calls poolName message w res cap w' :
  attempt N poolName message w res cap w' ->
  exists evs t,
    grows w w' evs /\
    calls evs = [CTaskCreate DeviceTargetMsg (Some t); CTaskSetName t poolName 1;
                 CTaskSetSector t 0 1; CTaskSetMessage t message 1;
                 CTaskRun t res].
Proof.
  intros (task & w1 & w2 & w3 & e4 & H1 & H2 & H3 & H4 & ->).
  invert_go H1. invert_go H2. invert_go H3. settle_results.
  tidy_log. eexists. eexists. split; reflexivity.
Qed.

Lemma attempt_disciplined poolName message w res cap w' :
  attempt N poolName message w res cap w' ->
  exists evs, grows w w' evs /\ disciplined evs.
Proof.
  intros (task & w1 & w2 & w3 & e4 & H1 & H2 & H3 & H4 & ->).
  invert_go H1. invert_go H2. invert_go H3.
  tidy_log. eexists. split; [reflexivity|].
  split; [cbn; eauto | cbn; now rewrite Nat.eqb_refl].
Qed.

Section Loop.

Variables (msg : Z -> string) (context : string) (undo : M E unit).
Variable poolName : string.

Local Abbreviation loop := (alloc_loop N msg context undo poolName).

Lemma undo_then_ret {A} (a : A) w : (undo ;;; ret a) w = (a, snd (undo w)).
Proof. unfold bind, ret. destruct (undo w). reflexivity. Qed.

Ltac leave_with_undo := apply undo_then_ret.

(** One iteration either gets its message to the engine, or leaves the loop
    with a set-up error after [undo]. *)
Lemma iteration_cases fuel deviceId w :
  (exists res cap w', attempt N poolName (msg deviceId) w res cap w') \/
  (exists err w2 evs n,
      loop (S fuel) deviceId w = (Return err, deviceId, snd (undo w2)) /\
      grows w w2 evs /\ resumes evs = 0%nat /\ suspends evs = 0%nat /\
      count is_exists_failure evs = 0%nat /\
      messages evs = map msg (ids_from deviceId n) /\
      disciplined evs /\
      ((n = 1%nat /\ err = message_error) \/
       (n = 0%nat /\ In err (setup_errors poolName)))).
Proof.
  unfold attempt. cbn [alloc_loop].
  destruct (TaskCreateNamed N DeviceTargetMsg poolName w) as [[[task|] err] w1] eqn:H1.
  2: { right. rewrite (bind_eq _ _ _ _ _ H1); cbv beta iota.
       invert_go H1; (do 3 eexists); exists 0%nat;
         (split; [leave_with_undo|]); tidy_log; (split; [reflexivity|]);
         unfold disciplined; cbn; (repeat split; eauto);
         right; cbn; auto. }
  assert (err = None) as -> by (clear - H1; invert_go H1; reflexivity).
  destruct (SetSector N task 0 w1) as [[err1|] w2] eqn:H2.
  { right. rewrite (bind_eq _ _ _ _ _ H1); cbv beta iota.
    rewrite (bind_eq _ _ _ _ _ H2); cbv beta iota.
    invert_go H1; invert_go H2; (do 3 eexists); exists 0%nat;
      (split; [leave_with_undo|]); tidy_log; (split; [reflexivity|]);
      unfold disciplined; cbn; (repeat split; eauto);
         right; cbn; auto. }
  destruct (SetMessage N task (msg deviceId) w2) as [[err2|] w3] eqn:H3.
  { right. rewrite (bind_eq _ _ _ _ _ H1); cbv beta iota.
    rewrite (bind_eq _ _ _ _ _ H2); cbv beta iota.
    rewrite (bind_eq _ _ _ _ _ H3); cbv beta iota.
    invert_go H1; invert_go H2; invert_go H3; (do 3 eexists); exists 1%nat;
      (split; [leave_with_undo|]); tidy_log; (split; [reflexivity|]);
      unfold disciplined; cbn; (repeat split; eauto). }
  left. destruct (DmTaskRun N (unmanaged task) (eng w3)) as [[res cap] e4] eqn:H4.
  exists res, cap. eexists. exists task, w1, w2, w3, e4. repeat split; eauto.
Qed.

(** What one iteration does once its message has reached the engine. *)
Lemma alloc_loop_step fuel deviceId w res cap w' :
  attempt N poolName (msg deviceId) w res cap w' ->
  loop (S fuel) deviceId w =
  if res =? 1 then (Break, deviceId, w')
  else if saw_exist cap then loop fuel (incr deviceId) w'
       else (Return (run_error context), deviceId, snd (undo w')).
Proof.
  intros (task & w1 & w2 & w3 & e4 & H1 & H2 & H3 & H4 & ->).
  unfold nil_error in *. cbn [alloc_loop].
  rewrite (bind_eq _ _ _ _ _ H1); cbv beta iota.
  rewrite (bind_eq _ _ _ _ _ H2); cbv beta iota.
  rewrite (bind_eq _ _ _ _ _ H3); cbv beta iota.
  rewrite (bind_eq _ _ w3 tt (cleared w3) eq_refl).
  unfold Run, native. unfold bind at 1 2. cbv beta.
  change (eng (cleared w3)) with (eng w3). rewrite H4.
  destruct (res =? 1); cbn [negb]; unfold ret at 1; cbv beta iota; [reflexivity|].
  unfold get_dmSawExist. unfold bind at 1.
  cbn [dmSawExist after cleared set_dmSawExist snd orb].
  destruct (saw_exist cap); [reflexivity|].
  apply undo_then_ret.
Qed.

(** After [k] collisions the loop is where it started, [k] ids further. *)
Lemma alloc_loop_collisions k :
  forall fuel deviceId w w',
    collisions N poolName msg k deviceId w w' ->
    loop (k + fuel) deviceId w = loop fuel (Nat.iter k incr deviceId) w'.
Proof.
  induction k as [|k IH]; intros fuel deviceId w w' H; inversion H; subst.
  - reflexivity.
  - cbn [Nat.add]. erewrite alloc_loop_step by eassumption.
    destruct (Z.eqb_spec res 1) as [Hone|Hone]; [contradiction|].
    match goal with Hx : saw_exist _ = true |- _ => rewrite Hx end.
    rewrite Nat.iter_succ_r. now apply IH.
Qed.

(** What a run of the loop amounts to, whichever way it is left: the log
    gained [evs] up to the point where the loop is left ([undo] comes after
    it), the slot moved once per failed run with "already exists" heard, and
    the messages sent are those of the ids tried, in order. *)
Lemma alloc_loop_report fuel :
  forall deviceId w,
  exists w2 evs n,
    grows w w2 evs /\ resumes evs = 0%nat /\ suspends evs = 0%nat /\
    snd (fst (loop fuel deviceId w))
      = Nat.iter (count is_exists_failure evs) incr deviceId /\
    messages evs = map msg (ids_from deviceId n) /\
    match fst (fst (loop fuel deviceId w)) with
    | Looping =>
        snd (loop fuel deviceId w) = w2 /\
        n = count is_exists_failure evs /\ n = fuel
    | Break =>
        snd (loop fuel deviceId w) = w2 /\
        n = S (count is_exists_failure evs) /\
        exists evs0 t cap, evs = evs0 ++ [mkEvent (CTaskRun t 1) cap]
    | Return err =>
        snd (loop fuel deviceId w) = snd (undo w2) /\
        ((n = S (count is_exists_failure evs) /\
          (err = run_error context \/ err = message_error)) \/
         (n = count is_exists_failure evs /\ In err (setup_errors poolName)))
    end.
Proof.
  induction fuel as [|fuel IH]; intros deviceId w.
  - exists w, [], 0%nat. cbn. repeat split; auto using grows_refl.
  - destruct (iteration_cases fuel deviceId w)
      as [(res & cap & w' & Hat) | (err & w2 & evs & n & -> & Hg & Hr & Hs & Hx & Hm & _ & Hn)].
    + rewrite (alloc_loop_step _ _ _ _ _ _ Hat).
      destruct (attempt_log _ _ _ _ _ _ Hat)
        as (evs & Hg & Hm & Hr & Hs & Hx & evs0 & t & Hlast).
      destruct (Z.eqb_spec res 1) as [->|Hres]; cbn [negb andb] in Hx.
      * exists w', evs, 1%nat. cbn [fst snd]. rewrite Hx.
        repeat split; auto. eauto.
      * destruct (saw_exist cap) eqn:Hcap.
        -- destruct (IH (incr deviceId) w')
             as (w2 & evs' & n & Hg' & Hr' & Hs' & Hid & Hm' & Hexit).
           exists w2, (evs ++ evs'), (S n).
           rewrite !count_app, Hx in *. cbn [Nat.add].
           unfold resumes, suspends in *. rewrite !count_app, Hr, Hs, Hr', Hs'.
           rewrite messages_app, Hm, Hm', ids_from_S, Nat.iter_succ_r.
           repeat split; eauto using grows_trans.
           destruct (fst (fst (loop fuel (incr deviceId) w'))).
           ++ destruct Hexit as (? & ? & ?). repeat split; auto.
           ++ destruct Hexit as (? & [(? & ?)|(? & ?)]); split; auto.
           ++ destruct Hexit as (? & ? & evs1 & t1 & cap1 & ->).
              repeat split; auto. exists (evs ++ evs1), t1, cap1.
              now rewrite app_assoc.
        -- exists w', evs, 1%nat. cbn [fst snd]. rewrite Hx.
           repeat split; auto.
    + exists w2, evs, n. cbn [fst snd]. rewrite Hx.
      repeat split; auto. destruct Hn as [(-> & ->)|(-> & Hin)]; auto.
Qed.

(** Every task the loop allocates is run at most once, provided that holds
    of what is done on the way out. *)
Lemma alloc_loop_disciplined :
  (forall w, exists evs, grows w (snd (undo w)) evs /\ disciplined evs) ->
  forall fuel deviceId w,
  exists evs, grows w (snd (loop fuel deviceId w)) evs /\ disciplined evs.
Proof.
  intros Hundo. induction fuel as [|fuel IH]; intros deviceId w.
  - exists []. split; [apply grows_refl | apply disciplined_nil].
  - destruct (iteration_cases fuel deviceId w)
      as [(res & cap & w' & Hat) | (err & w2 & evs & n & -> & Hg & _ & _ & _ & _ & Hd & _)].
    + rewrite (alloc_loop_step _ _ _ _ _ _ Hat).
      destruct (attempt_disciplined _ _ _ _ _ _ Hat) as (eva & Hga & Hda).
      destruct (res =? 1); [|destruct (saw_exist cap)]; cbn [snd].
      * now exists eva.
      * destruct (IH (incr deviceId) w') as (evs & Hg & Hd).
        exists (eva ++ evs). eauto using grows_trans, disciplined_app.
      * destruct (Hundo w') as (evu & Hgu & Hdu).
        exists (eva ++ evu). eauto using grows_trans, disciplined_app.
    + cbn [snd]. destruct (Hundo w2) as (evu & Hgu & Hdu).
      exists (evs ++ evu). eauto using grows_trans, disciplined_app.
Qed.

End Loop.

End Logs.

(** ** The top-level functions in terms of their loops *)

Section Facts.

Context {E : Type} (N : Native E).

Lemma CreateDevice_eq fuel poolName deviceId w :
  CreateDevice N fuel poolName deviceId w =
  let '(exit, deviceId', w') :=
    alloc_loop N thin_msg thin_context (ret tt) poolName fuel deviceId w in
  (outcome_of exit, deviceId', w').
Proof.
  unfold CreateDevice, bind. rewrite CreateDevice_for_alloc.
  destruct (alloc_loop _ _ _ _ _ _ _ _) as [[[| |] ?] ?]; reflexivity.
Qed.

Lemma collisions_log poolName msg k :
  forall deviceId w w',
    collisions N poolName msg k deviceId w w' ->
    exists evs, grows w w' evs /\ messages evs = map msg (ids_from deviceId k) /\
                resumes evs = 0%nat /\ suspends evs = 0%nat.
Proof.
  induction k as [|k IH]; intros deviceId w w' H; inversion H; subst.
  - exists []. repeat split; auto using grows_refl.
  - match goal with Ha : attempt _ _ _ _ _ _ _ |- _ =>
      destruct (attempt_log _ _ _ _ _ _ _ Ha) as (evs1 & Hg1 & Hm1 & Hr1 & Hs1 & _)
    end.
    match goal with Hc : collisions _ _ _ _ _ _ _ |- _ =>
      destruct (IH _ _ _ Hc) as (evs2 & Hg2 & Hm2 & Hr2 & Hs2)
    end.
    exists (evs1 ++ evs2). unfold resumes, suspends in *.
    rewrite messages_app, !count_app, Hm1, Hm2, Hr1, Hr2, Hs1, Hs2, ids_from_S.
    repeat split; eauto using grows_trans.
Qed.

Lemma CreateSnapDevice_eq fuel poolName deviceId baseName baseDeviceId w devinfo e0 w0 :
  GetInfo N baseName w = (devinfo, e0, w0) ->
  CreateSnapDevice N fuel poolName deviceId baseName baseDeviceId w =
  if origin_exists devinfo then
    match SuspendDevice N baseName w0 with
    | (Some err, w1) => (Returned (Some err), deviceId, w1)
    | (None, w1) =>
        let '(exit, deviceId', w2) :=
          alloc_loop N (snap_msg baseDeviceId) snap_context
                     (rollback N true baseName) poolName fuel deviceId w1 in
        match exit with
        | Break => let (err, w3) := ResumeDevice N baseName w2 in
                   (Returned err, deviceId', w3)
        | _ => (outcome_of exit, deviceId', w2)
        end
    end
  else
    let '(exit, deviceId', w2) :=
      alloc_loop N (snap_msg baseDeviceId) snap_context
                 (rollback N false baseName) poolName fuel deviceId w0 in
    (outcome_of exit, deviceId', w2).
Proof.
  intros H. unfold CreateSnapDevice. rewrite (bind_eq _ _ _ _ _ H); cbv beta iota zeta.
  destruct (origin_exists devinfo); unfold bind.
  - destruct (SuspendDevice N baseName w0) as [[err|] w1]; [reflexivity|].
    rewrite CreateSnapDevice_for_alloc.
    destruct (alloc_loop _ _ _ _ _ _ _ _) as [[[| |] ?] ?]; reflexivity.
  - unfold ret at 1, nil_error; cbv beta iota. rewrite CreateSnapDevice_for_alloc.
    destruct (alloc_loop _ _ _ _ _ _ _ _) as [[[| |] ?] ?]; reflexivity.
Qed.

Lemma rollback_true baseName w :
  snd (rollback N true baseName w) = snd (ResumeDevice N baseName w).
Proof. unfold rollback, bind, ret. destruct (ResumeDevice N baseName w). reflexivity. Qed.

(** The report on the loop, read for the slot. *)
Lemma alloc_loop_slot msg context undo poolName fuel deviceId w :
  exists w2 evs,
    grows w w2 evs /\
    snd (alloc_loop N msg context undo poolName fuel deviceId w)
      = match fst (fst (alloc_loop N msg context undo poolName fuel deviceId w)) with
        | Return _ => snd (undo w2)
        | _ => w2
        end /\
    slot_report msg context poolName deviceId
      (fst (fst (alloc_loop N msg context undo poolName fuel deviceId w)))
      (snd (fst (alloc_loop N msg context undo poolName fuel deviceId w))) evs.
Proof.
  destruct (alloc_loop_report N msg context undo poolName fuel deviceId w)
    as (w2 & evs & n & Hg & _ & _ & Hid & Hm & Hexit).
  exists w2, evs. split; [exact Hg|]. unfold slot_report.
  destruct (alloc_loop _ _ _ _ _ _ _ _) as [[exit id'] w']; cbn [fst snd] in *.
  assert (Hsmall : MinInt <= deviceId ->
                   deviceId + Z.of_nat (count is_exists_failure evs) <= MaxInt ->
                   id' = deviceId + Z.of_nat (count is_exists_failure evs))
    by (intros; subst id'; now apply iter_incr_small).
  destruct exit.
  - destruct Hexit as (-> & -> & _). auto.
  - destruct Hexit as (-> & Hn). repeat split; auto.
    destruct Hn as [(-> & Herr)|(-> & Hin)]; [left | right]; split; auto.
    now rewrite Hm, ids_from_snoc, map_app, Hid.
  - destruct Hexit as (-> & -> & _). repeat split; auto.
    now rewrite Hm, ids_from_snoc, map_app, Hid.
Qed.

(** The loop entered with [doSuspend = false]: no resume, no suspend. *)
Lemma alloc_loop_no_rollback msg context poolName baseName fuel deviceId w :
  exists evs n,
    grows w (snd (alloc_loop N msg context (rollback N false baseName)
                             poolName fuel deviceId w)) evs /\
    resumes evs = 0%nat /\ suspends evs = 0%nat /\
    messages evs = map msg (ids_from deviceId n) /\
    match fst (fst (alloc_loop N msg context (rollback N false baseName)
                               poolName fuel deviceId w)) with
    | Return err => In err (run_error context :: message_error :: setup_errors poolName)
    | _ => True
    end.
Proof.
  destruct (alloc_loop_report N msg context (rollback N false baseName) poolName
                              fuel deviceId w)
    as (w2 & evs & n & Hg & Hr & Hs & _ & Hm & Hexit).
  exists evs, n.
  destruct (fst (fst (alloc_loop _ _ _ _ _ _ _ _))).
  - destruct Hexit as (-> & _). auto.
  - destruct Hexit as (-> & Herr). repeat split; auto.
    destruct Herr as [(_ & [->| ->])|(_ & Hin)]; cbn [In]; auto.
  - destruct Hexit as (-> & _). auto.
Qed.

(** [CreateSnapDevice] when the info query does not report an existing
    origin, be it by an error or by an existence flag at zero. *)
Lemma CreateSnapDevice_no_suspend fuel poolName deviceId baseName baseDeviceId
      w devinfo e0 w0 :
  GetInfo N baseName w = (devinfo, e0, w0) ->
  origin_exists devinfo = false ->
  CreateSnapDevice N fuel poolName deviceId baseName baseDeviceId w =
    (let '(exit, deviceId', w') :=
       CreateSnapDevice_for N fuel poolName deviceId baseName baseDeviceId false w0 in
     (outcome_of exit, deviceId', w')) /\
  (exists evs,
      grows w (snd (CreateSnapDevice N fuel poolName deviceId baseName baseDeviceId w)) evs /\
      suspends evs = 0%nat /\ resumes evs = 0%nat) /\
  (forall err,
      fst (fst (CreateSnapDevice N fuel poolName deviceId baseName baseDeviceId w))
        = Returned (Some err) ->
      In (Some err) (run_error snap_context :: message_error :: setup_errors poolName)) /\
  (forall res cap w1,
      attempt N poolName (snap_msg baseDeviceId deviceId) w0 res cap w1 ->
      (0 < fuel)%nat ->
      exists evs rest,
        grows w (snd (CreateSnapDevice N fuel poolName deviceId baseName baseDeviceId w)) evs /\
        messages evs = snap_msg baseDeviceId deviceId :: rest).
Proof.
  intros Hinfo Hno.
  pose proof (CreateSnapDevice_eq fuel poolName deviceId baseName baseDeviceId
                                  _ _ _ _ Hinfo) as Heq.
  rewrite Hno in Heq.
  destruct (GetInfo_log N baseName w) as (evi & Hgi & Hri & Hsi & Hmi).
  rewrite Hinfo in Hgi; cbn [snd] in Hgi.
  split; [|split; [|split]].
  - rewrite Heq, CreateSnapDevice_for_alloc. reflexivity.
  - rewrite Heq.
    destruct (alloc_loop_no_rollback (snap_msg baseDeviceId) snap_context poolName
                                     baseName fuel deviceId w0)
      as (evs & n & Hg & Hr & Hs & _).
    destruct (alloc_loop _ _ _ _ _ _ _ _) as [[exit id'] w']. cbn [snd] in *.
    exists (evi ++ evs). unfold resumes, suspends in *.
    rewrite !count_app, Hri, Hsi, Hr, Hs. eauto using grows_trans.
  - intros err. rewrite Heq.
    destruct (alloc_loop_no_rollback (snap_msg baseDeviceId) snap_context poolName
                                     baseName fuel deviceId w0)
      as (evs & n & _ & _ & _ & _ & Hexit).
    destruct (alloc_loop _ _ _ _ _ _ _ _) as [[[|err'|] id'] w'];
      cbn [fst snd outcome_of] in *; try discriminate.
    intros [= ->]. exact Hexit.
  - intros res cap w1 Hat Hfuel. rewrite Heq. clear Heq.
    destruct fuel as [|fuel]; [lia|].
    rewrite (alloc_loop_step _ _ _ _ _ _ _ _ _ _ _ Hat).
    destruct (attempt_log _ _ _ _ _ _ _ Hat) as (eva & Hga & Hma & _).
    assert (Hpre : grows w w1 (evi ++ eva)) by eauto using grows_trans.
    assert (Hmsg : messages (evi ++ eva) = [snap_msg baseDeviceId deviceId])
      by now rewrite messages_app, Hmi, Hma.
    destruct (res =? 1); [|destruct (saw_exist cap)].
    + exists (evi ++ eva), []. split; [exact Hpre | exact Hmsg].
    + destruct (alloc_loop_no_rollback (snap_msg baseDeviceId) snap_context poolName
                                       baseName fuel (incr deviceId) w1)
        as (evs & n & Hg & _).
      destruct (alloc_loop _ _ _ _ _ _ _ _) as [[exit id'] w']. cbn [snd] in Hg.
      exists ((evi ++ eva) ++ evs), (messages evs).
      split; [exact (grows_trans _ _ _ _ _ Hpre Hg)|].
      now rewrite messages_app, Hmsg.
    + exists (evi ++ eva), []. split; [exact Hpre | exact Hmsg].
Qed.

Lemma CreateDevice_disciplined fuel poolName deviceId w :
  exists evs, grows w (snd (CreateDevice N fuel poolName deviceId w)) evs /\
              disciplined evs.
Proof.
  rewrite CreateDevice_eq.
  destruct (alloc_loop_disciplined N thin_msg thin_context (ret tt) poolName
              (fun w => ex_intro _ [] (conj (grows_refl w) disciplined_nil))
              fuel deviceId w) as (evs & Hg & Hd).
  exists evs. now destruct (alloc_loop _ _ _ _ _ _ _ _) as [[exit id'] w'].
Qed.

Lemma CreateSnapDevice_disciplined fuel poolName deviceId baseName baseDeviceId w :
  exists evs,
    grows w (snd (CreateSnapDevice N fuel poolName deviceId baseName baseDeviceId w))
          evs /\
    disciplined evs.
Proof.
  destruct (GetInfo N baseName w) as [[devinfo e0] w0] eqn:Hinfo.
  rewrite (CreateSnapDevice_eq _ _ _ _ _ _ _ _ _ Hinfo).
  destruct (GetInfo_disciplined N baseName w) as (evi & Hgi & Hdi).
  rewrite Hinfo in Hgi; cbn [snd] in Hgi.
  destruct (origin_exists devinfo).
  - destruct (SuspendDevice_disciplined N baseName w0) as (evu & Hgu & Hdu).
    destruct (SuspendDevice N baseName w0) as [[err|] w1]; cbn [snd] in *.
    + exists (evi ++ evu). eauto using grows_trans, disciplined_app.
    + destruct (alloc_loop_disciplined N (snap_msg baseDeviceId) snap_context
                  (rollback N true baseName) poolName
                  (rollback_disciplined N true baseName) fuel deviceId w1)
        as (evl & Hgl & Hdl).
      destruct (alloc_loop _ _ _ _ _ _ _ _) as [[exit id'] w2]; cbn [snd] in *.
      assert (Hpre : grows w w2 ((evi ++ evu) ++ evl)) by eauto using grows_trans.
      assert (Hdpre : disciplined ((evi ++ evu) ++ evl))
        by eauto using disciplined_app.
      destruct exit; cbn [snd outcome_of]; eauto.
      destruct (ResumeDevice_disciplined N baseName w2) as (evr & Hgr & Hdr).
      destruct (ResumeDevice N baseName w2) as [rr w3]; cbn [snd] in *.
      exists (((evi ++ evu) ++ evl) ++ evr). eauto using grows_trans, disciplined_app.
  - destruct (alloc_loop_disciplined N (snap_msg baseDeviceId) snap_context
                (rollback N false baseName) poolName
                (rollback_disciplined N false baseName) fuel deviceId w0)
      as (evl & Hgl & Hdl).
    destruct (alloc_loop _ _ _ _ _ _ _ _) as [[exit id'] w2]; cbn [snd] in *.
    exists (evi ++ evl). eauto using grows_trans, disciplined_app.
Qed.

End Facts.

(** * Properties checked against the specification *)

(** C1.  [CreateDevice] keeps sending "create_thin <id>": once a message has
    reached the engine, a successful run ends the call with success and the
    slot as it is; a failed run during which "already exists" was heard moves
    the slot to the next id and tries again; any other failed run ends the
    call with the run error at once.  Hence after [k] collisions in a row and
    a success the call returns success with the slot [k] ids further, having
    sent exactly the [k + 1] messages for the ids tried; with 5, 6, 7 taken
    and 8 free that is four messages and the slot at 8. *)
Theorem CreateDevice_retries_on_exists :
  forall E (N : Native E) poolName,
    (forall fuel deviceId w res cap w',
        attempt N poolName (thin_msg deviceId) w res cap w' ->
        CreateDevice N (S fuel) poolName deviceId w =
        if res =? 1 then (Returned nil_error, deviceId, w')
        else if saw_exist cap then CreateDevice N fuel poolName (incr deviceId) w'
             else (Returned (run_error thin_context), deviceId, w')) /\
    (forall k fuel deviceId w w1 cap w2,
        collisions N poolName thin_msg k deviceId w w1 ->
        attempt N poolName (thin_msg (Nat.iter k incr deviceId)) w1 1 cap w2 ->
        (k < fuel)%nat ->
        CreateDevice N fuel poolName deviceId w =
          (Returned nil_error, Nat.iter k incr deviceId, w2) /\
        exists evs, grows w w2 evs /\
                    messages evs = map thin_msg (ids_from deviceId (S k))) /\
    (forall fuel w w1 cap w2,
        collisions N poolName thin_msg 3 5 w w1 ->
        attempt N poolName (thin_msg 8) w1 1 cap w2 ->
        (3 < fuel)%nat ->
        CreateDevice N fuel poolName 5 w = (Returned nil_error, 8, w2) /\
        exists evs, grows w w2 evs /\
                    messages evs = ["create_thin 5"; "create_thin 6";
                                    "create_thin 7"; "create_thin 8"]).
Proof.
  intros E N poolName.
  assert (Hstep : forall fuel deviceId w res cap w',
             attempt N poolName (thin_msg deviceId) w res cap w' ->
             CreateDevice N (S fuel) poolName deviceId w =
             if res =? 1 then (Returned nil_error, deviceId, w')
             else if saw_exist cap then CreateDevice N fuel poolName (incr deviceId) w'
                  else (Returned (run_error thin_context), deviceId, w')).
  { intros fuel deviceId w res cap w' Hat.
    rewrite !CreateDevice_eq, (alloc_loop_step _ _ _ _ _ _ _ _ _ _ _ Hat).
    destruct (res =? 1); [reflexivity|].
    destruct (saw_exist cap); reflexivity. }
  assert (Hconv : forall k fuel deviceId w w1 cap w2,
             collisions N poolName thin_msg k deviceId w w1 ->
             attempt N poolName (thin_msg (Nat.iter k incr deviceId)) w1 1 cap w2 ->
             (k < fuel)%nat ->
             CreateDevice N fuel poolName deviceId w =
               (Returned nil_error, Nat.iter k incr deviceId, w2) /\
             exists evs, grows w w2 evs /\
                         messages evs = map thin_msg (ids_from deviceId (S k))).
  { intros k fuel deviceId w w1 cap w2 Hc Hat Hlt. split.
    - replace fuel with (k + S (fuel - S k))%nat by lia.
      rewrite CreateDevice_eq, (alloc_loop_collisions _ _ _ _ _ _ _ _ _ _ Hc).
      rewrite (alloc_loop_step _ _ _ _ _ _ _ _ _ _ _ Hat). reflexivity.
    - destruct (collisions_log _ _ _ _ _ _ _ Hc) as (evs1 & Hg1 & Hm1 & _).
      destruct (attempt_log _ _ _ _ _ _ _ Hat) as (evs2 & Hg2 & Hm2 & _).
      exists (evs1 ++ evs2). split; [eauto using grows_trans|].
      rewrite messages_app, Hm1, Hm2. unfold ids_from.
      rewrite seq_S, map_app, map_app. reflexivity. }
  split; [exact Hstep|]. split; [exact Hconv|].
  intros fuel w w1 cap w2 Hc Hat Hlt.
  exact (Hconv 3%nat fuel 5 w w1 cap w2 Hc Hat Hlt).
Qed.

(** Discharging [attempt] and [collisions] on the simulated engine: the
    intermediate worlds are found by running the code. *)
Ltac run_sim := vm_compute; reflexivity.

Ltac sim_attempt :=
  unfold attempt; do 5 eexists;
  (split; [run_sim|]); (split; [run_sim|]); (split; [run_sim|]);
  (split; [run_sim|]); reflexivity.

Ltac sim_collision :=
  eapply collisions_S; [sim_attempt | discriminate | reflexivity | ].

(** C1 on the simulated pool in which 5, 6 and 7 are taken. *)
Lemma CreateDevice_retries_on_exists_witness :
  exists w2,
    CreateDevice Sim.engine 4 "pool" 5 (Sim.boot Sim.pool567)
      = (Returned nil_error, 8, w2) /\
    exists evs, grows (Sim.boot Sim.pool567) w2 evs /\
                messages evs = ["create_thin 5"; "create_thin 6";
                                "create_thin 7"; "create_thin 8"].
Proof.
  eexists.
  eapply (proj2 (proj2 (CreateDevice_retries_on_exists _ Sim.engine "pool"))).
  - sim_collision. sim_collision. sim_collision. apply collisions_O.
  - sim_attempt.
  - lia.
Defined.

(** C2, as stated, fails.  On the simulated engine that can run neither
    messages nor resumes the origin "base" exists and is suspended by the
    call, the create_snap run fails without "already exists" heard, and
    [ResumeDevice] is called once before the run error is returned: all that
    the claim asks for.  The resume fails, its result is not looked at, and
    the call returns with "base" still suspended. *)
Lemma CreateSnapDevice_leaves_origin_suspended :
  (exists info e0 w0 w1 res cap w3,
      GetInfo Sim.engine "base" (Sim.boot Sim.pool_stuck) = (Some info, e0, w0) /\
      Exists info <> 0 /\
      SuspendDevice Sim.engine "base" w0 = (nil_error, w1) /\
      Sim.devices (eng w1) = [("base", true)] /\
      attempt Sim.engine "pool" (snap_msg 1 5) w1 res cap w3 /\
      res <> 1 /\ saw_exist cap = false) /\
  fst (CreateSnapDevice Sim.engine 3 "pool" 5 "base" 1 (Sim.boot Sim.pool_stuck))
    = (Returned (run_error snap_context), 5) /\
  resumes (trace (snd (CreateSnapDevice Sim.engine 3 "pool" 5 "base" 1
                                        (Sim.boot Sim.pool_stuck)))) = 1%nat /\
  Sim.devices (eng (snd (CreateSnapDevice Sim.engine 3 "pool" 5 "base" 1
                                          (Sim.boot Sim.pool_stuck))))
    = [("base", true)].
Proof.
  split; [|split; [run_sim|split; run_sim]].
  do 7 eexists.
  split; [run_sim|]. split; [discriminate|]. split; [run_sim|].
  split; [reflexivity|]. split; [sim_attempt|]. split; [discriminate|reflexivity].
Qed.

(** C2, amended.  The origin exists and has been suspended; after any number
    of collisions a create_snap run fails without "already exists" heard.
    Then [CreateSnapDevice] returns the run error, and the last thing it did
    was one [ResumeDevice] on the origin, started in the world the failed run
    left: no resume before it, exactly one in all.  The world the call
    leaves is the one that resume leaves, whatever the resume returned: the
    origin is active again exactly if the engine carried the resume out. *)
Theorem CreateSnapDevice_resumes_on_run_failure :
  forall E (N : Native E) fuel k poolName deviceId baseName baseDeviceId
         w info e0 w0 w1 w2 res cap w3,
    GetInfo N baseName w = (Some info, e0, w0) ->
    Exists info <> 0 ->
    SuspendDevice N baseName w0 = (nil_error, w1) ->
    collisions N poolName (snap_msg baseDeviceId) k deviceId w1 w2 ->
    attempt N poolName (snap_msg baseDeviceId (Nat.iter k incr deviceId)) w2 res cap w3 ->
    res <> 1 ->
    saw_exist cap = false ->
    (k < fuel)%nat ->
    CreateSnapDevice N fuel poolName deviceId baseName baseDeviceId w =
      (Returned (run_error snap_context), Nat.iter k incr deviceId,
       snd (ResumeDevice N baseName w3)) /\
    exists evs evs',
      grows w w3 evs /\ resumes evs = 0%nat /\
      grows w3 (snd (ResumeDevice N baseName w3)) evs' /\ resumes evs' = 1%nat.
Proof.
  intros E N fuel k poolName deviceId baseName baseDeviceId
         w info e0 w0 w1 w2 res cap w3 Hinfo Hex Hsus Hc Hat Hres Hcap Hlt.
  split.
  - rewrite (CreateSnapDevice_eq _ _ _ _ _ _ _ _ _ _ Hinfo).
    cbn [origin_exists]. destruct (Z.eqb_spec (Exists info) 0) as [Hz|Hz]; [contradiction|].
    cbn [negb]. rewrite Hsus. unfold nil_error.
    replace fuel with (k + S (fuel - S k))%nat by lia.
    rewrite (alloc_loop_collisions _ _ _ _ _ _ _ _ _ _ Hc).
    rewrite (alloc_loop_step _ _ _ _ _ _ _ _ _ _ _ Hat).
    destruct (Z.eqb_spec res 1) as [Hone|Hone]; [contradiction|]. rewrite Hcap.
    now rewrite rollback_true.
  - destruct (GetInfo_log N baseName w) as (evi & Hgi & Hri & _).
    rewrite Hinfo in Hgi. cbn [snd] in Hgi.
    destruct (SuspendDevice_log N baseName w0) as (evs0 & Hgs & Hrs & _).
    rewrite Hsus in Hgs. cbn [snd] in Hgs.
    destruct (collisions_log _ _ _ _ _ _ _ Hc) as (evc & Hgc & _ & Hrc & _).
    destruct (attempt_log _ _ _ _ _ _ _ Hat) as (eva & Hga & _ & Hra & _).
    destruct (ResumeDevice_log N baseName w3) as (evr & Hgr & Hrr & _).
    exists (((evi ++ evs0) ++ evc) ++ eva), evr.
    unfold resumes in *. rewrite !count_app, Hri, Hrs, Hrc, Hra.
    repeat split; eauto using grows_trans.
Qed.

(** The amended C2 on the simulated pool whose last two ids are taken: two collisions,
    then the engine refuses id 16777216; the origin "base" is active again
    afterwards. *)
Lemma CreateSnapDevice_resumes_on_run_failure_witness :
  exists w',
    CreateSnapDevice Sim.engine 5 "pool" 16777214 "base" 1 (Sim.boot Sim.pool_full)
      = (Returned (run_error snap_context), 16777216, w') /\
    resumes (trace w') = 1%nat /\
    Sim.devices (eng w') = [("base", false)].
Proof.
  eexists.
  edestruct (CreateSnapDevice_resumes_on_run_failure _ Sim.engine 5 2 "pool" 16777214
               "base" 1 (Sim.boot Sim.pool_full)) as (Hret & _);
    [ reflexivity | discriminate | reflexivity
    | sim_collision; sim_collision; apply collisions_O
    | sim_attempt | discriminate | reflexivity | lia | ].
  split; [exact Hret|]. split; reflexivity.
Defined.

(** C3.  Once the remove task is built and its cookie set, [RemoveDevice]
    clears [dmSawBusy], runs the task, and waits on the cookie whether the
    run succeeded or not: the log gains the run and then the wait, nothing
    else.  A failed run gives [ErrBusy] exactly when "busy" was heard during
    that run (a flag left raised earlier does not count), and the generic
    run error otherwise. *)
Theorem RemoveDevice_busy_and_wait :
  forall E (N : Native E) name w task e0 w1 cookie w2 res cap e3,
    TaskCreateNamed N DeviceRemove name w = (Some task, e0, w1) ->
    SetCookie N task (Some 0) 0 w1 = (nil_error, Some cookie, w2) ->
    DmTaskRun N (unmanaged task) (eng w2) = (res, cap, e3) ->
    let ran := after (snd (set_dmSawBusy false w2))
                     (CTaskRun (unmanaged task) res) cap e3 in
    RemoveDevice N name w =
      ((if res =? 1 then nil_error
        else if saw_busy cap then Some ErrBusy
             else Some (Errorf ("Error running RemoveDevice " +++ Error ErrTaskRun))),
       snd (UdevWait N cookie ran)) /\
    dmSawBusy ran = saw_busy cap /\
    exists r cap',
      grows w2 (snd (UdevWait N cookie ran))
            [mkEvent (CTaskRun (unmanaged task) res) cap;
             mkEvent (CUdevWait cookie r) cap'].
Proof.
  intros E N name w task e0 w1 cookie w2 res cap e3 H1 H2 H3 ran.
  split; [|split].
  - unfold RemoveDevice. rewrite (bind_eq _ _ _ _ _ H1); cbv beta iota.
    rewrite (bind_eq _ _ _ _ _ H2); unfold nil_error; cbv beta iota.
    apply defer_eq.
    rewrite (bind_eq _ _ w2 tt (snd (set_dmSawBusy false w2)) eq_refl).
    assert (Hrun : Run N task (snd (set_dmSawBusy false w2))
                   = ((if res =? 1 then nil_error else Some ErrTaskRun), ran))
      by (apply Run_eq; exact H3).
    rewrite (bind_eq _ _ _ _ _ Hrun).
    destruct (res =? 1); [reflexivity|].
    unfold get_dmSawBusy, bind.
    change (dmSawBusy ran) with (false || saw_busy cap). cbn [orb].
    now destruct (saw_busy cap).
  - reflexivity.
  - unfold UdevWait, bind, native.
    destruct (DmUdevWait N cookie (eng ran)) as [[r cap'] e4].
    exists r, cap'. subst ran.
    destruct (negb (r =? 1)); unfold grows, ret, set_dmSawBusy;
      cbn [snd trace after]; now rewrite <- app_assoc.
Qed.

(** C3 on the simulated engine: "held" is kept open, so its removal fails
    with "busy" heard, although the flag starts out lowered and the wait on
    the cookie still takes place. *)
Lemma RemoveDevice_busy_and_wait_witness :
  exists w',
    RemoveDevice Sim.engine "held" (Sim.boot Sim.pool567) = (Some ErrBusy, w') /\
    calls (trace w') =
      [CTaskCreate DeviceRemove (Some 0%nat); CTaskSetName 0%nat "held" 1;
       CTaskSetCookie 0%nat 0 0 (1, 218169344); CTaskRun 0%nat 0;
       CUdevWait 218169344 1].
Proof.
  eexists.
  edestruct (RemoveDevice_busy_and_wait _ Sim.engine "held" (Sim.boot Sim.pool567))
    as (Hret & _); [run_sim | run_sim | run_sim |].
  split; [exact Hret | reflexivity].
Defined.

(** C7.  The status task is built and run, and its info query succeeds with
    the existence flag at zero: [GetStatus] returns the "Non existing device"
    error with zero values, and the info query is the last call it makes to
    the engine; in particular it never asks for a target. *)
Theorem GetStatus_non_existing :
  forall E (N : Native E) name w task e0 w1 w2 info cap e3,
    TaskCreateNamed N DeviceStatus name w = (Some task, e0, w1) ->
    Run N task w1 = (nil_error, w2) ->
    DmTaskGetInfo N (unmanaged task) zeroInfo (eng w2) = ((1, info), cap, e3) ->
    Exists info = 0 ->
    GetStatus N name w =
      ((0, 0, "", "", Some (Errorf ("Non existing device " +++ name))),
       after w2 (CTaskGetInfo (unmanaged task) (1, info)) cap e3) /\
    exists evs, grows w (snd (GetStatus N name w)) evs /\
                count is_next_target evs = 0%nat.
Proof.
  intros E N name w task e0 w1 w2 info cap e3 H1 H2 H3 Hex.
  assert (Heq : GetStatus N name w =
                ((0, 0, "", "", Some (Errorf ("Non existing device " +++ name))),
                 after w2 (CTaskGetInfo (unmanaged task) (1, info)) cap e3)).
  { unfold GetStatus. rewrite (bind_eq _ _ _ _ _ H1); cbv beta iota.
    rewrite (bind_eq _ _ _ _ _ H2); unfold nil_error; cbv beta iota.
    unfold Task_GetInfo, native. unfold bind at 1 2. rewrite H3.
    cbn [fst snd negb Z.eqb Pos.eqb]. unfold ret at 1. cbv beta iota.
    rewrite Hex. reflexivity. }
  split; [exact Heq|].
  rewrite Heq. cbn [snd].
  invert_go H1. invert_go H2.
  tidy_log. eexists. split; [reflexivity|]. reflexivity.
Qed.

(** C7 on the simulated engine: no device is called "nope". *)
Lemma GetStatus_non_existing_witness :
  exists w',
    GetStatus Sim.engine "nope" (Sim.boot Sim.pool567)
      = ((0, 0, "", "", Some (Errorf "Non existing device nope")), w') /\
    count is_next_target (trace w') = 0%nat.
Proof.
  eexists.
  edestruct (GetStatus_non_existing _ Sim.engine "nope" (Sim.boot Sim.pool567))
    as (Hret & _); [reflexivity | reflexivity | reflexivity | reflexivity |].
  split; [exact Hret | reflexivity].
Defined.

(** C8.  [SetCookie] with a nil cookie pointer returns [ErrNilCookie] and
    leaves the world as it found it: the engine is not called, its state and
    the log are untouched. *)
Theorem SetCookie_nil :
  forall E (N : Native E) (t : Task) (flags : Z) (w : World E),
    SetCookie N t None flags w = ((Some ErrNilCookie, None), w).
Proof. reflexivity. Qed.

(** C6.  The info query answers and says that the origin does not exist.
    Then [CreateSnapDevice] is the loop of the source entered with
    [doSuspend = false] in the world the query left, and it allocates no
    suspend task and no resume task, that is, calls neither [SuspendDevice]
    nor [ResumeDevice].  If the engine lets the message task be built, the
    log of the call is that of the query, then, in this order and on one
    task, a [DeviceTargetMsg] task, named after the pool, sector 0, the
    message "create_snap <id> <base>" and the run of that task, then what
    the retries add; when the run succeeds there is nothing more, and the
    call returns nil with the slot at that id. *)
Theorem CreateSnapDevice_absent_origin :
  forall E (N : Native E) fuel poolName deviceId baseName baseDeviceId w info e0 w0,
    GetInfo N baseName w = (Some info, e0, w0) ->
    Exists info = 0 ->
    CreateSnapDevice N fuel poolName deviceId baseName baseDeviceId w =
      (let '(exit, deviceId', w') :=
         CreateSnapDevice_for N fuel poolName deviceId baseName baseDeviceId false w0 in
       (outcome_of exit, deviceId', w')) /\
    (exists evs,
        grows w (snd (CreateSnapDevice N fuel poolName deviceId baseName baseDeviceId w))
              evs /\
        suspends evs = 0%nat /\ resumes evs = 0%nat) /\
    (forall res cap w1,
        attempt N poolName (snap_msg baseDeviceId deviceId) w0 res cap w1 ->
        (0 < fuel)%nat ->
        exists evi eva rest t,
          grows w (snd (CreateSnapDevice N fuel poolName deviceId baseName
                                         baseDeviceId w))
                (evi ++ eva ++ rest) /\
          grows w w0 evi /\ messages evi = [] /\
          calls eva =
            [CTaskCreate DeviceTargetMsg (Some t); CTaskSetName t poolName 1;
             CTaskSetSector t 0 1;
             CTaskSetMessage t (snap_msg baseDeviceId deviceId) 1;
             CTaskRun t res] /\
          (res = 1 ->
           rest = [] /\
           CreateSnapDevice N fuel poolName deviceId baseName baseDeviceId w
             = (Returned nil_error, deviceId, w1))).
Proof.
  intros E N fuel poolName deviceId baseName baseDeviceId w info e0 w0 Hinfo Hex.
  assert (Hno : origin_exists (Some info) = false)
    by (cbn [origin_exists]; now rewrite Hex).
  destruct (CreateSnapDevice_no_suspend N fuel poolName deviceId baseName baseDeviceId
              w (Some info) e0 w0 Hinfo Hno) as (Heq & Hlog & _ & _).
  split; [exact Heq|]. split; [exact Hlog|].
  intros res cap w1 Hat Hfuel.
  destruct (GetInfo_log N baseName w) as (evi & Hgi & _ & _ & Hmi).
  rewrite Hinfo in Hgi; cbn [snd] in Hgi.
  destruct (attempt_calls _ _ _ _ _ _ _ Hat) as (eva & t & Hga & Hca).
  rewrite (CreateSnapDevice_eq _ _ _ _ _ _ _ _ _ _ Hinfo), Hno.
  destruct fuel as [|fuel]; [lia|].
  rewrite (alloc_loop_step _ _ _ _ _ _ _ _ _ _ _ Hat).
  assert (Hpre : grows w w1 (evi ++ eva)) by (eapply grows_trans; eassumption).
  destruct (Z.eqb_spec res 1) as [Hone|Hone].
  - exists evi, eva, [], t. cbn [snd outcome_of]. rewrite app_nil_r.
    repeat split; auto.
  - destruct (saw_exist cap).
    + destruct (alloc_loop_no_rollback N (snap_msg baseDeviceId) snap_context poolName
                  baseName fuel (incr deviceId) w1) as (evs & n & Hg & _).
      destruct (alloc_loop _ _ _ _ _ _ _ _) as [[exit id'] w']. cbn [snd] in *.
      exists evi, eva, evs, t.
      split; [rewrite app_assoc; eapply grows_trans; eassumption|].
      repeat split; auto; contradiction.
    + exists evi, eva, [], t. cbn [snd rollback ret]. rewrite app_nil_r.
      repeat split; auto; contradiction.
Qed.

(** C6 on the simulated engine: there is no device "ghost"; id 5 is taken,
    so the first run fails, and the snapshot lands on 8. *)
Lemma CreateSnapDevice_absent_origin_witness :
  (exists evs,
      grows (Sim.boot Sim.pool567)
            (snd (CreateSnapDevice Sim.engine 9 "pool" 5 "ghost" 5 (Sim.boot Sim.pool567)))
            evs /\
      suspends evs = 0%nat /\ resumes evs = 0%nat) /\
  (exists evi eva rest t,
      grows (Sim.boot Sim.pool567)
            (snd (CreateSnapDevice Sim.engine 9 "pool" 5 "ghost" 5
                                   (Sim.boot Sim.pool567)))
            (evi ++ eva ++ rest) /\
      messages evi = [] /\
      calls eva =
        [CTaskCreate DeviceTargetMsg (Some t); CTaskSetName t "pool" 1;
         CTaskSetSector t 0 1; CTaskSetMessage t "create_snap 5 5" 1;
         CTaskRun t 0]) /\
  fst (CreateSnapDevice Sim.engine 9 "pool" 5 "ghost" 5 (Sim.boot Sim.pool567))
    = (Returned nil_error, 8).
Proof.
  edestruct (CreateSnapDevice_absent_origin _ Sim.engine 9 "pool" 5 "ghost" 5
                                            (Sim.boot Sim.pool567))
    as (_ & Hlog & Hmsg); [reflexivity | reflexivity |].
  split; [exact Hlog|]. split; [|reflexivity].
  edestruct Hmsg as (evi & eva & rest & t & Hg & _ & Hmi & Hca & _);
    [sim_attempt | lia |].
  exists evi, eva, rest, t.
  split; [exact Hg|]. split; [exact Hmi | exact Hca].
Defined.

(** C9.  The info query on the origin fails.  [CreateSnapDevice] then does
    what its loop does with [doSuspend = false], started in the world the
    query left: the query's error plays no part in the result, an error that
    is returned is one of the message task's own, no suspend or resume task
    is allocated, and if the engine lets the message task be built,
    "create_snap <id> <base>" is the first message it receives. *)
Theorem CreateSnapDevice_info_failure :
  forall E (N : Native E) fuel poolName deviceId baseName baseDeviceId w e0 w0,
    GetInfo N baseName w = (None, Some e0, w0) ->
    CreateSnapDevice N fuel poolName deviceId baseName baseDeviceId w =
      (let '(exit, deviceId', w') :=
         CreateSnapDevice_for N fuel poolName deviceId baseName baseDeviceId false w0 in
       (outcome_of exit, deviceId', w')) /\
    (exists evs,
        grows w (snd (CreateSnapDevice N fuel poolName deviceId baseName baseDeviceId w))
              evs /\
        suspends evs = 0%nat /\ resumes evs = 0%nat) /\
    (forall err,
        fst (fst (CreateSnapDevice N fuel poolName deviceId baseName baseDeviceId w))
          = Returned (Some err) ->
        In (Some err) (run_error snap_context :: message_error :: setup_errors poolName)) /\
    (forall res cap w1,
        attempt N poolName (snap_msg baseDeviceId deviceId) w0 res cap w1 ->
        (0 < fuel)%nat ->
        exists evs rest,
          grows w (snd (CreateSnapDevice N fuel poolName deviceId baseName baseDeviceId w))
                evs /\
          messages evs = snap_msg baseDeviceId deviceId :: rest).
Proof.
  intros E N fuel poolName deviceId baseName baseDeviceId w e0 w0 Hinfo.
  exact (CreateSnapDevice_no_suspend N fuel poolName deviceId baseName baseDeviceId
           w None (Some e0) w0 Hinfo eq_refl).
Qed.

(** C9 on a simulated engine that cannot allocate info tasks: the snapshot
    of "base" is nevertheless created, on id 8, with "base" never suspended. *)
Lemma CreateSnapDevice_info_failure_witness :
  fst (CreateSnapDevice Sim.engine 9 "pool" 5 "base" 5 (Sim.boot Sim.pool_no_info))
    = (Returned nil_error, 8) /\
  (exists evs,
      grows (Sim.boot Sim.pool_no_info)
            (snd (CreateSnapDevice Sim.engine 9 "pool" 5 "base" 5
                                   (Sim.boot Sim.pool_no_info))) evs /\
      suspends evs = 0%nat /\ resumes evs = 0%nat) /\
  (exists evs rest,
      grows (Sim.boot Sim.pool_no_info)
            (snd (CreateSnapDevice Sim.engine 9 "pool" 5 "base" 5
                                   (Sim.boot Sim.pool_no_info))) evs /\
      messages evs = "create_snap 5 5" :: rest).
Proof.
  edestruct (CreateSnapDevice_info_failure _ Sim.engine 9 "pool" 5 "base" 5
                                           (Sim.boot Sim.pool_no_info))
    as (Heq & Hlog & _ & Hmsg); [reflexivity |].
  split; [rewrite Heq; reflexivity|]. split; [exact Hlog|].
  eapply Hmsg; [sim_attempt | lia].
Defined.

(** C4, as stated, fails.  On the simulated engine that can run neither
    messages nor resumes, the origin "base" is suspended, the create_snap run
    fails, and the resume made on the way out fails too: the caller gets the
    run error only, nothing of the resume error, and "base" stays suspended. *)
Lemma CreateSnapDevice_drops_rollback_error :
  fst (CreateSnapDevice Sim.engine 3 "pool" 5 "base" 1 (Sim.boot Sim.pool_stuck))
    = (Returned (Some (Errorf
         "Error running DeviceCreate (createSnapDevice) dm_task_run failed")), 5) /\
  (exists w2,
      resumes (trace w2) = 0%nat /\
      ResumeDevice Sim.engine "base" w2 =
        (Some (Errorf "Error running DeviceResume dm_task_run failed"),
         snd (CreateSnapDevice Sim.engine 3 "pool" 5 "base" 1
                               (Sim.boot Sim.pool_stuck)))) /\
  Sim.devices (eng (snd (CreateSnapDevice Sim.engine 3 "pool" 5 "base" 1
                                          (Sim.boot Sim.pool_stuck))))
    = [("base", true)].
Proof.
  split; [run_sim|]. split; [|run_sim].
  exists (snd (alloc_loop Sim.engine (snap_msg 1) snap_context (ret tt) "pool" 3 5
                (snd (SuspendDevice Sim.engine "base"
                        (snd (GetInfo Sim.engine "base" (Sim.boot Sim.pool_stuck))))))).
  split; run_sim.
Qed.

(** C4, amended.  After the origin has been suspended, every return of
    [CreateSnapDevice] is preceded by exactly one [ResumeDevice] on the
    origin, made as the last step.  What that resume returns reaches the
    caller only when the create_snap run succeeded; when the call leaves
    because the message task could not be set up or its run failed, the
    caller gets that set-up or run error, whatever the resume returned. *)
Theorem CreateSnapDevice_resume_on_every_return :
  forall E (N : Native E) fuel poolName deviceId baseName baseDeviceId
         w info e0 w0 w1 err deviceId' w',
    GetInfo N baseName w = (Some info, e0, w0) ->
    Exists info <> 0 ->
    SuspendDevice N baseName w0 = (nil_error, w1) ->
    CreateSnapDevice N fuel poolName deviceId baseName baseDeviceId w
      = (Returned err, deviceId', w') ->
    exists w2 evs evs' rr,
      grows w w2 evs /\ resumes evs = 0%nat /\
      ResumeDevice N baseName w2 = (rr, w') /\
      grows w2 w' evs' /\ resumes evs' = 1%nat /\
      ((err = rr /\ exists evs0 t cap, evs = evs0 ++ [mkEvent (CTaskRun t 1) cap]) \/
       In err (run_error snap_context :: message_error :: setup_errors poolName)).
Proof.
  intros E N fuel poolName deviceId baseName baseDeviceId
         w info e0 w0 w1 err deviceId' w' Hinfo Hex Hsus Hret.
  rewrite (CreateSnapDevice_eq _ _ _ _ _ _ _ _ _ _ Hinfo) in Hret.
  cbn [origin_exists] in Hret.
  destruct (Z.eqb_spec (Exists info) 0) as [Hz|Hz]; [contradiction|].
  cbn [negb] in Hret. rewrite Hsus in Hret. unfold nil_error in Hret.
  destruct (GetInfo_log N baseName w) as (evi & Hgi & Hri & _).
  rewrite Hinfo in Hgi; cbn [snd] in Hgi.
  destruct (SuspendDevice_log N baseName w0) as (evu & Hgu & Hru & _).
  rewrite Hsus in Hgu; cbn [snd] in Hgu.
  destruct (alloc_loop_report N (snap_msg baseDeviceId) snap_context
              (rollback N true baseName) poolName fuel deviceId w1)
    as (w2 & evs & n & Hg & Hr & _ & _ & _ & Hexit).
  destruct (ResumeDevice_log N baseName w2) as (evr & Hgr & Hrr & _).
  assert (Hpre : grows w w2 ((evi ++ evu) ++ evs)) by eauto using grows_trans.
  assert (Hnone : resumes ((evi ++ evu) ++ evs) = 0%nat).
  { unfold resumes in *. now rewrite !count_app, Hri, Hru, Hr. }
  destruct (alloc_loop _ _ _ _ _ _ _ _) as [[[|err1|] id1] wl];
    cbn [fst snd outcome_of] in *.
  - discriminate Hret.
  - injection Hret as <- <- <-. destruct Hexit as (Hw & Herr).
    rewrite rollback_true in Hw.
    exists w2, ((evi ++ evu) ++ evs), evr, (fst (ResumeDevice N baseName w2)).
    rewrite Hw. repeat split; auto.
    + now destruct (ResumeDevice N baseName w2).
    + right. destruct Herr as [(_ & [->| ->])|(_ & Hin)]; cbn [In]; auto.
  - destruct Hexit as (-> & _ & evs0 & t & cap & ->).
    destruct (ResumeDevice N baseName w2) as [rr w3] eqn:Hres.
    injection Hret as <- <- <-. cbn [snd] in Hgr.
    exists w2, ((evi ++ evu) ++ evs0 ++ [mkEvent (CTaskRun t 1) cap]), evr, rr.
    repeat split; auto. left. split; [reflexivity|].
    exists ((evi ++ evu) ++ evs0), t, cap. apply app_assoc.
Qed.

(** The amended C4 on the engine of the counterexample: the one resume is
    made, fails, and the run error is what is returned. *)
Lemma CreateSnapDevice_resume_on_every_return_witness :
  exists w2 evs evs' rr,
    grows (Sim.boot Sim.pool_stuck) w2 evs /\ resumes evs = 0%nat /\
    ResumeDevice Sim.engine "base" w2
      = (rr, snd (CreateSnapDevice Sim.engine 3 "pool" 5 "base" 1
                                   (Sim.boot Sim.pool_stuck))) /\
    grows w2 (snd (CreateSnapDevice Sim.engine 3 "pool" 5 "base" 1
                                    (Sim.boot Sim.pool_stuck))) evs' /\
    resumes evs' = 1%nat /\
    ((run_error snap_context = rr /\
      exists evs0 t cap, evs = evs0 ++ [mkEvent (CTaskRun t 1) cap]) \/
     In (run_error snap_context)
        (run_error snap_context :: message_error :: setup_errors "pool")).
Proof.
  eapply (CreateSnapDevice_resume_on_every_return _ Sim.engine 3 "pool" 5 "base" 1
            (Sim.boot Sim.pool_stuck));
    [run_sim | discriminate | run_sim | run_sim].
Defined.

(** C5, as stated, fails.  On the simulated engine a suspend task for "base"
    is run twice, both runs succeed and both reach the engine; after that
    [SetName] on the same task is accepted and takes effect: a third run
    suspends "held", the device the task was renamed to. *)
Lemma Task_is_run_again_and_reconfigured :
  exists t w1 w2 w3 w4 w5,
    TaskCreateNamed Sim.engine DeviceSuspend "base" (Sim.boot Sim.pool567)
      = (Some t, nil_error, w1) /\
    Run Sim.engine t w1 = (nil_error, w2) /\
    Run Sim.engine t w2 = (nil_error, w3) /\
    SetName Sim.engine t "held" w3 = (nil_error, w4) /\
    Run Sim.engine t w4 = (nil_error, w5) /\
    calls (trace w5) =
      [CTaskCreate DeviceSuspend (Some 0%nat); CTaskSetName 0%nat "base" 1;
       CTaskRun 0%nat 1; CTaskRun 0%nat 1; CTaskSetName 0%nat "held" 1;
       CTaskRun 0%nat 1] /\
    Sim.devices (eng w5) = [("base", true); ("held", true)].
Proof.
  do 6 eexists.
  repeat (split; [run_sim|]). run_sim.
Qed.

(** C5, amended.  [RemoveDevice], [GetInfo], [GetStatus], [SuspendDevice],
    [ResumeDevice], [CreateDevice] and [CreateSnapDevice] run every task
    they allocate at most once.  That is how they are written, not something
    a [Task] enforces: it keeps no record of having been run.  In the world
    any [Run] of a task leaves behind, a further [Run] and every
    configuration call go to the engine just the same: one engine call is
    logged, and the method returns its dedicated error exactly when the
    engine's result is not 1.  The only calls turned down without reaching
    the engine are [SetCookie] with a nil cookie and [SetAddNode] with an
    unknown policy, which leave the world as it is. *)
Theorem Task_keeps_no_run_state :
  forall E (N : Native E),
    (forall fuel poolName deviceId baseName baseDeviceId name,
        runs_each_task_once (RemoveDevice N name) /\
        runs_each_task_once (GetInfo N name) /\
        runs_each_task_once (GetStatus N name) /\
        runs_each_task_once (SuspendDevice N name) /\
        runs_each_task_once (ResumeDevice N name) /\
        runs_each_task_once (CreateDevice N fuel poolName deviceId) /\
        runs_each_task_once
          (CreateSnapDevice N fuel poolName deviceId baseName baseDeviceId)) /\
    (forall (t : Task) (w0 : World E),
        let w := snd (Run N t w0) in
        let h := unmanaged t in
        (forall res cap e,
            DmTaskRun N h (eng w) = (res, cap, e) ->
            Run N t w = ((if res =? 1 then nil_error else Some ErrTaskRun),
                         after w (CTaskRun h res) cap e)) /\
        (forall name res cap e,
            DmTaskSetName N h name (eng w) = (res, cap, e) ->
            SetName N t name w = ((if res =? 1 then nil_error else Some ErrTaskSetName),
                                  after w (CTaskSetName h name res) cap e)) /\
        (forall message res cap e,
            DmTaskSetMessage N h message (eng w) = (res, cap, e) ->
            SetMessage N t message w
              = ((if res =? 1 then nil_error else Some ErrTaskSetMessage),
                 after w (CTaskSetMessage h message res) cap e)) /\
        (forall sector res cap e,
            DmTaskSetSector N h sector (eng w) = (res, cap, e) ->
            SetSector N t sector w
              = ((if res =? 1 then nil_error else Some ErrTaskSetSector),
                 after w (CTaskSetSector h sector res) cap e)) /\
        (forall res cap e,
            DmTaskSetRo N h (eng w) = (res, cap, e) ->
            SetRo N t w = ((if res =? 1 then nil_error else Some ErrTaskSetRo),
                           after w (CTaskSetRo h res) cap e)) /\
        (forall start size ttype params res cap e,
            DmTaskAddTarget N h start size ttype params (eng w) = (res, cap, e) ->
            AddTarget N t start size ttype params w
              = ((if res =? 1 then nil_error else Some ErrTaskAddTarget),
                 after w (CTaskAddTarget h start size ttype params res) cap e)) /\
        (forall cookie flags res cookie' cap e,
            DmTaskSetCookie N h cookie flags (eng w) = ((res, cookie'), cap, e) ->
            SetCookie N t (Some cookie) flags w
              = (((if res =? 1 then nil_error else Some ErrTaskSetCookie), Some cookie'),
                 after w (CTaskSetCookie h cookie flags (res, cookie')) cap e)) /\
        (forall flags, SetCookie N t None flags w = ((Some ErrNilCookie, None), w)) /\
        (forall addNode res cap e,
            DmTaskSetAddNode N h addNode (eng w) = (res, cap, e) ->
            SetAddNode N t addNode w
              = if (addNode =? AddNodeOnResume) || (addNode =? AddNodeOnCreate)
                then ((if res =? 1 then nil_error else Some ErrTaskSetAddNode),
                      after w (CTaskSetAddNode h addNode res) cap e)
                else (Some ErrInvalidAddNode, w))).
Proof.
  intros E N. split.
  { intros fuel poolName deviceId baseName baseDeviceId name.
    repeat split; intros w.
    - apply RemoveDevice_disciplined.
    - apply GetInfo_disciplined.
    - apply GetStatus_disciplined.
    - apply SuspendDevice_disciplined.
    - apply ResumeDevice_disciplined.
    - apply CreateDevice_disciplined.
    - apply CreateSnapDevice_disciplined. }
  intros t w0 w h. subst h. clearbody w.
  repeat split.
  - intros res cap e H. now apply Run_eq.
  - intros name res cap e H. unfold SetName, bind, native. rewrite H.
    now destruct (res =? 1).
  - intros message res cap e H. unfold SetMessage, bind, native. rewrite H.
    now destruct (res =? 1).
  - intros sector res cap e H. unfold SetSector, bind, native. rewrite H.
    now destruct (res =? 1).
  - intros res cap e H. unfold SetRo, bind, native. rewrite H.
    now destruct (res =? 1).
  - intros start size ttype params res cap e H.
    unfold AddTarget, bind, native. rewrite H. now destruct (res =? 1).
  - intros cookie flags res cookie' cap e H.
    unfold SetCookie, bind, native. rewrite H. cbn [fst snd].
    now destruct (res =? 1).
  - intros addNode res cap e H. unfold SetAddNode.
    destruct (addNode =? AddNodeOnResume), (addNode =? AddNodeOnCreate);
      cbn [negb andb orb]; try reflexivity;
      unfold bind, native; rewrite H; now destruct (res =? 1).
Qed.

(** The amended C5 on the simulated engine, for the task of the
    counterexample after its first run. *)
Lemma Task_keeps_no_run_state_witness :
  Run Sim.engine (mkTask 0%nat)
      (snd (Run Sim.engine (mkTask 0%nat)
              (snd (TaskCreateNamed Sim.engine DeviceSuspend "base"
                                    (Sim.boot Sim.pool567)))))
  = (nil_error,
     after (snd (Run Sim.engine (mkTask 0%nat)
                   (snd (TaskCreateNamed Sim.engine DeviceSuspend "base"
                                         (Sim.boot Sim.pool567)))))
           (CTaskRun 0%nat 1) quiet
           (Sim.set_suspended "base" true
              (eng (snd (TaskCreateNamed Sim.engine DeviceSuspend "base"
                                         (Sim.boot Sim.pool567)))))).
Proof.
  exact (proj1 (proj2 (Task_keeps_no_run_state _ Sim.engine) (mkTask 0%nat)
                  (snd (TaskCreateNamed Sim.engine DeviceSuspend "base"
                                        (Sim.boot Sim.pool567))))
               1 quiet _ eq_refl).
Defined.

(** C10, as stated, fails.  On the simulated pool that accepts every id and
    has the largest [int] taken, [CreateDevice] started at that id meets one
    collision, and the increment wraps around: the call returns with the
    slot at the smallest [int], below where it started. *)
Lemma CreateDevice_slot_wraps_around :
  fst (CreateDevice Sim.engine 3 "pool" 9223372036854775807 (Sim.boot Sim.pool_last))
    = (Returned (run_error thin_context), -9223372036854775808) /\
  count is_exists_failure
        (trace (snd (CreateDevice Sim.engine 3 "pool" 9223372036854775807
                                  (Sim.boot Sim.pool_last)))) = 1%nat /\
  -9223372036854775808 < 9223372036854775807.
Proof. split; [vm_compute; reflexivity|]. split; [vm_compute; reflexivity | lia]. Qed.

(** C10, amended.  In both loops the slot is moved by the increment that
    follows a failed run with "already exists" heard, once per such run, and
    by nothing else; so it ends [k] ids after its start, [k] being the number
    of those runs, which is [start + k] as long as that does not overflow
    [int] (and then the slot never decreases).  After a success or a run
    failure the last message sent is the one for the slot; after a set-up
    failure the slot is the id the failed iteration was for, and its message
    has been sent only if handing over the message was the step that failed.
    [CreateSnapDevice] returns the slot as its loop left it, or untouched if
    suspending the origin failed. *)
Theorem slot_follows_collisions :
  forall E (N : Native E) fuel poolName deviceId,
    (forall w,
        CreateDevice N fuel poolName deviceId w =
          (let '(exit, deviceId', w') := CreateDevice_for N fuel poolName deviceId w in
           (outcome_of exit, deviceId', w')) /\
        exists evs,
          grows w (snd (CreateDevice_for N fuel poolName deviceId w)) evs /\
          slot_report thin_msg thin_context poolName deviceId
            (fst (fst (CreateDevice_for N fuel poolName deviceId w)))
            (snd (fst (CreateDevice_for N fuel poolName deviceId w))) evs) /\
    (forall baseName baseDeviceId doSuspend w,
        exists w2 evs,
          grows w w2 evs /\
          snd (CreateSnapDevice_for N fuel poolName deviceId baseName baseDeviceId
                                    doSuspend w)
            = match fst (fst (CreateSnapDevice_for N fuel poolName deviceId baseName
                                                   baseDeviceId doSuspend w)) with
              | Return _ => snd (rollback N doSuspend baseName w2)
              | _ => w2
              end /\
          slot_report (snap_msg baseDeviceId) snap_context poolName deviceId
            (fst (fst (CreateSnapDevice_for N fuel poolName deviceId baseName
                                            baseDeviceId doSuspend w)))
            (snd (fst (CreateSnapDevice_for N fuel poolName deviceId baseName
                                            baseDeviceId doSuspend w))) evs) /\
    (forall baseName baseDeviceId w,
        let '(devinfo, _, w0) := GetInfo N baseName w in
        let doSuspend := origin_exists devinfo in
        let '(err, w1) :=
          if doSuspend then SuspendDevice N baseName w0 else (nil_error, w0) in
        match err with
        | Some _ =>
            CreateSnapDevice N fuel poolName deviceId baseName baseDeviceId w
              = (Returned err, deviceId, w1)
        | None =>
            snd (fst (CreateSnapDevice N fuel poolName deviceId baseName
                                       baseDeviceId w))
              = snd (fst (CreateSnapDevice_for N fuel poolName deviceId baseName
                                               baseDeviceId doSuspend w1))
        end).
Proof.
  intros E N fuel poolName deviceId. split; [|split].
  - intros w. split.
    + rewrite CreateDevice_eq, CreateDevice_for_alloc. reflexivity.
    + rewrite CreateDevice_for_alloc.
      destruct (alloc_loop_slot N thin_msg thin_context (ret tt) poolName fuel deviceId w)
        as (w2 & evs & Hg & Hw & Hslot).
      exists evs. split; [|exact Hslot]. rewrite Hw.
      now destruct (fst (fst (alloc_loop _ _ _ _ _ _ _ _))).
  - intros baseName baseDeviceId doSuspend w.
    rewrite CreateSnapDevice_for_alloc.
    apply alloc_loop_slot.
  - intros baseName baseDeviceId w.
    destruct (GetInfo N baseName w) as [[devinfo e0] w0] eqn:Hinfo.
    rewrite (CreateSnapDevice_eq _ _ _ _ _ _ _ _ _ _ Hinfo). cbv zeta.
    destruct (origin_exists devinfo).
    + destruct (SuspendDevice N baseName w0) as [[err|] w1]; [reflexivity|].
      rewrite CreateSnapDevice_for_alloc.
      destruct (alloc_loop _ _ _ _ _ _ _ _) as [[[| |] id'] w2]; try reflexivity.
      now destruct (ResumeDevice N baseName w2).
    + unfold nil_error. rewrite CreateSnapDevice_for_alloc.
      now destruct (alloc_loop _ _ _ _ _ _ _ _) as [[[| |] id'] w2].
Qed.

(** The amended C10 on the simulated pool in which 5, 6 and 7 are taken:
    three collisions, no overflow, the slot ends at 5 + 3. *)
Lemma slot_follows_collisions_witness :
  exists evs,
    grows (Sim.boot Sim.pool567)
          (snd (CreateDevice_for Sim.engine 9 "pool" 5 (Sim.boot Sim.pool567))) evs /\
    count is_exists_failure evs = 3%nat /\
    snd (fst (CreateDevice_for Sim.engine 9 "pool" 5 (Sim.boot Sim.pool567))) = 5 + 3.
Proof.
  destruct (proj1 (slot_follows_collisions _ Sim.engine 9%nat "pool" 5)
                  (Sim.boot Sim.pool567))
    as (_ & evs & Hg & _ & Hsmall & _).
  exists evs.
  assert (Hevs : evs = trace (snd (CreateDevice_for Sim.engine 9 "pool" 5
                                                    (Sim.boot Sim.pool567))))
    by (symmetry; exact Hg).
  assert (Hk : count is_exists_failure evs = 3%nat) by (rewrite Hevs; reflexivity).
  split; [exact Hg|]. split; [exact Hk|].
  rewrite Hk in Hsmall. apply Hsmall; [discriminate | discriminate].
Defined.

(** * Further properties of the package *)

Ltac go_unfold_all :=
  unfold SetTransactionId, DeleteDevice, ActivateDevice, CreatePool, ReloadPool,
    GetBlockDeviceSize;
  go_unfold.

(** Turn what is known about an engine result into the value of the test
    the code made on it. *)
Ltac settle_tests :=
  repeat match goal with
         | H : negb (?z =? 1) = _ |- _ =>
             destruct (z =? 1) eqn:?; cbn in H; try discriminate H; clear H
         end.

Ltac success_by_cases :=
  intros w; go_unfold_all; engine_cases; settle_tests; tidy_log;
  eexists; (split; [reflexivity|]); unfold count; cbn;
  repeat match goal with H : (?z =? 1) = _ |- _ => rewrite ?H; clear H end; cbn;
  (split; [lia|]); split; intros; try reflexivity; try discriminate.

(** X1.  Each operation that drives a single task reports success exactly
    when the engine ran that task and the run returned 1.  What the wait on
    the udev cookie returns plays no part: the functions that wait do so in
    a [defer] whose result is dropped. *)
Theorem success_means_the_task_ran :
  forall E (N : Native E) (ioctl : Z -> Z + Z) (f1 f2 f3 : Z)
         name poolName deviceId size oldId newId dataFile metadataFile poolBlockSize,
    succeeds_exactly_when_run (RemoveDevice N name) /\
    succeeds_exactly_when_run (SuspendDevice N name) /\
    succeeds_exactly_when_run (ResumeDevice N name) /\
    succeeds_exactly_when_run (DeleteDevice N poolName deviceId) /\
    succeeds_exactly_when_run (SetTransactionId N poolName oldId newId) /\
    succeeds_exactly_when_run (ActivateDevice N poolName name deviceId size) /\
    succeeds_exactly_when_run
      (CreatePool N ioctl f1 f2 f3 poolName dataFile metadataFile poolBlockSize) /\
    succeeds_exactly_when_run
      (ReloadPool N ioctl poolName dataFile metadataFile poolBlockSize).
Proof.
  intros. repeat split.
  - success_by_cases.
  - success_by_cases.
  - success_by_cases.
  - success_by_cases.
  - success_by_cases.
  - success_by_cases.
  - success_by_cases.
  - success_by_cases.
Qed.

(** ** Cookies *)

Lemma settled_app evs1 :
  forall pending evs2,
    settled pending evs1 = true ->
    settled None evs2 = true ->
    settled pending (evs1 ++ evs2) = true.
Proof.
  induction evs1 as [|ev evs1 IH]; intros pending evs2 H1 H2.
  - destruct pending; [discriminate H1 | exact H2].
  - cbn in *. destruct (call ev); auto.
    + destruct res as [res stored]. destruct (res =? 1); auto.
      destruct pending; [discriminate H1 | auto].
    + destruct pending as [cookie'|]; [|discriminate H1].
      apply andb_true_iff in H1 as [Hc Hrest]. rewrite Hc. cbn. auto.
Qed.

Lemma settled_message_task_calls evs :
  Forall (fun ev => is_message_task_call ev = true) evs ->
  settled None evs = true.
Proof.
  induction 1 as [|ev evs Hev _ IH]; [reflexivity|].
  cbn. unfold is_message_task_call in Hev.
  destruct (call ev); try discriminate Hev; exact IH.
Qed.

Section OwnCalls.

Context {E : Type} (N : Native E).
Variables (msg : Z -> string) (context : string) (undo : M E unit).
Variable poolName : string.

Local Abbreviation loop := (alloc_loop N msg context undo poolName).
Local Abbreviation own := (Forall (fun ev => is_message_task_call ev = true)).

Ltac own_list := repeat (apply Forall_cons; [reflexivity|]); apply Forall_nil.

Ltac own_calls := tidy_log; eexists; (split; [reflexivity|]); own_list.


Lemma attempt_own message w res cap w' :
  attempt N poolName message w res cap w' ->
  exists evs, grows w w' evs /\ own evs.
Proof.
  intros (task & w1 & w2 & w3 & e4 & H1 & H2 & H3 & H4 & ->).
  invert_go H1. invert_go H2. invert_go H3. own_calls.
Qed.

(** One iteration, read for the calls it makes: either its message reaches
    the engine, or the loop is left with a set-up error, whatever the bound. *)
Lemma iteration_own deviceId w :
  (exists res cap w', attempt N poolName (msg deviceId) w res cap w') \/
  (exists err w2 evs,
      (forall fuel, loop (S fuel) deviceId w = (Return err, deviceId, snd (undo w2))) /\
      grows w w2 evs /\ own evs).
Proof.
  unfold attempt.
  destruct (TaskCreateNamed N DeviceTargetMsg poolName w) as [[[task|] err] w1] eqn:H1.
  2: { right. exists err, w1.
       assert (Hl : forall fuel,
                  loop (S fuel) deviceId w = (Return err, deviceId, snd (undo w1)))
         by (intros; cbn [alloc_loop]; rewrite (bind_eq _ _ _ _ _ H1);
             apply undo_then_ret).
       invert_go H1; eexists; (split; [exact Hl|]); tidy_log;
         (split; [reflexivity | own_list]). }
  assert (err = None) as -> by (clear - H1; invert_go H1; reflexivity).
  destruct (SetSector N task 0 w1) as [[err1|] w2] eqn:H2.
  { right. exists (Some (Errorf ("Can't set sector " +++ Error err1))), w2.
    assert (Hl : forall fuel,
               loop (S fuel) deviceId w
               = (Return (Some (Errorf ("Can't set sector " +++ Error err1))),
                  deviceId, snd (undo w2)))
      by (intros; cbn [alloc_loop]; rewrite (bind_eq _ _ _ _ _ H1); cbv beta iota;
          rewrite (bind_eq _ _ _ _ _ H2); apply undo_then_ret).
    invert_go H1; invert_go H2; eexists; (split; [exact Hl|]); tidy_log;
      (split; [reflexivity | own_list]). }
  destruct (SetMessage N task (msg deviceId) w2) as [[err2|] w3] eqn:H3.
  { right. exists (Some (Errorf ("Can't set message " +++ Error err2))), w3.
    assert (Hl : forall fuel,
               loop (S fuel) deviceId w
               = (Return (Some (Errorf ("Can't set message " +++ Error err2))),
                  deviceId, snd (undo w3)))
      by (intros; cbn [alloc_loop]; rewrite (bind_eq _ _ _ _ _ H1); cbv beta iota;
          rewrite (bind_eq _ _ _ _ _ H2); cbv beta iota;
          rewrite (bind_eq _ _ _ _ _ H3); apply undo_then_ret).
    invert_go H1; invert_go H2; invert_go H3; eexists; (split; [exact Hl|]);
      tidy_log; (split; [reflexivity | own_list]). }
  left. destruct (DmTaskRun N (unmanaged task) (eng w3)) as [[res cap] e4] eqn:H4.
  exists res, cap. eexists. exists task, w1, w2, w3, e4. repeat split; eauto.
Qed.

(** Up to the point where it is left, the loop calls the engine for its
    message tasks only. *)
Lemma alloc_loop_own fuel :
  forall deviceId w,
  exists w2 evs,
    grows w w2 evs /\ own evs /\
    snd (loop fuel deviceId w)
      = match fst (fst (loop fuel deviceId w)) with
        | Return _ => snd (undo w2)
        | _ => w2
        end.
Proof.
  induction fuel as [|fuel IH]; intros deviceId w.
  - exists w, []. repeat split; [apply grows_refl | apply Forall_nil].
  - destruct (iteration_own deviceId w)
      as [(res & cap & w' & Hat) | (err & w2 & evs & Hl & Hg & Hown)].
    + rewrite (alloc_loop_step _ _ _ _ _ _ _ _ _ _ _ Hat).
      destruct (attempt_own _ _ _ _ _ Hat) as (eva & Hga & Howna).
      destruct (res =? 1); [|destruct (saw_exist cap)].
      * exists w', eva. auto.
      * destruct (IH (incr deviceId) w') as (w2 & evs & Hg & Hown & Hw).
        exists w2, (eva ++ evs). repeat split; auto.
        -- eapply grows_trans; eassumption.
        -- apply Forall_app; auto.
      * exists w', eva. auto.
    + rewrite Hl. exists w2, evs. auto.
Qed.

End OwnCalls.

Section Cookies.

Context {E : Type} (N : Native E).

Ltac settled_by_cases :=
  intros w; go_unfold_all; engine_cases;
  repeat match goal with p : (Z * Z)%type |- _ => destruct p end;
  cbn [fst snd] in *; settle_tests; tidy_log;
  eexists; (split; [reflexivity|]); cbn;
  repeat match goal with H : (?z =? 1) = _ |- _ => rewrite ?H; clear H end;
  rewrite ?Z.eqb_refl; reflexivity.

Lemma RemoveDevice_settled name : settles_its_cookies (RemoveDevice N name).
Proof. settled_by_cases. Qed.

Lemma ResumeDevice_settled name : settles_its_cookies (ResumeDevice N name).
Proof. settled_by_cases. Qed.

Lemma SuspendDevice_settled name : settles_its_cookies (SuspendDevice N name).
Proof. settled_by_cases. Qed.

Lemma GetInfo_settled name : settles_its_cookies (GetInfo N name).
Proof. settled_by_cases. Qed.

Lemma ActivateDevice_settled poolName name deviceId size :
  settles_its_cookies (ActivateDevice N poolName name deviceId size).
Proof. settled_by_cases. Qed.

Lemma CreatePool_settled ioctl f1 f2 f3 poolName dataFile metadataFile poolBlockSize :
  settles_its_cookies
    (CreatePool N ioctl f1 f2 f3 poolName dataFile metadataFile poolBlockSize).
Proof. settled_by_cases. Qed.

Lemma rollback_settled doSuspend baseName :
  settles_its_cookies (rollback N doSuspend baseName).
Proof.
  intros w. destruct doSuspend.
  - destruct (ResumeDevice_settled baseName w) as (evs & Hg & Hs).
    exists evs. unfold rollback, bind, ret.
    now destruct (ResumeDevice N baseName w).
  - exists []. split; [apply grows_refl | reflexivity].
Qed.

Lemma alloc_loop_settled msg context undo poolName fuel deviceId :
  settles_its_cookies undo ->
  settles_its_cookies (alloc_loop N msg context undo poolName fuel deviceId).
Proof.
  intros Hundo w.
  destruct (alloc_loop_own N msg context undo poolName fuel deviceId w)
    as (w2 & evs & Hg & Hown & Hw).
  apply settled_message_task_calls in Hown.
  rewrite Hw. destruct (fst (fst (alloc_loop _ _ _ _ _ _ _ _))); eauto.
  destruct (Hundo w2) as (evu & Hgu & Hsu).
  exists (evs ++ evu). split; [eapply grows_trans; eassumption|].
  now apply settled_app.
Qed.

Lemma CreateSnapDevice_settled fuel poolName deviceId baseName baseDeviceId :
  settles_its_cookies (CreateSnapDevice N fuel poolName deviceId baseName baseDeviceId).
Proof.
  intros w.
  destruct (GetInfo N baseName w) as [[devinfo e0] w0] eqn:Hinfo.
  rewrite (CreateSnapDevice_eq _ _ _ _ _ _ _ _ _ _ Hinfo).
  destruct (GetInfo_settled baseName w) as (evi & Hgi & Hsi).
  rewrite Hinfo in Hgi; cbn [snd] in Hgi.
  destruct (origin_exists devinfo).
  - destruct (SuspendDevice_settled baseName w0) as (evu & Hgu & Hsu).
    destruct (SuspendDevice N baseName w0) as [[err|] w1]; cbn [snd] in *.
    + exists (evi ++ evu). split; [eapply grows_trans; eassumption|].
      now apply settled_app.
    + destruct (alloc_loop_settled (snap_msg baseDeviceId) snap_context
                  (rollback N true baseName) poolName fuel deviceId
                  (rollback_settled true baseName) w1) as (evl & Hgl & Hsl).
      destruct (alloc_loop _ _ _ _ _ _ _ _) as [[exit id'] w2]; cbn [snd] in *.
      assert (Hpre : grows w w2 ((evi ++ evu) ++ evl))
        by (eapply grows_trans; [eapply grows_trans|]; eassumption).
      assert (Hspre : settled None ((evi ++ evu) ++ evl) = true)
        by (apply settled_app; [apply settled_app|]; assumption).
      destruct exit; cbn [snd outcome_of]; eauto.
      destruct (ResumeDevice_settled baseName w2) as (evr & Hgr & Hsr).
      destruct (ResumeDevice N baseName w2) as [rr w3]; cbn [snd] in *.
      exists (((evi ++ evu) ++ evl) ++ evr).
      split; [eapply grows_trans; eassumption | now apply settled_app].
  - destruct (alloc_loop_settled (snap_msg baseDeviceId) snap_context
                (rollback N false baseName) poolName fuel deviceId
                (rollback_settled false baseName) w0) as (evl & Hgl & Hsl).
    destruct (alloc_loop _ _ _ _ _ _ _ _) as [[exit id'] w2]; cbn [snd] in *.
    exists (evi ++ evl). split; [eapply grows_trans; eassumption|].
    now apply settled_app.
Qed.

End Cookies.

(** X2.  The operations that program a udev cookie leave none behind: every
    cookie the engine accepted is waited on exactly once, the wait is on the
    value the engine stored in the cookie, it comes before the function
    returns, and nothing else is waited on.  A cookie the engine refused is
    not waited on. *)
Theorem cookies_are_waited_on :
  forall E (N : Native E) (ioctl : Z -> Z + Z) (f1 f2 f3 : Z) fuel
         name poolName deviceId size baseName baseDeviceId
         dataFile metadataFile poolBlockSize,
    settles_its_cookies (RemoveDevice N name) /\
    settles_its_cookies (ResumeDevice N name) /\
    settles_its_cookies (ActivateDevice N poolName name deviceId size) /\
    settles_its_cookies
      (CreatePool N ioctl f1 f2 f3 poolName dataFile metadataFile poolBlockSize) /\
    settles_its_cookies
      (CreateSnapDevice N fuel poolName deviceId baseName baseDeviceId).
Proof.
  intros. repeat split.
  - apply RemoveDevice_settled.
  - apply ResumeDevice_settled.
  - apply ActivateDevice_settled.
  - apply CreatePool_settled.
  - apply CreateSnapDevice_settled.
Qed.

(** ** Retries *)

(** X4.  Nothing but the engine ends the retries: as long as every id tried
    collides, [CreateDevice] has not returned; after [k] collisions in a row
    it has sent [k] messages, the slot is [k] ids further, and the loop is
    still running. *)
Theorem CreateDevice_keeps_retrying :
  forall E (N : Native E) k poolName deviceId w w',
    collisions N poolName thin_msg k deviceId w w' ->
    CreateDevice N k poolName deviceId w = (Pending, Nat.iter k incr deviceId, w') /\
    exists evs, grows w w' evs /\
                messages evs = map thin_msg (ids_from deviceId k) /\
                count is_exists_failure evs = k.
Proof.
  intros E N k poolName deviceId w w' Hc. split.
  - rewrite CreateDevice_eq. replace k with (k + 0)%nat at 1 by lia.
    now rewrite (alloc_loop_collisions _ _ _ _ _ _ _ _ _ _ Hc).
  - revert deviceId w w' Hc.
    induction k as [|k IH]; intros deviceId w w' Hc; inversion Hc; subst.
    + exists []. repeat split. apply grows_refl.
    + match goal with Ha : attempt _ _ _ _ _ _ _ |- _ =>
        destruct (attempt_log _ _ _ _ _ _ _ Ha) as (evs1 & Hg1 & Hm1 & _ & _ & Hx1 & _)
      end.
      match goal with Hk : collisions _ _ _ _ _ _ _ |- _ =>
        destruct (IH _ _ _ Hk) as (evs2 & Hg2 & Hm2 & Hx2)
      end.
      exists (evs1 ++ evs2).
      rewrite messages_app, count_app, Hm1, Hm2, Hx1, Hx2, ids_from_S.
      match goal with Hr : _ <> 1 |- _ => apply Z.eqb_neq in Hr; rewrite Hr end.
      match goal with Hs : saw_exist _ = true |- _ => rewrite Hs end.
      repeat split. eapply grows_trans; eassumption.
Qed.

(** X4 on the simulated pool: with 5, 6 and 7 taken, three iterations are
    three collisions and no result. *)
Lemma CreateDevice_keeps_retrying_witness :
  exists w',
    CreateDevice Sim.engine 3 "pool" 5 (Sim.boot Sim.pool567) = (Pending, 8, w').
Proof.
  edestruct (CreateDevice_keeps_retrying _ Sim.engine 3 "pool" 5
               (Sim.boot Sim.pool567)) as (Hret & _).
  - sim_collision. sim_collision. sim_collision. apply collisions_O.
  - eexists. exact Hret.
Defined.

(** ** Stale flags *)

Section Flags.

Context {E : Type}.

Lemma rel_ret {A} kb ke (a : A) : rel (E:=E) kb ke kb ke (ret a).
Proof. intros w w' H. split; [reflexivity | exact H]. Qed.

Lemma rel_bind {A B} kb ke kb1 ke1 kb2 ke2 (m : M E A) (k : A -> M E B) :
  rel kb ke kb1 ke1 m ->
  (forall a, rel kb1 ke1 kb2 ke2 (k a)) ->
  rel kb ke kb2 ke2 (bind m k).
Proof.
  intros Hm Hk w w' H. unfold bind.
  destruct (Hm w w' H) as [Hfst Hsnd].
  destruct (m w) as [a w1], (m w') as [a' w1']. cbn in *. subst a'.
  exact (Hk a w1 w1' Hsnd).
Qed.

Lemma rel_forget {A} kb ke kb' ke' (m : M E A) :
  rel kb ke kb' ke' m -> rel kb ke false false m.
Proof.
  intros Hm w w' H. destruct (Hm w w' H) as [Hfst (He & Ht & _)].
  split; [exact Hfst|]. repeat split; auto; discriminate.
Qed.

Lemma rel_native {A} kb ke (f : E -> A * Captured * E) (c : A -> Call) :
  rel kb ke kb ke (native f c).
Proof.
  intros w w' (He & Ht & Hb & Hx). unfold native. rewrite <- He.
  destruct (f (eng w)) as [[a cap] e]. cbn.
  split; [reflexivity|]. repeat split; cbn.
  - now rewrite Ht.
  - intros Hk. now rewrite (Hb Hk).
  - intros Hk. now rewrite (Hx Hk).
Qed.

Lemma rel_set_dmSawBusy kb ke b : rel (E:=E) kb ke true ke (set_dmSawBusy b).
Proof. intros w w' (He & Ht & Hb & Hx). cbn. repeat split; auto. Qed.

Lemma rel_set_dmSawExist kb ke b : rel (E:=E) kb ke kb true (set_dmSawExist b).
Proof. intros w w' (He & Ht & Hb & Hx). cbn. repeat split; auto. Qed.

Lemma rel_get_dmSawBusy ke : rel (E:=E) true ke true ke get_dmSawBusy.
Proof. intros w w' H. split; [apply H; reflexivity | exact H]. Qed.

Lemma rel_get_dmSawExist kb : rel (E:=E) kb true kb true get_dmSawExist.
Proof. intros w w' H. split; [apply H; reflexivity | exact H]. Qed.

Lemma rel_defer {A B} kb ke kb1 ke1 kb2 ke2 (d : M E B) (body : M E A) :
  rel kb ke kb1 ke1 body -> rel kb1 ke1 kb2 ke2 d ->
  rel kb ke kb2 ke2 (defer d body).
Proof.
  intros Hb Hd. unfold defer. eapply rel_bind; [exact Hb|]. intros a.
  eapply rel_bind; [exact Hd|]. intros _. apply rel_ret.
Qed.

End Flags.

(** Code that neither reads nor writes the flags keeps whatever agreement
    there is. *)
Ltac keeps_flags :=
  repeat first
    [ apply rel_ret
    | apply rel_native
    | eapply rel_bind; [|intros ?]
    | eapply rel_defer
    | match goal with
      | |- rel _ _ _ _ (match ?x with _ => _ end) => destruct x
      | |- rel _ _ _ _ (let (_, _) := ?x in _) => destruct x
      end ].

Section FlagsOfOperations.

Context {E : Type} (N : Native E).

Lemma TaskCreateNamed_keeps kb ke t name :
  rel kb ke kb ke (TaskCreateNamed N t name).
Proof. unfold TaskCreateNamed, TaskCreate, SetName. keeps_flags. Qed.

Lemma Run_keeps kb ke t : rel kb ke kb ke (Run N t).
Proof. unfold Run. keeps_flags. Qed.

Lemma SetSector_keeps kb ke t sector : rel kb ke kb ke (SetSector N t sector).
Proof. unfold SetSector. keeps_flags. Qed.

Lemma SetMessage_keeps kb ke t message : rel kb ke kb ke (SetMessage N t message).
Proof. unfold SetMessage. keeps_flags. Qed.

Lemma SetCookie_keeps kb ke t cookie flags :
  rel kb ke kb ke (SetCookie N t cookie flags).
Proof. unfold SetCookie. keeps_flags. Qed.

Lemma UdevWait_keeps kb ke cookie : rel kb ke kb ke (UdevWait N cookie).
Proof. unfold UdevWait. keeps_flags. Qed.

Lemma Task_GetInfo_keeps kb ke t : rel kb ke kb ke (Task_GetInfo N t).
Proof. unfold Task_GetInfo. keeps_flags. Qed.

Lemma GetInfo_keeps kb ke name : rel kb ke kb ke (GetInfo N name).
Proof.
  unfold GetInfo.
  eapply rel_bind; [apply TaskCreateNamed_keeps|]. intros [[task|] err];
    [|apply rel_ret].
  eapply rel_bind; [apply Run_keeps|]. intros [err1|];
    [apply rel_ret | apply Task_GetInfo_keeps].
Qed.

Lemma SuspendDevice_keeps kb ke name : rel kb ke kb ke (SuspendDevice N name).
Proof.
  unfold SuspendDevice.
  eapply rel_bind; [apply TaskCreateNamed_keeps|]. intros [[task|] err];
    [|apply rel_ret].
  eapply rel_bind; [apply Run_keeps|]. intros [err1|]; apply rel_ret.
Qed.

Lemma ResumeDevice_keeps kb ke name : rel kb ke kb ke (ResumeDevice N name).
Proof.
  unfold ResumeDevice.
  eapply rel_bind; [apply TaskCreateNamed_keeps|]. intros [[task|] err];
    [|apply rel_ret].
  eapply rel_bind; [apply SetCookie_keeps|]. intros [[err1|] [cookie|]];
    try apply rel_ret.
  eapply rel_defer; [|apply UdevWait_keeps].
  eapply rel_bind; [apply Run_keeps|]. intros [err2|]; apply rel_ret.
Qed.

Lemma rollback_keeps kb ke doSuspend baseName :
  rel kb ke kb ke (rollback N doSuspend baseName).
Proof.
  destruct doSuspend; [|apply rel_ret].
  unfold rollback. eapply rel_bind; [apply ResumeDevice_keeps|].
  intros _. apply rel_ret.
Qed.

(** [RemoveDevice] clears [dmSawBusy] before it reads it. *)
Lemma RemoveDevice_rel kb ke name : rel kb ke false false (RemoveDevice N name).
Proof.
  unfold RemoveDevice.
  eapply rel_bind; [apply TaskCreateNamed_keeps|]. intros [[task|] err];
    [|eapply rel_forget; apply rel_ret].
  eapply rel_bind; [apply SetCookie_keeps|]. intros [[err1|] [cookie|]];
    try (eapply rel_forget; apply rel_ret).
  eapply rel_forget. eapply rel_defer; [|apply UdevWait_keeps].
  eapply rel_bind; [apply rel_set_dmSawBusy|]. intros _.
  eapply rel_bind; [apply Run_keeps|]. intros [err2|]; [|apply rel_ret].
  eapply rel_bind; [apply rel_get_dmSawBusy|]. intros [|]; apply rel_ret.
Qed.

(** The loops clear [dmSawExist] before they read it, in every iteration. *)
Lemma alloc_loop_rel msg context undo poolName :
  (forall kb ke, rel kb ke kb ke undo) ->
  forall fuel kb ke deviceId,
    rel kb ke false false (alloc_loop N msg context undo poolName fuel deviceId).
Proof.
  intros Hundo. induction fuel as [|fuel IH]; intros kb ke deviceId.
  - eapply rel_forget. apply rel_ret.
  - cbn [alloc_loop].
    eapply rel_bind; [apply TaskCreateNamed_keeps|]. intros [[task|] err].
    2: { eapply rel_forget. eapply rel_bind; [apply Hundo|].
         intros _. apply rel_ret. }
    eapply rel_bind; [apply SetSector_keeps|]. intros [err1|].
    { eapply rel_forget. eapply rel_bind; [apply Hundo|].
      intros _. apply rel_ret. }
    eapply rel_bind; [apply SetMessage_keeps|]. intros [err2|].
    { eapply rel_forget. eapply rel_bind; [apply Hundo|].
      intros _. apply rel_ret. }
    eapply rel_bind; [apply rel_set_dmSawExist|]. intros _.
    eapply rel_bind; [apply Run_keeps|]. intros [err3|].
    2: { eapply rel_forget. apply rel_ret. }
    eapply rel_bind; [apply rel_get_dmSawExist|]. intros [|]; [apply IH|].
    eapply rel_forget. eapply rel_bind; [apply Hundo|].
    intros _. apply rel_ret.
Qed.

Lemma CreateDevice_rel kb ke fuel poolName deviceId :
  rel kb ke false false (CreateDevice N fuel poolName deviceId).
Proof.
  intros w w' H. rewrite !CreateDevice_eq.
  destruct (alloc_loop_rel thin_msg thin_context (ret tt) poolName
              (fun kb ke => rel_ret kb ke tt) fuel kb ke deviceId w w' H)
    as [Hfst Hsnd].
  destruct (alloc_loop _ _ _ _ _ _ _ w) as [[exit id1] w1],
           (alloc_loop _ _ _ _ _ _ _ w') as [[exit' id1'] w1'].
  cbn in *. injection Hfst as -> ->. auto.
Qed.

Lemma CreateSnapDevice_rel kb ke fuel poolName deviceId baseName baseDeviceId :
  rel kb ke false false
      (CreateSnapDevice N fuel poolName deviceId baseName baseDeviceId).
Proof.
  unfold CreateSnapDevice.
  eapply rel_bind; [apply GetInfo_keeps|]. intros [devinfo e0]. cbv zeta.
  eapply rel_bind.
  { destruct (origin_exists devinfo); [apply SuspendDevice_keeps | apply rel_ret]. }
  intros [err|]; [eapply rel_forget; apply rel_ret|].
  eapply rel_bind.
  { intros w w' H.
    rewrite !CreateSnapDevice_for_alloc.
    exact (alloc_loop_rel (snap_msg baseDeviceId) snap_context
             (rollback N (origin_exists devinfo) baseName) poolName
             (fun kb ke => rollback_keeps kb ke _ _) fuel kb ke deviceId w w' H). }
  intros [[| |] id1]; try apply rel_ret.
  destruct (origin_exists devinfo); [|apply rel_ret].
  eapply rel_bind; [apply ResumeDevice_keeps|]. intros rr. apply rel_ret.
Qed.

End FlagsOfOperations.

(** X5.  The three operations that classify a failed run by a flag are not
    influenced by the value the flags had when they were called: started in
    two worlds with the same engine state, they return the same and drive
    the engine in the same way.  A "busy" or "already exists" left over from
    an earlier call never changes what [RemoveDevice], [CreateDevice] or
    [CreateSnapDevice] do. *)
Theorem stale_flags_do_not_matter :
  forall E (N : Native E) fuel name poolName deviceId baseName baseDeviceId,
    blind_to_stale_flags (RemoveDevice N name) /\
    blind_to_stale_flags (CreateDevice N fuel poolName deviceId) /\
    blind_to_stale_flags
      (CreateSnapDevice N fuel poolName deviceId baseName baseDeviceId).
Proof.
  intros E N fuel name poolName deviceId baseName baseDeviceId.
  assert (Hblind : forall A (op : M E A),
             rel false false false false op -> blind_to_stale_flags op).
  { intros A op Hrel w w' He Ht.
    destruct (Hrel w w') as [Hfst (He' & Ht' & _)]; [|auto].
    repeat split; auto; discriminate. }
  split; [|split]; apply Hblind.
  - apply RemoveDevice_rel.
  - apply CreateDevice_rel.
  - apply CreateSnapDevice_rel.
Qed.

(** X5 on the simulated engine: "ghost" is no device, so its removal fails
    without "busy"; a [dmSawBusy] left raised by an earlier call does not
    turn that into [ErrBusy]. *)
Lemma stale_flags_do_not_matter_witness :
  fst (RemoveDevice Sim.engine "ghost" (mkWorld Sim.pool567 true true []))
    = fst (RemoveDevice Sim.engine "ghost" (Sim.boot Sim.pool567)) /\
  fst (RemoveDevice Sim.engine "ghost" (mkWorld Sim.pool567 true true []))
    = Some (Errorf "Error running RemoveDevice dm_task_run failed").
Proof.
  split; [|vm_compute; reflexivity].
  apply (proj1 (stale_flags_do_not_matter _ Sim.engine 0 "ghost" "pool" 0 "base" 0));
    reflexivity.
Defined.

(** ** Results and what they say about the engine *)

(** X6.  [TaskCreateNamed] returns a task exactly when it returns no error,
    and [GetInfo] returns an [Info] exactly when it returns no error: the
    callers that test the pointer rather than the error ([task == nil],
    [devinfo != nil]) test the same thing. *)
Theorem nil_exactly_when_error :
  forall E (N : Native E) t name w,
    (fst (fst (TaskCreateNamed N t name w)) = None <->
     snd (fst (TaskCreateNamed N t name w)) <> nil_error) /\
    (fst (fst (GetInfo N name w)) = None <->
     snd (fst (GetInfo N name w)) <> nil_error).
Proof.
  intros E N t name w. split.
  - go_unfold. unfold nil_error. engine_cases; cbn; split; intros H; congruence.
  - go_unfold. unfold nil_error. engine_cases; cbn; split; intros H; congruence.
Qed.

(** X7.  [GetStatus] returns zero values with every error, and then has not
    asked the engine for a target.  Without an error, what it returns is the
    first target of the device as the engine gave it, asked for once, with
    cursor 0, after an info query that reported the device as existing. *)
Theorem GetStatus_values :
  forall E (N : Native E) name w,
  exists evs,
    grows w (snd (GetStatus N name w)) evs /\
    match fst (GetStatus N name w) with
    | (start, length, targetType, params, Some _) =>
        start = 0 /\ length = 0 /\ targetType = "" /\ params = "" /\
        count is_next_target evs = 0%nat
    | (start, length, targetType, params, None) =>
        count is_next_target evs = 1%nat /\
        exists evs0 t info c1 next c2,
          evs = evs0 ++ [mkEvent (CTaskGetInfo t (1, info)) c1;
                         mkEvent (CGetNextTarget t 0
                                    (next, start, length, targetType, params)) c2] /\
          Exists info <> 0
    end.
Proof.
  intros E N name w.
  destruct (GetStatus N name w) as [r w'] eqn:H. cbn [fst snd].
  invert_go H;
    repeat match goal with p : (Z * Info)%type |- _ => destruct p end;
    cbn [fst snd] in *; settle_tests; tidy_log;
    eexists; (split; [reflexivity|]); cbn; auto.
  split; [reflexivity|].
  match goal with H : (_ =? 1) = true |- _ => apply Z.eqb_eq in H; subst end.
  match goal with H : (Exists _ =? 0) = false |- _ => apply Z.eqb_neq in H end.
  eexists [_; _; _], _, _, _, _, _. split; [reflexivity | assumption].
Qed.

(** ** Snapshots *)

Section Prelude.

Context {E : Type} (N : Native E).

Lemma GetInfo_prelude name w :
  exists evs, grows w (snd (GetInfo N name w)) evs /\
              resumes evs = 0%nat /\ suspends evs = 0%nat /\ messages evs = [] /\
              count (is_create DeviceTargetMsg) evs = 0%nat.
Proof.
  go_unfold. engine_cases; tidy_log; eexists; (split; [reflexivity|]); cbn; auto.
Qed.

Lemma SuspendDevice_prelude name w :
  exists evs, grows w (snd (SuspendDevice N name w)) evs /\
              resumes evs = 0%nat /\ suspends evs = 1%nat /\ messages evs = [] /\
              count (is_create DeviceTargetMsg) evs = 0%nat.
Proof.
  go_unfold. engine_cases; tidy_log; eexists; (split; [reflexivity|]); cbn; auto.
Qed.

End Prelude.

(** X8.  [CreateSnapDevice] suspends the origin before it sets up its first
    message task and never afterwards.  The log of a call splits in two.
    The first part is the log of the info query followed, exactly when the
    query reports the origin as existing, by that of one [SuspendDevice]: it
    holds one suspend or none, no resume, no message and no message task.
    The second part, the retry loop and what comes after it, holds no
    suspend, however many ids are retried, and at most one resume, and none
    if the origin was not suspended. *)
Theorem CreateSnapDevice_suspends_once :
  forall E (N : Native E) fuel poolName deviceId baseName baseDeviceId w,
  exists pre post,
    grows w
      (snd ((if origin_exists (fst (fst (GetInfo N baseName w)))
             then SuspendDevice N baseName else ret nil_error)
              (snd (GetInfo N baseName w))))
      pre /\
    grows w (snd (CreateSnapDevice N fuel poolName deviceId baseName baseDeviceId w))
          (pre ++ post) /\
    suspends pre
      = (if origin_exists (fst (fst (GetInfo N baseName w))) then 1 else 0)%nat /\
    resumes pre = 0%nat /\ messages pre = [] /\
    count (is_create DeviceTargetMsg) pre = 0%nat /\
    suspends post = 0%nat /\
    (resumes post <= suspends pre)%nat.
Proof.
  intros E N fuel poolName deviceId baseName baseDeviceId w.
  destruct (GetInfo N baseName w) as [[devinfo e0] w0] eqn:Hinfo.
  rewrite (CreateSnapDevice_eq _ _ _ _ _ _ _ _ _ _ Hinfo). cbn [fst snd].
  destruct (GetInfo_prelude N baseName w) as (evi & Hgi & Hri & Hsi & Hmi & Hci).
  rewrite Hinfo in Hgi; cbn [snd] in Hgi.
  destruct (origin_exists devinfo).
  - destruct (SuspendDevice_prelude N baseName w0) as (evu & Hgu & Hru & Hsu & Hmu & Hcu).
    assert (Hpre : grows w (snd (SuspendDevice N baseName w0)) (evi ++ evu))
      by (eapply grows_trans; eassumption).
    exists (evi ++ evu).
    assert (Hfacts : suspends (evi ++ evu) = 1%nat /\ resumes (evi ++ evu) = 0%nat /\
                     messages (evi ++ evu) = [] /\
                     count (is_create DeviceTargetMsg) (evi ++ evu) = 0%nat).
    { unfold resumes, suspends in *.
      rewrite messages_app, !count_app, Hri, Hsi, Hru, Hsu, Hmi, Hmu, Hci, Hcu.
      repeat split. }
    destruct Hfacts as (Hs & Hr & Hm & Hc). rewrite Hs.
    destruct (SuspendDevice N baseName w0) as [[err|] w1]; cbn [snd] in *.
    + exists []. rewrite app_nil_r. repeat split; auto.
    + destruct (alloc_loop_report N (snap_msg baseDeviceId) snap_context
                  (rollback N true baseName) poolName fuel deviceId w1)
        as (w2 & evl & n & Hgl & Hrl & Hsl & _ & _ & Hexit).
      destruct (ResumeDevice_log N baseName w2) as (evr & Hgr & Hrr & Hsr & _).
      assert (Hall : grows w w2 ((evi ++ evu) ++ evl))
        by (eapply grows_trans; eassumption).
      unfold resumes, suspends in *.
      destruct (alloc_loop _ _ _ _ _ _ _ _) as [[[|err|] id'] wl];
        cbn [fst snd outcome_of] in *.
      * destruct Hexit as (-> & _). exists evl.
        rewrite Hrl, Hsl. repeat split; auto.
      * destruct Hexit as (-> & _). rewrite rollback_true.
        exists (evl ++ evr). rewrite !count_app, Hrl, Hsl, Hrr, Hsr.
        split; [assumption|].
        split; [rewrite app_assoc; eapply grows_trans; eassumption|].
        repeat split; auto; cbn; lia.
      * destruct Hexit as (-> & _).
        destruct (ResumeDevice N baseName w2) as [rr w3]; cbn [snd] in *.
        exists (evl ++ evr). rewrite !count_app, Hrl, Hsl, Hrr, Hsr.
        split; [assumption|].
        split; [rewrite app_assoc; eapply grows_trans; eassumption|].
        repeat split; auto; cbn; lia.
  - unfold ret at 1. cbn [snd].
    destruct (alloc_loop_no_rollback N (snap_msg baseDeviceId) snap_context poolName
                baseName fuel deviceId w0) as (evl & n & Hgl & Hrl & Hsl & _).
    destruct (alloc_loop _ _ _ _ _ _ _ _) as [[exit id'] wl]; cbn [snd] in *.
    exists evi, evl. rewrite Hrl, Hsl, Hsi.
    repeat split; auto. eapply grows_trans; eassumption.
Qed.

(** X9.  If the origin exists and suspending it fails, [CreateSnapDevice]
    gives up at once: it returns the error of [SuspendDevice] as it is,
    leaves the slot alone, sends no message and attempts no resume. *)
Theorem CreateSnapDevice_gives_up_when_suspend_fails :
  forall E (N : Native E) fuel poolName deviceId baseName baseDeviceId
         w info e0 w0 err w1,
    GetInfo N baseName w = (Some info, e0, w0) ->
    Exists info <> 0 ->
    SuspendDevice N baseName w0 = (Some err, w1) ->
    CreateSnapDevice N fuel poolName deviceId baseName baseDeviceId w
      = (Returned (Some err), deviceId, w1) /\
    exists evs, grows w w1 evs /\ messages evs = [] /\ resumes evs = 0%nat.
Proof.
  intros E N fuel poolName deviceId baseName baseDeviceId w info e0 w0 err w1
         Hinfo Hex Hsus.
  split.
  - rewrite (CreateSnapDevice_eq _ _ _ _ _ _ _ _ _ _ Hinfo). cbn [origin_exists].
    destruct (Z.eqb_spec (Exists info) 0) as [Hz|Hz]; [contradiction|].
    cbn [negb]. now rewrite Hsus.
  - destruct (GetInfo_log N baseName w) as (evi & Hgi & Hri & _ & Hmi).
    rewrite Hinfo in Hgi; cbn [snd] in Hgi.
    destruct (SuspendDevice_log N baseName w0) as (evu & Hgu & Hru & _ & Hmu).
    rewrite Hsus in Hgu; cbn [snd] in Hgu.
    exists (evi ++ evu). unfold resumes in *.
    rewrite messages_app, count_app, Hmi, Hmu, Hri, Hru.
    repeat split. eapply grows_trans; eassumption.
Qed.

(** X9 on a simulated engine that cannot run suspend tasks. *)
Lemma CreateSnapDevice_gives_up_when_suspend_fails_witness :
  exists w1,
    CreateSnapDevice Sim.engine 9 "pool" 5 "base" 5
      (Sim.boot (Sim.mkState [] [5] [("base", false)] [] [] [DeviceSuspend] 16777215))
    = (Returned (Some (Errorf "Error running DeviceSuspend dm_task_run failed")), 5, w1).
Proof.
  eexists.
  eapply (CreateSnapDevice_gives_up_when_suspend_fails _ Sim.engine);
    [run_sim | discriminate | run_sim].
Defined.

(** ** Single tasks *)

Ltac result_by_cases H :=
  invert_go H;
    repeat match goal with p : (Z * Z)%type |- _ => destruct p end;
    cbn [fst snd] in *; settle_tests; tidy_log;
    eexists; (split; [reflexivity|]); unfold count; cbn;
    repeat match goal with Hz : (?z =? 1) = _ |- _ => rewrite ?Hz end; cbn.

Ltac single_message_cases H :=
  invert_go H; tidy_log; eexists; (split; [reflexivity|]);
  unfold single_message_protocol, message_error, run_error, nil_error; cbn [calls map call];
  repeat match goal with
         | Hz : negb (?z =? 1) = false |- _ =>
             apply negb_false_iff, Z.eqb_eq in Hz; subst z
         | Hz : negb (?z =? 1) = true |- _ =>
             apply negb_true_iff in Hz
         end;
  first
    [ left; split; reflexivity
    | right; do 2 eexists; left; split; [apply Z.eqb_neq; eassumption|];
      split; reflexivity
    | right; do 2 eexists; right; left; split; [apply Z.eqb_neq; eassumption|];
      split; reflexivity
    | right; do 2 eexists; right; right; left;
      split; [apply Z.eqb_neq; eassumption|]; split; reflexivity
    | right; do 2 eexists; right; right; right; split; [reflexivity|];
      match goal with
      | Hz : (?z =? 1) = false |- _ => rewrite Hz
      | |- _ => idtac
      end; reflexivity ].

(** X10.  [RemoveDevice] runs its task at most once and reads its result
    off that run, whatever [dmSawBusy] was before the call: it returns
    [ErrBusy] exactly when the run failed and "busy" was heard during it,
    the generic run error exactly when the run failed and "busy" was not
    heard, and nil exactly when the run succeeded. *)
Theorem RemoveDevice_busy_exactly_when_heard :
  forall E (N : Native E) name w,
  exists evs,
    grows w (snd (RemoveDevice N name w)) evs /\
    (count is_run evs <= 1)%nat /\
    (fst (RemoveDevice N name w) = Some ErrBusy <->
     count is_busy_failure evs = 1%nat) /\
    (fst (RemoveDevice N name w) = run_error "Error running RemoveDevice " <->
     count is_other_failure evs = 1%nat) /\
    (fst (RemoveDevice N name w) = nil_error <->
     count is_successful_run evs = 1%nat).
Proof.
  intros E N name w.
  destruct (RemoveDevice N name w) as [r w'] eqn:H. cbn [fst snd].
  unfold run_error, nil_error.
  result_by_cases H;
    repeat match goal with
           | Hb : context [saw_busy ?c] |- _ => destruct (saw_busy c) eqn:?
           end;
    cbn in *; try discriminate;
    repeat match goal with
           | Hz : (?z =? 1) = _ |- _ => rewrite Hz in *; clear Hz
           | Hs : saw_busy ?c = _ |- _ => rewrite Hs in *; clear Hs
           end;
    cbn in *; (split; [lia|]);
    repeat split; intros; try reflexivity; try discriminate.
Qed.

(** X11.  [DeleteDevice] and [SetTransactionId] drive one message task and
    nothing else: they allocate one [DeviceTargetMsg] task, name it after
    the pool, set sector 0 and the text they format, and run it once.  They
    stop at the first call the engine turns down, with the error of that
    step; a failed run gives the generic run error whatever the callback
    heard, and is not tried again; no cookie is set and nothing is waited
    on. *)
Theorem single_messages_are_not_retried :
  forall E (N : Native E) poolName deviceId oldId newId w,
    (exists evs,
        grows w (snd (DeleteDevice N poolName deviceId w)) evs /\
        single_message_protocol poolName ("delete " +++ itoa deviceId)
          "Error running DeleteDevice "
          (fst (DeleteDevice N poolName deviceId w)) (calls evs)) /\
    (exists evs,
        grows w (snd (SetTransactionId N poolName oldId newId w)) evs /\
        single_message_protocol poolName
          ("set_transaction_id " +++ itoa oldId +++ " " +++ itoa newId)
          "Error running SetTransactionId "
          (fst (SetTransactionId N poolName oldId newId w)) (calls evs)).
Proof.
  intros E N poolName deviceId oldId newId w. split.
  - destruct (DeleteDevice N poolName deviceId w) as [r w'] eqn:H. cbn [fst snd].
    unfold DeleteDevice in H. single_message_cases H.
  - destruct (SetTransactionId N poolName oldId newId w) as [r w'] eqn:H.
    cbn [fst snd]. unfold SetTransactionId in H. single_message_cases H.
Qed.

(** X12.  [ActivateDevice] reports success exactly when the engine has been
    through the whole protocol on one task, each step up to the run
    answering 1: a [DeviceCreate] task named after the device, one "thin"
    target from sector 0 over [size / 512] sectors with parameters
    "<pool> <id>", node creation on create, a cookie with no flags, and the
    run.  The wait on the cookie the engine stored follows; what it answers
    is not looked at, so a failed wait does not make the activation fail.
    The add-node policy the function passes is always one that [SetAddNode]
    accepts. *)
Theorem ActivateDevice_protocol :
  forall E (N : Native E) poolName name deviceId size w,
  exists evs,
    grows w (snd (ActivateDevice N poolName name deviceId size w)) evs /\
    (fst (ActivateDevice N poolName name deviceId size w) = nil_error <->
     exists t cookie r,
       calls evs =
         [CTaskCreate DeviceCreate (Some t); CTaskSetName t name 1;
          CTaskAddTarget t 0 (size / 512) "thin" (poolName +++ " " +++ itoa deviceId) 1;
          CTaskSetAddNode t AddNodeOnCreate 1;
          CTaskSetCookie t 0 0 (1, cookie); CTaskRun t 1;
          CUdevWait cookie r]) /\
    fst (ActivateDevice N poolName name deviceId size w)
      <> Some (Errorf ("Can't add node " +++ Error ErrInvalidAddNode)).
Proof.
  intros E N poolName name deviceId size w.
  destruct (ActivateDevice N poolName name deviceId size w) as [r w'] eqn:H.
  cbn [fst snd]. unfold ActivateDevice, SetAddNode in H.
  change (negb (AddNodeOnCreate =? AddNodeOnResume)
          && negb (AddNodeOnCreate =? AddNodeOnCreate)) with false in H.
  cbv iota in H.
  result_by_cases H;
    (split; [split; [intros Hnil; try discriminate Hnil
                    |intros (t' & cookie' & r' & Hc); cbn in Hc;
                     try discriminate Hc]
            | try discriminate; try (vm_compute; discriminate)]).
  all: repeat match goal with
              | Hz : (_ =? 1) = true |- _ => apply Z.eqb_eq in Hz; subst
              end.
  all: try (do 3 eexists; reflexivity).
  all: try reflexivity.
  all: injection Hc as; intros; subst;
    match goal with Hz : (1 =? 1) = false |- _ => discriminate Hz end.
Qed.

(** X12 on the simulated engine: activating id 8 of "pool" as "thin-8". *)
Lemma ActivateDevice_protocol_witness :
  calls (trace (snd (ActivateDevice Sim.engine "pool" "thin-8" 8 10485760
                                    (Sim.boot Sim.pool567))))
  = [CTaskCreate DeviceCreate (Some 0%nat); CTaskSetName 0%nat "thin-8" 1;
     CTaskAddTarget 0%nat 0 20480 "thin" "pool 8" 1;
     CTaskSetAddNode 0%nat AddNodeOnCreate 1;
     CTaskSetCookie 0%nat 0 0 (1, 218169344); CTaskRun 0%nat 1;
     CUdevWait 218169344 1].
Proof.
  destruct (ActivateDevice_protocol _ Sim.engine "pool" "thin-8" 8 10485760
              (Sim.boot Sim.pool567)) as (evs & Hg & Hok & _).
  destruct (proj1 Hok) as (t & cookie & r & Hcalls); [vm_compute; reflexivity|].
  vm_compute. reflexivity.
Defined.

(** ** Pools *)

(** X13.  With the size of the data file at hand, [CreatePool] and
    [ReloadPool] hand the same target to the engine: one "thin-pool" target
    from sector 0 over the whole sectors of the data file (what is left of
    its size after the last multiple of 512 bytes is not covered), with the
    parameters "<metadata> <data> <block size> 32768 1 skip_block_zeroing".
    When they report success the engine has been through every step with
    answer 1; [CreatePool] programs a cookie with the three rule-disabling
    flags and waits on it, [ReloadPool] never sets a cookie and never
    waits. *)
Theorem pool_protocol :
  forall E (N : Native E) (ioctl : Z -> Z + Z) (f1 f2 f3 : Z)
         poolName dataFile metadataFile poolBlockSize size w,
    ioctl (Fd dataFile) = inl size ->
    (exists evs,
        grows w (snd (CreatePool N ioctl f1 f2 f3 poolName dataFile metadataFile
                                 poolBlockSize w)) evs /\
        (fst (CreatePool N ioctl f1 f2 f3 poolName dataFile metadataFile
                         poolBlockSize w) = nil_error ->
         exists t cookie r,
           calls evs =
             [CTaskCreate DeviceCreate (Some t); CTaskSetName t poolName 1;
              CTaskAddTarget t 0 (to_uint64 size / 512) "thin-pool"
                             (pool_params dataFile metadataFile poolBlockSize) 1;
              CTaskSetCookie t 0 (Z.lor (Z.lor f1 f2) f3) (1, cookie);
              CTaskRun t 1; CUdevWait cookie r])) /\
    (exists evs,
        grows w (snd (ReloadPool N ioctl poolName dataFile metadataFile
                                 poolBlockSize w)) evs /\
        (fst (ReloadPool N ioctl poolName dataFile metadataFile poolBlockSize w)
           = nil_error ->
         exists t,
           calls evs =
             [CTaskCreate DeviceReload (Some t); CTaskSetName t poolName 1;
              CTaskAddTarget t 0 (to_uint64 size / 512) "thin-pool"
                             (pool_params dataFile metadataFile poolBlockSize) 1;
              CTaskRun t 1]) /\
        count is_set_cookie evs = 0%nat /\ count is_udev_wait evs = 0%nat) /\
    512 * (to_uint64 size / 512) <= to_uint64 size < 512 * (to_uint64 size / 512) + 512.
Proof.
  intros E N ioctl f1 f2 f3 poolName dataFile metadataFile poolBlockSize size w Hsize.
  split; [|split].
  - destruct (CreatePool N ioctl f1 f2 f3 poolName dataFile metadataFile
                         poolBlockSize w) as [r w'] eqn:H.
    cbn [fst snd]. unfold CreatePool, GetBlockDeviceSize in H. rewrite Hsize in H.
    result_by_cases H; intros; try discriminate.
    all: repeat match goal with
                | Hz : (_ =? 1) = true |- _ => apply Z.eqb_eq in Hz; subst
                end.
    all: do 3 eexists; reflexivity.
  - destruct (ReloadPool N ioctl poolName dataFile metadataFile poolBlockSize w)
      as [r w'] eqn:H.
    cbn [fst snd]. unfold ReloadPool, GetBlockDeviceSize in H. rewrite Hsize in H.
    result_by_cases H; (split; [intros; try discriminate | split; reflexivity]).
    all: repeat match goal with
                | Hz : (_ =? 1) = true |- _ => apply Z.eqb_eq in Hz; subst
                end.
    all: eexists; reflexivity.
  - pose proof (Z.div_mod (to_uint64 size) 512 ltac:(lia)) as Hdm.
    pose proof (Z.mod_pos_bound (to_uint64 size) 512 ltac:(lia)) as Hb. lia.
Qed.

(** X13 on the simulated engine: a data file of 1 GiB and 100 bytes gives a
    pool of 2097152 sectors. *)
Lemma pool_protocol_witness :
  calls (trace (snd (CreatePool Sim.engine SimX.blk_size 2 4 8 "pool" SimX.data
                                SimX.meta 128 (Sim.boot Sim.pool567))))
  = [CTaskCreate DeviceCreate (Some 0%nat); CTaskSetName 0%nat "pool" 1;
     CTaskAddTarget 0%nat 0 2097152 "thin-pool"
       "/dev/loop1 /dev/loop0 128 32768 1 skip_block_zeroing" 1;
     CTaskSetCookie 0%nat 0 14 (1, 218169344); CTaskRun 0%nat 1;
     CUdevWait 218169344 1] /\
  512 * 2097152 <= 1073741924 < 512 * 2097152 + 512.
Proof.
  destruct (pool_protocol _ Sim.engine SimX.blk_size 2 4 8 "pool" SimX.data SimX.meta
              128 1073741924 (Sim.boot Sim.pool567) eq_refl)
    as ((evs & Hg & Hok) & _ & Hsectors).
  split; [vm_compute; reflexivity | exact Hsectors].
Defined.

(** X14.  When the size of the data file cannot be read, [CreatePool] and
    [ReloadPool] fail before any target is added: if the task could be
    built they return "Can't get data size" with [ErrGetBlockSize], the
    task they allocated and named is left without target and is never run,
    and no cookie is set. *)
Theorem pool_without_size :
  forall E (N : Native E) (ioctl : Z -> Z + Z) (f1 f2 f3 : Z)
         poolName dataFile metadataFile poolBlockSize errno w,
    ioctl (Fd dataFile) = inr errno ->
    (exists evs,
        grows w (snd (CreatePool N ioctl f1 f2 f3 poolName dataFile metadataFile
                                 poolBlockSize w)) evs /\
        Forall (fun ev => is_naming_call ev = true) evs /\
        (fst (fst (TaskCreateNamed N DeviceCreate poolName w)) <> None ->
         fst (CreatePool N ioctl f1 f2 f3 poolName dataFile metadataFile
                         poolBlockSize w)
           = Some (Errorf ("Can't get data size " +++ Error ErrGetBlockSize))) /\
        fst (CreatePool N ioctl f1 f2 f3 poolName dataFile metadataFile
                        poolBlockSize w) <> nil_error) /\
    (exists evs,
        grows w (snd (ReloadPool N ioctl poolName dataFile metadataFile
                                 poolBlockSize w)) evs /\
        Forall (fun ev => is_naming_call ev = true) evs /\
        (fst (fst (TaskCreateNamed N DeviceReload poolName w)) <> None ->
         fst (ReloadPool N ioctl poolName dataFile metadataFile poolBlockSize w)
           = Some (Errorf ("Can't get data size " +++ Error ErrGetBlockSize))) /\
        fst (ReloadPool N ioctl poolName dataFile metadataFile poolBlockSize w)
          <> nil_error).
Proof.
  intros E N ioctl f1 f2 f3 poolName dataFile metadataFile poolBlockSize errno w Hsize.
  split.
  - unfold CreatePool, GetBlockDeviceSize. rewrite Hsize.
    destruct (TaskCreateNamed N DeviceCreate poolName w) as [[[task|] err] w1] eqn:H1;
      rewrite (bind_eq _ _ _ _ _ H1); cbv beta iota; unfold ret; cbn [fst snd];
      invert_go H1; tidy_log; eexists; (split; [reflexivity|]);
      (split; [repeat (apply Forall_cons; [reflexivity|]); apply Forall_nil|]);
      unfold nil_error; split; intros; congruence.
  - unfold ReloadPool, GetBlockDeviceSize. rewrite Hsize.
    destruct (TaskCreateNamed N DeviceReload poolName w) as [[[task|] err] w1] eqn:H1;
      rewrite (bind_eq _ _ _ _ _ H1); cbv beta iota; unfold ret; cbn [fst snd];
      invert_go H1; tidy_log; eexists; (split; [reflexivity|]);
      (split; [repeat (apply Forall_cons; [reflexivity|]); apply Forall_nil|]);
      unfold nil_error; split; intros; congruence.
Qed.

(** X14 on the simulated engine: the ioctl fails on the descriptor of
    [SimX.broken]. *)
Lemma pool_without_size_witness :
  fst (CreatePool Sim.engine SimX.blk_size 2 4 8 "pool" SimX.broken SimX.meta 128
                  (Sim.boot Sim.pool567))
  = Some (Errorf "Can't get data size Can't get block size") /\
  calls (trace (snd (CreatePool Sim.engine SimX.blk_size 2 4 8 "pool" SimX.broken
                                SimX.meta 128 (Sim.boot Sim.pool567))))
  = [CTaskCreate DeviceCreate (Some 0%nat); CTaskSetName 0%nat "pool" 1].
Proof.
  destruct (pool_without_size _ Sim.engine SimX.blk_size 2 4 8 "pool" SimX.broken
              SimX.meta 128 25 (Sim.boot Sim.pool567) eq_refl)
    as ((evs & Hg & Hnaming & Herr & _) & _).
  split; [|vm_compute; reflexivity].
  rewrite Herr; [reflexivity | vm_compute; discriminate].
Defined.

(** ** Loopback and block devices *)

Lemma File_eqb_refl f : File_eqb f f = true.
Proof. unfold File_eqb. now rewrite String.eqb_refl, Z.eqb_refl. Qed.

Section LoopbackFacts.

Context {T : Type} (Y : Sys T).

(** One turn of the search loop. *)
Lemma FindLoopDeviceFor_for_S fuel dev ino i h :
  FindLoopDeviceFor_for Y (S fuel) dev ino i h =
  match os_OpenFile Y (loop_path i) (sys h) with
  | (inr e, s1) =>
      let h1 := mkHost s1 (syscalls h ++ [SOpen (loop_path i) (inr e)]) in
      if IsNotExist e then (Some None, h1)
      else FindLoopDeviceFor_for Y fuel dev ino (incr i) h1
  | (inl f, s1) =>
      let (r, s2) := ioctlLoopGetStatus64 Y (Fd f) s1 in
      let cs := syscalls h ++ [SOpen (loop_path i) (inl f);
                               SLoopGetStatus (Fd f) r] in
      if backs dev ino r then (Some (Some f), mkHost s2 cs)
      else FindLoopDeviceFor_for Y fuel dev ino (incr i)
             (mkHost (file_Close Y f s2) (cs ++ [SClose f]))
  end.
Proof.
  cbn [FindLoopDeviceFor_for]. change ("/dev/loop" +++ itoa i) with (loop_path i).
  unfold io_bind at 1. unfold syscall at 1.
  destruct (os_OpenFile Y (loop_path i) (sys h)) as [[f|e] s1]; cbv zeta.
  - unfold io_bind at 1. unfold getLoopbackBackingFile, io_bind, syscall.
    cbn [sys syscalls].
    destruct (ioctlLoopGetStatus64 Y (Fd f) s1) as [[[d n]|e] s2];
      unfold io_ret, sysact, backs, nil_error; cbn [andb].
    + destruct ((d =? dev) && (n =? ino)); cbn [sys syscalls];
        rewrite <- ?app_assoc; reflexivity.
    + cbn [sys syscalls]. rewrite <- ?app_assoc. reflexivity.
  - destruct (IsNotExist e); reflexivity.
Qed.

Lemma FindLoopDeviceFor_for_held fuel dev ino :
  forall i h,
    exists cs,
      syscalls (snd (FindLoopDeviceFor_for Y fuel dev ino i h)) = syscalls h ++ cs /\
      held None cs =
      Some (match fst (FindLoopDeviceFor_for Y fuel dev ino i h) with
            | Some (Some f) => Some f
            | _ => None
            end).
Proof.
  induction fuel as [|fuel IH]; intros i h.
  - exists []. cbn. now rewrite app_nil_r.
  - rewrite FindLoopDeviceFor_for_S.
    destruct (os_OpenFile Y (loop_path i) (sys h)) as [[f|e] s1]; cbv zeta.
    + destruct (ioctlLoopGetStatus64 Y (Fd f) s1) as [r s2].
      destruct (backs dev ino r).
      * eexists. cbn [fst snd syscalls]. split; [reflexivity|].
        cbn. now rewrite Z.eqb_refl.
      * edestruct IH as [cs [Hcs Hheld]]. rewrite Hcs. cbn [syscalls].
        exists ([SOpen (loop_path i) (inl f); SLoopGetStatus (Fd f) r; SClose f] ++ cs).
        split; [now rewrite <- !app_assoc|].
        cbn [held app]. rewrite Z.eqb_refl, File_eqb_refl. exact Hheld.
    + destruct (IsNotExist e).
      * eexists. cbn [fst snd syscalls]. split; reflexivity.
      * edestruct IH as [cs [Hcs Hheld]]. rewrite Hcs. cbn [syscalls].
        exists (SOpen (loop_path i) (inr e) :: cs).
        split; [now rewrite <- app_assoc|exact Hheld].
Qed.

Lemma FindLoopDeviceFor_for_search fuel dev ino :
  forall i h,
    exists cs,
      syscalls (snd (FindLoopDeviceFor_for Y fuel dev ino i h)) = syscalls h ++ cs /\
      search_ends dev ino i (fst (FindLoopDeviceFor_for Y fuel dev ino i h)) cs.
Proof.
  induction fuel as [|fuel IH]; intros i h.
  - exists []. cbn. now rewrite app_nil_r.
  - rewrite FindLoopDeviceFor_for_S.
    destruct (os_OpenFile Y (loop_path i) (sys h)) as [[f|e] s1]; cbv zeta.
    + destruct (ioctlLoopGetStatus64 Y (Fd f) s1) as [r s2].
      destruct (backs dev ino r) eqn:Hr.
      * exists [SOpen (loop_path i) (inl f); SLoopGetStatus (Fd f) r].
        cbn [fst snd syscalls]. split; [reflexivity|].
        unfold search_ends. cbn [misses].
        destruct r as [[d n]|e]; [|discriminate].
        cbn [backs] in Hr. apply andb_prop in Hr as [Hd Hn].
        apply Z.eqb_eq in Hd, Hn. now subst.
      * edestruct IH as [cs [Hcs Hends]]. rewrite Hcs. cbn [syscalls].
        exists ([SOpen (loop_path i) (inl f); SLoopGetStatus (Fd f) r; SClose f] ++ cs).
        split; [now rewrite <- !app_assoc|].
        unfold search_ends. cbn [misses app].
        rewrite String.eqb_refl, Z.eqb_refl, File_eqb_refl, Hr. cbn [andb negb].
        exact Hends.
    + destruct (IsNotExist e) eqn:He.
      * exists [SOpen (loop_path i) (inr e)].
        cbn [fst snd syscalls]. split; [reflexivity|].
        unfold search_ends. cbn [misses]. rewrite He, andb_false_r.
        now exists e.
      * edestruct IH as [cs [Hcs Hends]]. rewrite Hcs. cbn [syscalls].
        exists (SOpen (loop_path i) (inr e) :: cs).
        split; [now rewrite <- app_assoc|].
        unfold search_ends. cbn [misses].
        rewrite String.eqb_refl, He. cbn [andb negb].
        exact Hends.
Qed.

Lemma FindLoopDeviceFor_for_returns dev ino n :
  0 <= n <= MaxInt ->
  (forall s, exists e,
      fst (os_OpenFile Y (loop_path n) s) = inr e /\ IsNotExist e = true) ->
  forall fuel i h,
    0 <= i <= n ->
    (Z.to_nat (n - i) < fuel)%nat ->
    fst (FindLoopDeviceFor_for Y fuel dev ino i h) <> None.
Proof.
  intros Hn Hgone. induction fuel as [|fuel IH]; intros i h Hi Hfuel; [lia|].
  rewrite FindLoopDeviceFor_for_S.
  assert (Hnext : i < n -> incr i = i + 1).
  { intros Hlt. apply incr_small; unfold MinInt, MaxInt, intSize in *; lia. }
  destruct (Z.eq_dec i n) as [->|Hne].
  - destruct (Hgone (sys h)) as [e [Hopen He]].
    destruct (os_OpenFile Y (loop_path n) (sys h)) as [[f|e'] s1];
      cbn [fst] in Hopen; [discriminate|].
    injection Hopen as ->. cbv zeta. rewrite He. discriminate.
  - destruct (os_OpenFile Y (loop_path i) (sys h)) as [[f|e] s1]; cbv zeta.
    + destruct (ioctlLoopGetStatus64 Y (Fd f) s1) as [st s2].
      destruct (backs dev ino st); [discriminate|].
      rewrite Hnext by lia. apply IH; lia.
    + destruct (IsNotExist e); [discriminate|].
      rewrite Hnext by lia. apply IH; lia.
Qed.

End LoopbackFacts.

(** X15. Whatever the system answers and however long the search runs,
    [FindLoopDeviceFor] opens one loop device at a time, asks for the loop
    status only of the device it has just opened, and closes every device
    it opened before it opens the next one; at the end it holds open the
    file it gives back, and nothing when it gives back nil. *)
Theorem FindLoopDeviceFor_holds_only_its_result :
  forall {T} (Y : Sys T) fuel file h,
  exists cs,
    syscalls (snd (FindLoopDeviceFor Y fuel file h)) = syscalls h ++ cs /\
    held None cs =
    Some (match fst (FindLoopDeviceFor Y fuel file h) with
          | Some (Some f) => Some f
          | _ => None
          end).
Proof.
  intros T Y fuel file h. unfold FindLoopDeviceFor, io_bind, syscall.
  destruct (file_Stat Y file (sys h)) as [[[dev ino]|e] s1].
  - edestruct (FindLoopDeviceFor_for_held Y fuel dev ino 0) as [cs [Hcs Hheld]].
    rewrite Hcs. cbn [syscalls].
    exists (SStat file (inl (dev, ino)) :: cs).
    split; [now rewrite <- app_assoc|exact Hheld].
  - exists [SStat file (inr e)]. split; reflexivity.
Qed.

(** X16. The file [FindLoopDeviceFor] gives back is the first match: after
    the [Stat] of the file it was given, it probes [/dev/loop0],
    [/dev/loop1], ... in this order; every probe before the last one either
    failed to open with an error other than not-exist, or was opened, did
    not report the wanted device and inode as its backing file, and was
    closed.  The search gives back nil only when [Stat] fails or an open
    reports not-exist, and a file only when its loop status reports exactly
    the device and inode of the file it was given. *)
Theorem FindLoopDeviceFor_first_match :
  forall {T} (Y : Sys T) fuel file h,
  exists cs,
    syscalls (snd (FindLoopDeviceFor Y fuel file h)) = syscalls h ++ cs /\
    search_log file (fst (FindLoopDeviceFor Y fuel file h)) cs.
Proof.
  intros T Y fuel file h. unfold FindLoopDeviceFor, io_bind, syscall.
  destruct (file_Stat Y file (sys h)) as [[[dev ino]|e] s1].
  - edestruct (FindLoopDeviceFor_for_search Y fuel dev ino 0) as [cs [Hcs Hends]].
    rewrite Hcs. cbn [syscalls].
    exists (SStat file (inl (dev, ino)) :: cs).
    split; [now rewrite <- app_assoc|].
    cbn [search_log]. split; [reflexivity|exact Hends].
  - exists [SStat file (inr e)]. cbn [fst snd syscalls search_log].
    repeat split.
Qed.

(** X17. The search ends: when [/dev/loop<n>] does not exist, whatever else
    the system does, [FindLoopDeviceFor] returns after at most [n + 1]
    turns of its loop. *)
Theorem FindLoopDeviceFor_ends_at_a_missing_device :
  forall {T} (Y : Sys T) file h n fuel,
    0 <= n <= MaxInt ->
    (forall s, exists e,
        fst (os_OpenFile Y (loop_path n) s) = inr e /\ IsNotExist e = true) ->
    (Z.to_nat n < fuel)%nat ->
    fst (FindLoopDeviceFor Y fuel file h) <> None.
Proof.
  intros T Y file h n fuel Hn Hgone Hfuel.
  unfold FindLoopDeviceFor, io_bind, syscall.
  destruct (file_Stat Y file (sys h)) as [[[dev ino]|e] s1]; [|discriminate].
  apply (FindLoopDeviceFor_for_returns Y dev ino n Hn Hgone); [lia|].
  now rewrite Z.sub_0_r.
Qed.

Lemma FindLoopDeviceFor_ends_at_a_missing_device_witness :
  fst (FindLoopDeviceFor SimOs.linux 5
         (mkFile "/var/lib/docker/devicemapper/metadata" 9) SimOs.start)
  <> None.
Proof.
  apply (FindLoopDeviceFor_ends_at_a_missing_device SimOs.linux _ _ 4 5).
  - unfold MaxInt, intSize. lia.
  - intros s. eexists. split; reflexivity.
  - cbn. lia.
Defined.

Lemma BlockDeviceDiscard_log :
  forall {T} (Y : Sys T) ioctlBlkGetSize64 path h,
  exists cs,
    syscalls (snd (BlockDeviceDiscard Y ioctlBlkGetSize64 path h)) = syscalls h ++ cs /\
    discard_log ioctlBlkGetSize64 path
      (fst (BlockDeviceDiscard Y ioctlBlkGetSize64 path h)) cs.
Proof.
  intros T Y ioctl path h.
  destruct (BlockDeviceDiscard Y ioctl path h) as [out h'] eqn:H.
  cbn [fst snd]. revert H.
  unfold BlockDeviceDiscard, io_defer, GetBlockDeviceSize, io_bind, syscall,
    sysact, io_ret, nil_error.
  destruct (os_OpenFile Y path (sys h)) as [[f|e] s1].
  - destruct (ioctl (Fd f)) as [size|e] eqn:Hsize; cbn [sys syscalls].
    + destruct (ioctlBlkDiscard Y (Fd f) 0 (to_uint64 size) s1) as [[e|] s2];
        cbn [sys syscalls]; intros H; injection H as <- <-; cbn [syscalls];
        rewrite <- ?app_assoc; cbn [app];
        (eexists; split; [reflexivity|]); unfold discard_log.
      * right; right; left. exists f, size, e. now rewrite Hsize.
      * right; right; right. exists f, size. now rewrite Hsize.
    + intros H; injection H as <- <-; cbn [syscalls].
      rewrite <- ?app_assoc; cbn [app].
      (eexists; split; [reflexivity|]); unfold discard_log.
      right; left. exists f, e. now rewrite Hsize.
  - intros H; injection H as <- <-; cbn [syscalls].
    exists [SOpen path (inr e)]. split; [reflexivity|].
    left. now exists e.
Qed.

(** X19. On every path [BlockDeviceDiscard] closes the device it opened, and
    the close is its last call: when the open fails it is the only call;
    otherwise the log starts with the open of [path] and ends with the close
    of the file that open gave, anything else, the sync included, lies
    between the two, nothing is opened or closed in between, and a discard
    is only made on the descriptor of that file while it is open. *)
Theorem BlockDeviceDiscard_closes_the_device :
  forall {T} (Y : Sys T) ioctlBlkGetSize64 path h,
  exists cs,
    syscalls (snd (BlockDeviceDiscard Y ioctlBlkGetSize64 path h)) = syscalls h ++ cs /\
    held None cs = Some None /\
    ((exists e, cs = [SOpen path (inr e)]) \/
     (exists f mid, cs = SOpen path (inl f) :: mid ++ [SClose f])).
Proof.
  intros T Y ioctl path h.
  destruct (BlockDeviceDiscard_log Y ioctl path h) as [cs [Hcs Hlog]].
  exists cs. split; [exact Hcs|].
  destruct Hlog as [[e [-> _]]|[[f [e [-> _]]]|[[f [size [e [-> _]]]]|[f [size [-> _]]]]]];
    (split; [cbn; now rewrite ?Z.eqb_refl, ?File_eqb_refl|]).
  - left. now exists e.
  - right. now exists f, [].
  - right. now exists f, [SBlkDiscard (Fd f) 0 (to_uint64 size) (Some e)].
  - right. now exists f, [SBlkDiscard (Fd f) 0 (to_uint64 size) None; SSync].
Qed.

(** X20. [BlockDeviceDiscard] returns nil exactly when it has discarded the
    whole device: the range that starts at 0 and has the length the size
    ioctl reported for the opened descriptor, followed by a sync before the
    close.  When it returns an error it has not synced. *)
Theorem BlockDeviceDiscard_nil_exactly_when_discarded :
  forall {T} (Y : Sys T) ioctlBlkGetSize64 path h,
  exists cs,
    syscalls (snd (BlockDeviceDiscard Y ioctlBlkGetSize64 path h)) = syscalls h ++ cs /\
    (fst (BlockDeviceDiscard Y ioctlBlkGetSize64 path h) = None <->
     exists f size,
       ioctlBlkGetSize64 (Fd f) = inl size /\
       cs = [SOpen path (inl f);
             SBlkDiscard (Fd f) 0 (to_uint64 size) None;
             SSync;
             SClose f]) /\
    (fst (BlockDeviceDiscard Y ioctlBlkGetSize64 path h) <> None ->
     ~ In SSync cs).
Proof.
  intros T Y ioctl path h.
  destruct (BlockDeviceDiscard_log Y ioctl path h) as [cs [Hcs Hlog]].
  exists cs. split; [exact Hcs|].
  destruct Hlog as [[e [-> ->]]|[[f [e [-> [Hsz ->]]]]|[[f [size [e [-> [Hsz ->]]]]]|[f [size [-> [Hsz ->]]]]]]];
    (split;
     [split;
      [intros H; try discriminate H; now exists f, size
      |intros [f' [size' [_ Heq]]]; try discriminate Heq; reflexivity]
     |intros Hne Hin; try (now elim Hne); cbn in Hin; intuition discriminate]).
Qed.
